(** * OptimusDDC catalog adapter: response normalisation, URI codec,
      entity mapping and search ranking

    A shallow embedding of the core of
    [metadata_service/proxy/optimusdb_proxy.py] (class [OptimusDBProxy])
    and of the reply parser of
    [search_service/proxy/optimusdb_search.py] (class
    [OptimusDBSearchProxy]), with the properties the design document
    states about them.

    Conventions of the embedding.
    - A Python [str] is a [string]; a character is a code point below 256.
    - A value that travels through JSON is a [pyval]; a [dict] is an
      association list in insertion order (Python dicts iterate in
      insertion order), well-formed when its keys are pairwise distinct.
    - A Python exception is a value of [exn]; code that may raise lives
      in the [result] monad, and [try ... except Exception] is [catch].
    - [json.loads] and [json.dumps] are the decoder and the encoder of
      the standard library with their default settings. An [int] is a
      [Z]; a [float] is carried as the literal that denotes it, so two
      literals of one number are two values. A unicode escape of a code
      point above 255 has no value here and is a decode error.
    - The HTTP transport is an argument: a function from the SQL text of
      the command envelope to the outcome of [session.post]. *)

From Stdlib Require Import String Ascii List ZArith Bool Arith Lia Sorted.
From Stdlib Require Import DecimalString DecimalZ DecimalFacts.
Import ListNotations.
Local Open Scope list_scope.
Local Open Scope string_scope.

(* ================================================================== *)
(** * Python layer: exceptions, strings, values *)
(* ================================================================== *)

Module Py.

(** ** Exceptions and the error monad *)

Inductive exn : Type :=
| TypeError
| AttributeError
| KeyError
| IndexError
| JSONDecodeError
| ConnectionError.

Inductive result (A : Type) : Type :=
| Ok (a : A)
| Raise (e : exn).

Arguments Ok {A} a.
Arguments Raise {A} e.

Definition bind {A B : Type} (c : result A) (k : A -> result B) : result B :=
  match c with
  | Ok a => k a
  | Raise e => Raise e
  end.

(** [try: c except Exception: h] *)
Definition catch {A : Type} (c : result A) (h : exn -> A) : A :=
  match c with
  | Ok a => a
  | Raise e => h e
  end.

Definition is_ok {A : Type} (c : result A) : bool :=
  match c with Ok _ => true | Raise _ => false end.

(** ** Characters *)

Definition dquote : ascii := "034"%char.
Definition backslash : ascii := "092"%char.

Definition code (c : ascii) : nat := nat_of_ascii c.

Definition in_range (lo hi : nat) (c : ascii) : bool :=
  (lo <=? code c)%nat && (code c <=? hi)%nat.

(** [str.isspace] on one code point below 256. *)
Definition is_space (c : ascii) : bool :=
  in_range 9 13 c || in_range 28 32 c
  || (code c =? 133)%nat || (code c =? 160)%nat.

(** Upper-case letters below 256: A-Z, and the Latin-1 capitals
    U+00C0..U+00DE without the multiplication sign U+00D7. *)
Definition is_upper (c : ascii) : bool :=
  in_range 65 90 c
  || (in_range 192 222 c && negb (code c =? 215)%nat).

Definition lower_char (c : ascii) : ascii :=
  if is_upper c then ascii_of_nat (code c + 32) else c.

(** ** [str] methods *)

Fixpoint map_chars (f : ascii -> ascii) (s : string) : string :=
  match s with
  | EmptyString => EmptyString
  | String c r => String (f c) (map_chars f r)
  end.

(** [s.lower()] *)
Definition lower (s : string) : string := map_chars lower_char s.

(** [s.startswith(p)] *)
Fixpoint startswith (s p : string) {struct p} : bool :=
  match p with
  | EmptyString => true
  | String a p' =>
      match s with
      | EmptyString => false
      | String b s' => Ascii.eqb a b && startswith s' p'
      end
  end.

Fixpoint drop (n : nat) (s : string) : string :=
  match n with
  | O => s
  | S n' => match s with
            | EmptyString => EmptyString
            | String _ r => drop n' r
            end
  end.

(** [p in s] for strings *)
Fixpoint contains (s p : string) : bool :=
  startswith s p
  || match s with
     | EmptyString => false
     | String _ r => contains r p
     end.

(** The text before and after the leftmost occurrence of [p] in [s]
    ([s.partition(p)] without the separator), [None] when [p] does not
    occur. *)
Fixpoint find_sub (p s : string) : option (string * string) :=
  if startswith s p then Some (EmptyString, drop (String.length p) s)
  else match s with
       | EmptyString => None
       | String c r =>
           match find_sub p r with
           | Some (a, b) => Some (String c a, b)
           | None => None
           end
       end.

(** [s.split(sep)] for a non-empty separator; the fuel bounds the number
    of cuts and [split] supplies the length of the text. *)
Fixpoint split_fuel (fuel : nat) (sep s : string) : list string :=
  match find_sub sep s with
  | None => [s]
  | Some (a, b) =>
      match fuel with
      | O => [a; b]
      | S n => a :: split_fuel n sep b
      end
  end.

Definition split (sep s : string) : list string :=
  split_fuel (String.length s) sep s.

(** [s.split(sep, 1)] *)
Definition split1 (sep s : string) : list string :=
  match find_sub sep s with
  | None => [s]
  | Some (a, b) => [a; b]
  end.

(** [s.replace(old, new)] for a non-empty [old]. *)
Fixpoint replace_fuel (fuel : nat) (old new s : string) : string :=
  match find_sub old s with
  | None => s
  | Some (a, b) =>
      match fuel with
      | O => a ++ new ++ b
      | S n => a ++ new ++ replace_fuel n old new b
      end
  end.

Definition replace (old new s : string) : string :=
  replace_fuel (String.length s) old new s.

Fixpoint lstrip (s : string) : string :=
  match s with
  | EmptyString => EmptyString
  | String c r => if is_space c then lstrip r else s
  end.

Fixpoint rstrip (s : string) : string :=
  match s with
  | EmptyString => EmptyString
  | String c r =>
      match rstrip r with
      | EmptyString => if is_space c then EmptyString else String c EmptyString
      | r' => String c r'
      end
  end.

(** [s.strip()] *)
Definition strip (s : string) : string := rstrip (lstrip s).

(** Replacing one character by another is a character map. *)
Definition swap (x y : ascii) (c : ascii) : ascii :=
  if Ascii.eqb c x then y else c.

(** A character map [f] that no character of [p] can come out of or
    disappear into. *)
Fixpoint untouched (f : ascii -> ascii) (p : string) : Prop :=
  match p with
  | EmptyString => True
  | String c p' => (forall b, Ascii.eqb c (f b) = Ascii.eqb c b) /\ untouched f p'
  end.

Definition nonempty (s : string) : bool :=
  match s with EmptyString => false | _ => true end.

(** ** Values *)

(** A float, by the literal [json.dumps] writes for it: an integer
    part, fraction digits and an exponent (one of the two may be
    missing), or one of the three non-finite values. *)
Inductive float_lit : Type :=
| FDec (i : Decimal.signed_int) (f : Decimal.uint)
       (e : option Decimal.signed_int)
| FNaN
| FInf (negative : bool).

Unset Elimination Schemes.

Inductive pyval : Type :=
| PNone
| PBool (b : bool)
| PInt (z : Z)
| PFloat (x : float_lit)
| PStr (s : string)
| PList (l : list pyval)
| PDict (d : list (string * pyval)).

Set Elimination Schemes.

Definition dict : Type := list (string * pyval).

(** Induction that reaches the elements of lists and the values of
    dicts. *)
Fixpoint pyval_ind (P : pyval -> Prop)
    (HNone : P PNone)
    (HBool : forall b, P (PBool b))
    (HInt : forall z, P (PInt z))
    (HFloat : forall x, P (PFloat x))
    (HStr : forall s, P (PStr s))
    (HList : forall l, Forall P l -> P (PList l))
    (HDict : forall d, Forall (fun kv => P (snd kv)) d -> P (PDict d))
    (v : pyval) {struct v} : P v :=
  let rec := pyval_ind P HNone HBool HInt HFloat HStr HList HDict in
  match v with
  | PNone => HNone
  | PBool b => HBool b
  | PInt z => HInt z
  | PFloat x => HFloat x
  | PStr s => HStr s
  | PList l =>
      HList l ((fix go (l : list pyval) : Forall P l :=
                  match l with
                  | [] => Forall_nil P
                  | x :: r => Forall_cons x (rec x) (go r)
                  end) l)
  | PDict d =>
      HDict d ((fix go (d : dict) : Forall (fun kv => P (snd kv)) d :=
                  match d with
                  | [] => Forall_nil _
                  | kv :: r => Forall_cons kv (rec (snd kv)) (go r)
                  end) d)
  end.

(** ** [dict] operations *)

(** [k in d] *)
Fixpoint dict_mem (d : dict) (k : string) : bool :=
  match d with
  | [] => false
  | (k', _) :: r => String.eqb k k' || dict_mem r k
  end.

Fixpoint dict_find (d : dict) (k : string) : option pyval :=
  match d with
  | [] => None
  | (k', v) :: r => if String.eqb k k' then Some v else dict_find r k
  end.

(** [d.get(k, default)] *)
Definition dict_get (d : dict) (k : string) (default : pyval) : pyval :=
  match dict_find d k with
  | Some v => v
  | None => default
  end.

(** [d[k] = v]: an existing key keeps its position. *)
Fixpoint dict_set (d : dict) (k : string) (v : pyval) : dict :=
  match d with
  | [] => [(k, v)]
  | (k', v') :: r =>
      if String.eqb k k' then (k', v) :: r else (k', v') :: dict_set r k v
  end.

Definition keys (d : dict) : list string := map fst d.

(** ** Dynamic operations on values *)

Fixpoint all_zero (u : Decimal.uint) : bool :=
  match u with
  | Decimal.Nil => true
  | Decimal.D0 r => all_zero r
  | _ => false
  end.

(** [bool(v)] *)
Definition truthy (v : pyval) : bool :=
  match v with
  | PNone => false
  | PBool b => b
  | PInt z => negb (z =? 0)%Z
  | PFloat (FDec i f _) => negb (all_zero (Decimal.abs i) && all_zero f)
  | PFloat _ => true
  | PStr s => nonempty s
  | PList l => match l with [] => false | _ => true end
  | PDict d => match d with [] => false | _ => true end
  end.

Definition isinstance_str (v : pyval) : bool :=
  match v with PStr _ => true | _ => false end.

Definition isinstance_dict (v : pyval) : bool :=
  match v with PDict _ => true | _ => false end.

(** [v.get(k, default)]: only a dict has [get]. *)
Definition py_get (v : pyval) (k : string) (default : pyval) : result pyval :=
  match v with
  | PDict d => Ok (dict_get d k default)
  | _ => Raise AttributeError
  end.

(** [v.lower()]: only a str has [lower]. *)
Definition py_lower (v : pyval) : result string :=
  match v with
  | PStr s => Ok (lower s)
  | _ => Raise AttributeError
  end.

Fixpoint chars (s : string) : list pyval :=
  match s with
  | EmptyString => []
  | String c r => PStr (String c EmptyString) :: chars r
  end.

(** [for x in v]: the items the loop visits. *)
Definition py_iter (v : pyval) : result (list pyval) :=
  match v with
  | PList l => Ok l
  | PDict d => Ok (map (fun kv => PStr (fst kv)) d)
  | PStr s => Ok (chars s)
  | _ => Raise TypeError
  end.

(** [v[0]]: a dict decoded from JSON has string keys only, so the
    integer key is missing. *)
Definition py_first (v : pyval) : result pyval :=
  match v with
  | PList (x :: _) => Ok x
  | PList [] => Raise IndexError
  | PStr (String c _) => Ok (PStr (String c EmptyString))
  | PStr EmptyString => Raise IndexError
  | PDict _ => Raise KeyError
  | _ => Raise TypeError
  end.

(** [hash(v)] succeeds except on lists and dicts. *)
Definition hashable (v : pyval) : bool :=
  match v with
  | PList _ | PDict _ => false
  | _ => true
  end.

(** [v in seen] for a set [seen] of strings: the lookup hashes [v]
    first; no non-string equals a string. *)
Definition in_str_set (v : pyval) (seen : list string) : result bool :=
  match v with
  | PStr s => Ok (existsb (String.eqb s) seen)
  | PList _ | PDict _ => Raise TypeError
  | _ => Ok false
  end.

(** ** Further operations *)

Definition nl : string := String "010" EmptyString.

(** A run of [n] spaces, the indentation inside a multi-line text. *)
Fixpoint indent (n : nat) : string :=
  match n with
  | O => EmptyString
  | S n' => String " " (indent n')
  end.

(** [sep.join(l)] *)
Fixpoint join (sep : string) (l : list string) : string :=
  match l with
  | [] => EmptyString
  | x :: r =>
      match r with
      | [] => x
      | _ => x ++ sep ++ join sep r
      end
  end.

(** [a or b] *)
Definition py_or (a b : pyval) : pyval := if truthy a then a else b.

(** [v != s] for a str [s]: only a str can be equal to it. *)
Definition py_ne_str (v : pyval) (s : string) : bool :=
  match v with
  | PStr t => negb (String.eqb t s)
  | _ => true
  end.

(** [v.split(sep)]: only a str has [split]. *)
Definition py_split (sep : string) (v : pyval) : result (list string) :=
  match v with
  | PStr s => Ok (split sep s)
  | _ => Raise AttributeError
  end.

(** [k in v] for a str [k]: a key of a dict, a substring of a str, an
    element of a list. *)
Definition py_in (k : string) (v : pyval) : result bool :=
  match v with
  | PDict d => Ok (dict_mem d k)
  | PStr s => Ok (contains s k)
  | PList l =>
      Ok (existsb (fun x => match x with
                            | PStr s => String.eqb s k
                            | _ => false
                            end) l)
  | _ => Raise TypeError
  end.

(** [v[k]] for a str [k] *)
Definition py_getitem (v : pyval) (k : string) : result pyval :=
  match v with
  | PDict d =>
      match dict_find d k with
      | Some x => Ok x
      | None => Raise KeyError
      end
  | _ => Raise TypeError
  end.

(** [v[k] = x] for a str [k] *)
Definition py_setitem (v : pyval) (k : string) (x : pyval) : result pyval :=
  match v with
  | PDict d => Ok (PDict (dict_set d k x))
  | _ => Raise TypeError
  end.

(** [len(v)] *)
Definition py_len (v : pyval) : result Z :=
  match v with
  | PStr s => Ok (Z.of_nat (String.length s))
  | PList l => Ok (Z.of_nat (List.length l))
  | PDict d => Ok (Z.of_nat (List.length d))
  | _ => Raise TypeError
  end.

(** [sorted(l)] for strings: ascending by code points. *)
Fixpoint insert_sorted (x : string) (l : list string) : list string :=
  match l with
  | [] => [x]
  | y :: r => if String.leb x y then x :: l else y :: insert_sorted x r
  end.

Fixpoint sorted (l : list string) : list string :=
  match l with
  | [] => []
  | x :: r => insert_sorted x (sorted r)
  end.

(** [s.add(x)] on a set of strings, kept as a list without repetition. *)
Definition set_add (x : string) (s : list string) : list string :=
  if existsb (String.eqb x) s then s else (s ++ [x])%list.

End Py.

Export Py.

Declare Scope py_scope.
Delimit Scope py_scope with py.
Notation "x <- c ;; k" := (bind c (fun x => k))
  (at level 61, c at next level, right associativity) : py_scope.
Local Open Scope py_scope.

(* ================================================================== *)
(** * The [json] module *)
(* ================================================================== *)

Module Json.

Import Decimal.

(** ** [json.dumps] *)

Definition hex_digit (n : nat) : ascii :=
  if (n <? 10)%nat then ascii_of_nat (48 + n) else ascii_of_nat (87 + n).

(** The escape of one character, as [ensure_ascii=True] writes it. *)
Definition escape_char (c : ascii) : string :=
  if Ascii.eqb c dquote then String backslash (String dquote EmptyString)
  else if Ascii.eqb c backslash then String backslash (String backslash EmptyString)
  else if Ascii.eqb c "010" then String backslash "n"
  else if Ascii.eqb c "013" then String backslash "r"
  else if Ascii.eqb c "009" then String backslash "t"
  else if Ascii.eqb c "008" then String backslash "b"
  else if Ascii.eqb c "012" then String backslash "f"
  else if in_range 32 126 c then String c EmptyString
  else String backslash
         (String "u" (String "0" (String "0"
            (String (hex_digit (code c / 16))
               (String (hex_digit (code c mod 16)) EmptyString))))).

Fixpoint escape (s : string) : string :=
  match s with
  | EmptyString => EmptyString
  | String c r => escape_char c ++ escape r
  end.

Definition quote (s : string) : string :=
  String dquote (escape s ++ String dquote EmptyString).

Definition print_int (i : signed_int) : string :=
  match i with
  | Pos u => NilEmpty.string_of_uint u
  | Neg u => String "-" (NilEmpty.string_of_uint u)
  end.

Definition print_frac (f : uint) : string :=
  match f with
  | Nil => EmptyString
  | _ => "." ++ NilEmpty.string_of_uint f
  end.

Definition print_exp (e : option signed_int) : string :=
  match e with
  | None => EmptyString
  | Some (Pos d) => "e+" ++ NilEmpty.string_of_uint d
  | Some (Neg d) => "e-" ++ NilEmpty.string_of_uint d
  end.

Definition print_float (x : float_lit) : string :=
  match x with
  | FDec i f e => print_int i ++ print_frac f ++ print_exp e
  | FNaN => "NaN"
  | FInf false => "Infinity"
  | FInf true => "-Infinity"
  end.

(** Elements and members are joined by a comma and a space, a key and
    its value by a colon and a space (the default separators). *)
Definition dump_items (dump : pyval -> string) : list pyval -> string :=
  fix items (l : list pyval) : string :=
    match l with
    | [] => EmptyString
    | x :: r =>
        match r with
        | [] => dump x
        | _ => dump x ++ ", " ++ items r
        end
    end.

Definition dump_members (dump : pyval -> string) : dict -> string :=
  fix members (d : dict) : string :=
    match d with
    | [] => EmptyString
    | kv :: r =>
        match r with
        | [] => quote (fst kv) ++ ": " ++ dump (snd kv)
        | _ => quote (fst kv) ++ ": " ++ dump (snd kv) ++ ", " ++ members r
        end
    end.

Fixpoint dumps (v : pyval) : string :=
  match v with
  | PNone => "null"
  | PBool true => "true"
  | PBool false => "false"
  | PInt z => print_int (Z.to_int z)
  | PFloat x => print_float x
  | PStr s => quote s
  | PList l => "[" ++ dump_items dumps l ++ "]"
  | PDict d => "{" ++ dump_members dumps d ++ "}"
  end.

(** The values that are equal to what [json.loads] reads from their
    print: a float literal has a normal integer part, a fraction or an
    exponent, and a digit in its exponent; NaN, which is not equal to
    itself, is left out; the keys of a dict are pairwise distinct. *)
Definition is_nil (u : uint) : bool :=
  match u with Nil => true | _ => false end.

Definition wf_float (x : float_lit) : bool :=
  match x with
  | FDec i f e =>
      uint_beq (abs i) (unorm (abs i))
      && (negb (is_nil f) || match e with Some _ => true | None => false end)
      && match e with Some d => negb (is_nil (abs d)) | None => true end
  | FNaN => false
  | FInf _ => true
  end.

Fixpoint distinct (l : list string) : bool :=
  match l with
  | [] => true
  | k :: r => negb (existsb (String.eqb k) r) && distinct r
  end.

Fixpoint wf (v : pyval) : bool :=
  match v with
  | PFloat x => wf_float x
  | PList l => forallb wf l
  | PDict d => distinct (map fst d) && forallb (fun kv => wf (snd kv)) d
  | _ => true
  end.

(** ** [json.loads] *)

Definition is_ws (c : ascii) : bool :=
  Ascii.eqb c " " || Ascii.eqb c "009" || Ascii.eqb c "010" || Ascii.eqb c "013".

Fixpoint skip_ws (s : string) : string :=
  match s with
  | EmptyString => EmptyString
  | String c r => if is_ws c then skip_ws r else s
  end.

Definition hex_val (c : ascii) : option nat :=
  if in_range 48 57 c then Some (code c - 48)
  else if in_range 97 102 c then Some (code c - 87)
  else if in_range 65 70 c then Some (code c - 55)
  else None.

(** The character a four-digit unicode escape denotes, when it is
    below 256. *)
Definition hex4 (a b c d : ascii) : option ascii :=
  match hex_val a, hex_val b, hex_val c, hex_val d with
  | Some 0, Some 0, Some h, Some l => Some (ascii_of_nat (16 * h + l))
  | _, _, _, _ => None
  end.

Definition unescape (e : ascii) : option ascii :=
  if Ascii.eqb e dquote then Some dquote
  else if Ascii.eqb e backslash then Some backslash
  else if Ascii.eqb e "/" then Some "/"%char
  else if Ascii.eqb e "n" then Some "010"%char
  else if Ascii.eqb e "r" then Some "013"%char
  else if Ascii.eqb e "t" then Some "009"%char
  else if Ascii.eqb e "b" then Some "008"%char
  else if Ascii.eqb e "f" then Some "012"%char
  else None.

Definition push (c : ascii) (o : option (string * string)) :
    option (string * string) :=
  match o with
  | Some (s, r) => Some (String c s, r)
  | None => None
  end.

(** The string literal that continues after its opening quote: its
    content and the text after the closing quote. *)
Fixpoint scan_string (s : string) : option (string * string) :=
  match s with
  | EmptyString => None
  | String c r =>
      if Ascii.eqb c dquote then Some (EmptyString, r)
      else if Ascii.eqb c backslash then
        match r with
        | EmptyString => None
        | String e r1 =>
            if Ascii.eqb e "u" then
              match r1 with
              | String h1 (String h2 (String h3 (String h4 r2))) =>
                  match hex4 h1 h2 h3 h4 with
                  | Some ch => push ch (scan_string r2)
                  | None => None
                  end
              | _ => None
              end
            else
              match unescape e with
              | Some ch => push ch (scan_string r1)
              | None => None
              end
        end
      else if (code c <? 32)%nat then None
      else push c (scan_string r)
  end.

Definition digit_of (c : ascii) : option (uint -> uint) :=
  if Ascii.eqb c "0" then Some D0
  else if Ascii.eqb c "1" then Some D1
  else if Ascii.eqb c "2" then Some D2
  else if Ascii.eqb c "3" then Some D3
  else if Ascii.eqb c "4" then Some D4
  else if Ascii.eqb c "5" then Some D5
  else if Ascii.eqb c "6" then Some D6
  else if Ascii.eqb c "7" then Some D7
  else if Ascii.eqb c "8" then Some D8
  else if Ascii.eqb c "9" then Some D9
  else None.

Definition is_digit (c : ascii) : bool :=
  match digit_of c with Some _ => true | None => false end.

(** The longest run of digits at the head of [s]. *)
Fixpoint read_digits (s : string) : uint * string :=
  match s with
  | EmptyString => (Nil, EmptyString)
  | String c r =>
      match digit_of c with
      | Some d => let (u, r') := read_digits r in (d u, r')
      | None => (Nil, s)
      end
  end.

(** The text after the character [c], when [s] starts with it. *)
Definition expect (c : ascii) (s : string) : option string :=
  match s with
  | String c' r => if Ascii.eqb c' c then Some r else None
  | EmptyString => None
  end.

(** The fraction of a number: a point and at least one digit, or
    nothing. [None] when a point has no digit after it. *)
Definition parse_frac (s : string) : option (uint * string) :=
  match expect "." s with
  | Some r =>
      let (f, r') := read_digits r in
      if is_nil f then None else Some (f, r')
  | None => Some (Nil, s)
  end.

(** The exponent of a number: [e] or [E], an optional sign and at least
    one digit, or nothing. [None] when the mark has no digit after
    it. *)
Definition parse_exp (s : string) : option (option signed_int * string) :=
  match s with
  | String c r =>
      if Ascii.eqb c "e" || Ascii.eqb c "E" then
        let (neg, r1) :=
          match expect "-" r, expect "+" r with
          | Some r', _ => (true, r')
          | None, Some r' => (false, r')
          | None, None => (false, r)
          end in
        let (d, r2) := read_digits r1 in
        if is_nil d then None
        else Some (Some (if neg then Neg d else Pos d), r2)
      else Some (None, s)
  | EmptyString => Some (None, s)
  end.

(** An optional minus sign, an integer part, an optional fraction and an
    optional exponent; an integer part is accepted when it is its own
    normal form (one zero, or no leading zero). A number without
    fraction and exponent is an [int]. Where the number pattern of the
    decoder would stop before a point or an exponent mark that no digit
    follows, every caller rejects the text; so does this function. *)
Definition parse_number (s : string) : option (pyval * string) :=
  let (neg, s1) := match expect "-" s with
                   | Some r => (true, r)
                   | None => (false, s)
                   end in
  let (u, s2) := read_digits s1 in
  let i := if neg then Neg u else Pos u in
  if negb (uint_beq u (unorm u)) then None
  else match parse_frac s2 with
       | None => None
       | Some (f, s3) =>
           match parse_exp s3 with
           | None => None
           | Some (e, s4) =>
               if is_nil f && match e with None => true | Some _ => false end
               then Some (PInt (Z.of_int i), s4)
               else Some (PFloat (FDec i f e), s4)
           end
       end.

(** [dict(pairs)]: a repeated key keeps its first position and its last
    value. *)
Definition dict_of_pairs (kvs : list (string * pyval)) : dict :=
  fold_left (fun d kv => dict_set d (fst kv) (snd kv)) kvs [].

(** One value at the head of [s] and the text after it. Every call
    spends one unit of fuel; [loads_text] supplies more than the text
    has characters. *)
Fixpoint parse_value (fuel : nat) (s : string) : option (pyval * string) :=
  match fuel with
  | O => None
  | S n =>
      match s with
      | EmptyString => None
      | String c r =>
          if is_digit c || Ascii.eqb c "-" then
            match parse_number s with
            | Some x => Some x
            | None =>
                if startswith s "-Infinity"
                then Some (PFloat (FInf true), drop 9 s)
                else None
            end
          else if Ascii.eqb c dquote then
            match scan_string r with
            | Some (str, r') => Some (PStr str, r')
            | None => None
            end
          else if Ascii.eqb c "[" then
            match expect "]" (skip_ws r) with
            | Some r' => Some (PList [], r')
            | None =>
                match parse_elements n (skip_ws r) with
                | Some (l, r') => Some (PList l, r')
                | None => None
                end
            end
          else if Ascii.eqb c "{" then
            match expect "}" (skip_ws r) with
            | Some r' => Some (PDict [], r')
            | None =>
                match parse_members n (skip_ws r) with
                | Some (kvs, r') => Some (PDict (dict_of_pairs kvs), r')
                | None => None
                end
            end
          else if startswith s "null" then Some (PNone, drop 4 s)
          else if startswith s "true" then Some (PBool true, drop 4 s)
          else if startswith s "false" then Some (PBool false, drop 5 s)
          else if startswith s "NaN" then Some (PFloat FNaN, drop 3 s)
          else if startswith s "Infinity"
          then Some (PFloat (FInf false), drop 8 s)
          else None
      end
  end

with parse_elements (fuel : nat) (s : string) : option (list pyval * string) :=
  match fuel with
  | O => None
  | S n =>
      match parse_value n s with
      | None => None
      | Some (v, r) =>
          match expect "," (skip_ws r) with
          | Some r1 =>
              match parse_elements n (skip_ws r1) with
              | Some (vs, r2) => Some (v :: vs, r2)
              | None => None
              end
          | None =>
              match expect "]" (skip_ws r) with
              | Some r1 => Some ([v], r1)
              | None => None
              end
          end
      end
  end

with parse_members (fuel : nat) (s : string)
    : option (list (string * pyval) * string) :=
  match fuel with
  | O => None
  | S n =>
      match expect dquote s with
      | None => None
      | Some r =>
          match scan_string r with
          | None => None
          | Some (k, r1) =>
              match expect ":" (skip_ws r1) with
              | None => None
              | Some r2 =>
                  match parse_value n (skip_ws r2) with
                  | None => None
                  | Some (v, r3) =>
                      match expect "," (skip_ws r3) with
                      | Some r4 =>
                          match parse_members n (skip_ws r4) with
                          | Some (kvs, r5) => Some ((k, v) :: kvs, r5)
                          | None => None
                          end
                      | None =>
                          match expect "}" (skip_ws r3) with
                          | Some r4 => Some ([(k, v)], r4)
                          | None => None
                          end
                      end
                  end
              end
          end
      end
  end.

(** [json.loads(s)] for a [str] argument: one value, then only white
    space. [None] stands for [json.JSONDecodeError]. *)
Definition loads_text (s : string) : option pyval :=
  match parse_value (S (String.length s)) (skip_ws s) with
  | Some (v, r) =>
      match skip_ws r with
      | EmptyString => Some v
      | _ => None
      end
  | None => None
  end.

(** [json.loads(v)] for any argument: a non-string raises [TypeError]. *)
Definition loads (v : pyval) : result pyval :=
  match v with
  | PStr s => match loads_text s with
              | Some x => Ok x
              | None => Raise JSONDecodeError
              end
  | _ => Raise TypeError
  end.

(** What may follow a number in a text: nothing that would lengthen
    it. *)
Definition starts_digit (s : string) : bool :=
  match s with
  | String c _ => is_digit c
  | EmptyString => false
  end.

Definition continues_number (s : string) : bool :=
  match s with
  | String c _ => Ascii.eqb c "e" || Ascii.eqb c "E" || Ascii.eqb c "."
  | EmptyString => false
  end.

Definition tail_ok (rest : string) : bool :=
  negb (starts_digit rest) && negb (continues_number rest).

(** The characters a printed value can start with. *)
Definition value_start (c : ascii) : bool :=
  is_digit c || Ascii.eqb c "-" || Ascii.eqb c dquote || Ascii.eqb c "["
  || Ascii.eqb c "{" || Ascii.eqb c "n" || Ascii.eqb c "t" || Ascii.eqb c "f"
  || Ascii.eqb c "N" || Ascii.eqb c "I".

Definition head_is (P : ascii -> bool) (s : string) : bool :=
  match s with
  | String c _ => P c
  | EmptyString => false
  end.

(** [v] is read back from its print, whatever harmless text follows. *)
Definition reads_back (v : pyval) : Prop :=
  wf v = true ->
  forall (fuel : nat) (rest : string),
    (String.length (dumps v) <= fuel)%nat ->
    tail_ok rest = true ->
    parse_value fuel (dumps v ++ rest) = Some (v, rest).

(** Writes a text with apostrophes in place of double quotes. *)
Definition q (s : string) : string :=
  map_chars (fun c => if Ascii.eqb c "'" then dquote else c) s.

End Json.

(* ================================================================== *)
(** * The HTTP transport *)
(* ================================================================== *)

Module Http.

(** What the code reads of a [requests.Response]. *)
Record response : Type := mk_response {
  ok : bool;
  status_code : Z;
  text : string
}.

(** [session.post(url, json=payload, timeout=...)]: the backend is
    opaque; the only varying part of the payload is its [sqldml] text. *)
Definition transport : Type := string -> result response.

(** [response.json()] *)
Definition response_json (r : response) : result pyval :=
  Json.loads (PStr (text r)).

End Http.

Export Http.

(* ================================================================== *)
(** * [OptimusDBSearchProxy]: the reply parser of the search service *)
(* ================================================================== *)

Module OptimusDBSearchProxy.

Definition empty_reply : pyval :=
  PDict [("data", PDict [("records", PList [])])].

(** [_parse_optimusdb_response]: one re-parse of a string-wrapped
    reply. *)
Definition _parse_optimusdb_response (response : Http.response) : pyval :=
  catch
    (result <- response_json response ;;
     match result with
     | PStr _ =>
         match Json.loads result with
         | Ok result' =>
             Ok (if isinstance_dict result' then result' else empty_reply)
         | Raise JSONDecodeError => Ok empty_reply
         | Raise e => Raise e
         end
     | _ => Ok (if isinstance_dict result then result else empty_reply)
     end)
    (fun _ => empty_reply).

End OptimusDBSearchProxy.

(* ================================================================== *)
(** * [OptimusDBProxy]: the metadata service proxy *)
(* ================================================================== *)

Module OptimusDBProxy.

(** ** Response parser *)

Definition empty_reply : pyval :=
  PDict [("data", PDict [("records", PList [])])].

Definition max_unwrap_attempts : nat := 5.

(** The [while isinstance(result, str) and attempts < max] loop, counted
    by the attempts that remain. [inl] is the [return] inside the loop
    ([json.JSONDecodeError] on a wrapped text), [inr] the value the loop
    leaves in [result]. *)
Fixpoint unwrap (remaining : nat) (result : pyval) : pyval + pyval :=
  match remaining, result with
  | S n, PStr s =>
      match Json.loads result with
      | Ok result' => unwrap n result'
      | Raise _ =>
          inl (PDict [("error", PStr s);
                      ("data", PDict [("records", PList [])])])
      end
  | _, _ => inr result
  end.

Definition _parse_optimusdb_response (response : Http.response) : pyval :=
  catch
    (result <- response_json response ;;
     match unwrap max_unwrap_attempts result with
     | inl early => Ok early
     | inr result =>
         match result with
         | PDict d =>
             if negb (dict_mem d "data") && negb (dict_mem d "records") then
               if dict_mem d "error" || dict_mem d "message" then
                 Ok (PDict
                       [("error",
                         dict_get d "error"
                           (dict_get d "message" (PStr "Unknown error")));
                        ("data", PDict [("records", PList [])])])
               else Ok empty_reply
             else Ok result
         | _ => Ok empty_reply
         end
     end)
    (fun _ => empty_reply).

(** [json_resp.get("data", {}).get("records", [])], the way every caller
    reads the record set out of a parsed reply. *)
Definition records_of (json_resp : pyval) : result pyval :=
  data <- py_get json_resp "data" (PDict []) ;;
  py_get data "records" (PList []).

Definition _execute_sql (post : transport) (sql : string) : pyval :=
  catch
    (resp <- post sql ;;
     if negb (ok resp) then Ok empty_reply
     else Ok (_parse_optimusdb_response resp))
    (fun _ => empty_reply).

(** ** URI codec *)

(** [s or default] on strings *)
Definition or_else (s default : string) : string :=
  if nonempty s then s else default.

Definition _build_table_key (database schema name : string) : string :=
  let database := replace " " "_" (or_else database "optimusdb") in
  let schema := replace " " "_" (or_else schema "public") in
  let name := replace " " "_" (or_else name "unknown") in
  database ++ "://default." ++ schema ++ "/" ++ name.

Record table_id : Type := mk_table_id {
  database : string;
  schema : string;
  name : string
}.

Definition unknown_table : table_id :=
  mk_table_id "optimusdb" "default" "unknown".

(** On a [str] argument no statement of the [try] block raises; the
    [except] branch answers [unknown_table]. *)
Definition _parse_table_uri (table_uri : string) : table_id :=
  let table_uri := replace "%20" " " (strip table_uri) in
  let parts := split "://" table_uri in
  let database :=
    if (1 <? List.length parts)%nat then nth 0 parts EmptyString
    else "optimusdb" in
  let rest :=
    if (1 <? List.length parts)%nat then nth 1 parts EmptyString
    else table_uri in
  if contains rest "/" then
    match split1 "/" rest with
    | [cluster_schema; name] =>
        let schema :=
          if contains cluster_schema "." then
            nth 1 (split1 "." cluster_schema) EmptyString
          else "default" in
        mk_table_id database (replace "_" " " schema) (replace "_" " " name)
    | _ => unknown_table
    end
  else
    mk_table_id database (replace "_" " " "default") (replace "_" " " rest).

(** ** Columns *)

Definition _infer_type (value : pyval) : string :=
  match value with
  | PBool _ => "boolean"
  | PInt _ => "int"
  | PFloat _ => "float"
  | _ => "varchar"
  end.

(** The module-level [_infer_column_type] that
    [_build_columns_from_record_enhanced] calls. *)
Definition _infer_column_type (value : pyval) : string :=
  match value with
  | PNone => "varchar"
  | PBool _ => "boolean"
  | PInt _ => "int"
  | PFloat _ => "float"
  | PStr s =>
      if contains s "T" && (contains s "-" || contains s ":") then "timestamp"
      else "varchar"
  | _ => "varchar"
  end.

Definition is_lower (c : ascii) : bool :=
  in_range 97 122 c
  || (in_range 224 254 c && negb (code c =? 247)%nat).

(** [s.upper()]; the three code points below 256 whose capital lies
    outside the model stay as they are, which no comparison with an
    ASCII word can observe. *)
Definition upper (s : string) : string :=
  map_chars (fun c => if is_lower c then ascii_of_nat (code c - 32) else c) s.

Definition mem (s : string) (l : list string) : bool :=
  existsb (String.eqb s) l.

Record stat : Type := mk_stat {
  stat_type : string;
  stat_val : string
}.

Record column : Type := mk_column {
  col_name : string;
  col_description : string;
  col_type : string;
  sort_order : Z;
  stats : list stat
}.

(** The first loop: [schema_map[col_name] = col_type]. A key that is
    hashable but not a string is never equal to a field name, so it is
    not kept. *)
Fixpoint build_schema_map (schema_info : list pyval) (schema_map : dict)
    : result dict :=
  match schema_info with
  | [] => Ok schema_map
  | col :: rest =>
      col_name <- py_get col "name" (PStr EmptyString) ;;
      col_type <- py_get col "type" (PStr "varchar") ;;
      if truthy col_name then
        match col_name with
        | PStr k => build_schema_map rest (dict_set schema_map k col_type)
        | PList _ | PDict _ => Raise TypeError
        | _ => build_schema_map rest schema_map
        end
      else build_schema_map rest schema_map
  end.

(** "Simplify type names for display" *)
Definition simplify_type (col_type : string) : string :=
  if mem (upper col_type) ["TEXT"; "VARCHAR"; "STRING"; "CHAR"] then "varchar"
  else if mem (upper col_type) ["INT"; "INTEGER"; "BIGINT"; "SMALLINT"] then "int"
  else if mem (upper col_type) ["FLOAT"; "DOUBLE"; "DECIMAL"; "NUMERIC"] then "float"
  else if mem (upper col_type) ["TIMESTAMP"; "DATETIME"; "DATE"] then "timestamp"
  else if mem (upper col_type) ["BOOLEAN"; "BOOL"] then "boolean"
  else col_type.

Section Columns.

(** The built-ins [str(v)] and [s.title()] only fill the description
    and the sample value of a column. *)
Variable py_str : pyval -> string.
Variable title : string -> string.

Definition display_of (field_value : pyval) : string :=
  let display_value :=
    match field_value with
    | PNone => "NULL"
    | _ => py_str field_value
    end in
  if (100 <? String.length display_value)%nat
  then substring 0 97 display_value ++ "..."
  else display_value.

(** The second loop, over [record.items()]. *)
Fixpoint columns_loop (items : dict) (schema_map : dict) (sort_order : Z)
    (columns : list column) : result (list column) :=
  match items with
  | [] => Ok columns
  | (field_name, field_value) :: rest =>
      if startswith field_name "_internal_" then
        columns_loop rest schema_map sort_order columns
      else
        match dict_get schema_map field_name (PStr "varchar") with
        | PStr col_type =>
            columns_loop rest schema_map (sort_order + 1)
              (columns ++
               [mk_column field_name
                  (title (replace "_" " " field_name))
                  (simplify_type col_type)
                  sort_order
                  [mk_stat "value" (display_of field_value)]])%list
        | _ => Raise AttributeError
        end
  end.

Definition _build_columns_from_record (record : dict)
    (schema_info : list pyval) : result (list column) :=
  schema_map <- build_schema_map schema_info [] ;;
  columns_loop record schema_map 0 [].

End Columns.

(** ** Owners *)

Record owner : Type := mk_owner {
  display_name : string;
  email : string;
  user_id : string
}.

Definition owner_of (nm : string) : owner :=
  mk_owner nm (replace " " "." (lower nm) ++ "@company.com") nm.

Definition system_owner : owner :=
  mk_owner "system" "system@company.com" "system".

Definition owner_fields : list string :=
  ["created_by"; "owner"; "owners"; "author";
   "ownership_details"; "created_user"; "user"].

(** [for owner in value.split(',')] *)
Fixpoint add_split_owners (parts : list string) (owners : list owner)
    (seen_owners : list string) : list owner * list string :=
  match parts with
  | [] => (owners, seen_owners)
  | part :: rest =>
      let o := strip part in
      if nonempty o && negb (mem o seen_owners) then
        add_split_owners rest (owners ++ [owner_of o])%list (o :: seen_owners)
      else add_split_owners rest owners seen_owners
  end.

(** [for field in owner_fields] *)
Fixpoint owners_loop (fields : list string) (record : dict)
    (owners : list owner) (seen_owners : list string)
    : result (list owner) :=
  match fields with
  | [] => Ok owners
  | field :: rest =>
      let value := dict_get record field PNone in
      if negb (truthy value) then owners_loop rest record owners seen_owners
      else
        dup <- in_str_set value seen_owners ;;
        if dup : bool then owners_loop rest record owners seen_owners
        else
          match value with
          | PStr s =>
              if contains s "," then
                let (owners', seen') :=
                  add_split_owners (split "," s) owners seen_owners in
                owners_loop rest record owners' seen'
              else
                owners_loop rest record
                  (owners ++ [owner_of s])%list (s :: seen_owners)
          | _ => owners_loop rest record owners seen_owners
          end
  end.

Definition _parse_owners_from_record (record : dict) : result (list owner) :=
  owners <- owners_loop owner_fields record [] [] ;;
  match owners with
  | [] => Ok [system_owner]
  | _ => Ok owners
  end.

(** ** Lineage *)

Record lineage_entity : Type := mk_entity {
  key : pyval;
  level : pyval;
  source : string;
  badges : list pyval
}.

Record lineage : Type := mk_lineage {
  upstream_entities : list lineage_entity;
  downstream_entities : list lineage_entity;
  depth : Z;
  direction : string;
  lineage_key : string
}.

Definition entity_of (item : pyval) : lineage_entity :=
  match item with
  | PDict d =>
      mk_entity (dict_get d "key" (PStr EmptyString))
                (dict_get d "level" (PInt 1)) "optimusdb" []
  | _ => mk_entity item (PInt 1) "optimusdb" []
  end.

(** One direction: the [if ..._str:] guard and the [try] block under
    it, written twice in the source, for [lineage_upstream] and for
    [lineage_downstream]. The value is what the block leaves in
    [upstream] (or [downstream]), which starts as the empty list. *)
Definition parse_direction (field_str : pyval) : list lineage_entity :=
  if truthy field_str then
    catch
      (data <- Json.loads field_str ;;
       items <- py_iter data ;;
       Ok (map entity_of items))
      (fun _ => [])
  else [].

(** The [sql] text of [get_lineage]. *)
Definition lineage_sql (parsed : table_id) : string :=
  "SELECT lineage_upstream, lineage_downstream FROM datacatalog WHERE metadata_type='"
  ++ schema parsed ++ "' AND name='" ++ name parsed ++ "';".

Definition get_lineage (post : transport) (id resource_type direction : string)
    (depth : Z) : lineage :=
  let nothing := mk_lineage [] [] depth direction id in
  catch
    (let parsed := _parse_table_uri id in
     let sql := lineage_sql parsed in
     let json_resp := _execute_sql post sql in
     records <- records_of json_resp ;;
     if negb (truthy records) then Ok nothing
     else
       upstream <-
         (if mem direction ["upstream"; "both"] then
            first <- py_first records ;;
            upstream_str <- py_get first "lineage_upstream" (PStr EmptyString) ;;
            Ok (parse_direction upstream_str)
          else Ok []) ;;
       downstream <-
         (if mem direction ["downstream"; "both"] then
            first <- py_first records ;;
            downstream_str <- py_get first "lineage_downstream" (PStr EmptyString) ;;
            Ok (parse_direction downstream_str)
          else Ok []) ;;
       Ok (mk_lineage upstream downstream depth direction id))
    (fun _ => nothing).

(** ** Users *)

Definition default_user (id : string) : pyval :=
  PDict [("email", PStr (id ++ "@company.com"));
         ("user_id", PStr id);
         ("display_name", PStr id);
         ("profile_url", PStr EmptyString);
         ("is_active", PBool true);
         ("github_username", PStr EmptyString);
         ("team_name", PStr EmptyString);
         ("slack_id", PStr EmptyString);
         ("employee_type", PStr EmptyString)].

(** The [query] text of [get_user]. *)
Definition user_query (id : string) : string :=
  "SELECT * FROM users WHERE user_id='" ++ id ++ "' LIMIT 1;".

(** The declared return type is [Union[Dict, None]]: [None] is Python's
    [None]. *)
Definition get_user (post : transport) (id : string) : option pyval :=
  catch
    (let query := user_query id in
     response <- post query ;;
     let result := _parse_optimusdb_response response in
     records <- records_of result ;;
     if negb (truthy records) then Ok (Some (default_user id))
     else
       user_data <- py_first records ;;
       email <- py_get user_data "email" (PStr (id ++ "@company.com")) ;;
       user_id <- py_get user_data "user_id" (PStr id) ;;
       display_name <- py_get user_data "display_name" (PStr id) ;;
       profile_url <- py_get user_data "profile_url" (PStr EmptyString) ;;
       is_active <- py_get user_data "is_active" (PBool true) ;;
       github_username <- py_get user_data "github_username" (PStr EmptyString) ;;
       team_name <- py_get user_data "team_name" (PStr EmptyString) ;;
       slack_id <- py_get user_data "slack_id" (PStr EmptyString) ;;
       employee_type <- py_get user_data "employee_type" (PStr EmptyString) ;;
       Ok (Some (PDict [("email", email);
                        ("user_id", user_id);
                        ("display_name", display_name);
                        ("profile_url", profile_url);
                        ("is_active", is_active);
                        ("github_username", github_username);
                        ("team_name", team_name);
                        ("slack_id", slack_id);
                        ("employee_type", employee_type)])))
    (fun _ => Some (default_user id)).

(** ** Search *)

(** [for x in items: if hit(q, x.lower()): score += points; break] *)
Fixpoint first_hit (hit : string -> string -> bool) (items : list pyval)
    (query_lower : string) : result bool :=
  match items with
  | [] => Ok false
  | x :: rest =>
      xl <- py_lower x ;;
      if hit query_lower xl then Ok true
      else first_hit hit rest query_lower
  end.

(** [[t.strip() for t in tags.split(",") if t.strip()]] *)
Definition split_tags (tags : string) : list pyval :=
  map (fun t => PStr (strip t))
      (filter (fun t => nonempty (strip t)) (split "," tags)).

(** The relevance score is a float that only ever holds sums of the
    integers below, all exact; it is carried as an integer. *)
Definition _calculate_search_score (dataset : pyval) (query_lower : string)
    : result Z :=
  if negb (nonempty query_lower) then Ok 0%Z
  else
    let score := 0%Z in
    (* Name matching *)
    name_v <- py_get dataset "name" (PStr EmptyString) ;;
    name <- py_lower name_v ;;
    let score :=
      if String.eqb name query_lower then (score + 100)%Z
      else if startswith name query_lower then (score + 80)%Z
      else if contains name query_lower then (score + 50)%Z
      else score in
    (* Schema matching *)
    schema_v <- py_get dataset "schema" (PStr EmptyString) ;;
    schema <- py_lower schema_v ;;
    let score :=
      if String.eqb schema query_lower || contains schema query_lower
      then (score + 40)%Z else score in
    (* Tag matching *)
    tags_v <- py_get dataset "tags" (PList []) ;;
    tags <- match tags_v with
            | PStr s => Ok (split_tags s)
            | _ => py_iter tags_v
            end ;;
    tag_hit <- first_hit (fun q t => String.eqb q t || contains t q)
                 tags query_lower ;;
    let score := if tag_hit : bool then (score + 30)%Z else score in
    (* Description matching *)
    description_v <- py_get dataset "description" (PStr EmptyString) ;;
    description <- py_lower description_v ;;
    let score :=
      if contains description query_lower then (score + 20)%Z else score in
    (* Column name matching *)
    column_names <- py_get dataset "column_names" (PList []) ;;
    cols <- py_iter column_names ;;
    col_hit <- first_hit (fun q c => contains c q) cols query_lower ;;
    let score := if col_hit : bool then (score + 15)%Z else score in
    (* Database matching *)
    database_v <- py_get dataset "database" (PStr EmptyString) ;;
    database <- py_lower database_v ;;
    let score :=
      if contains database query_lower then (score + 10)%Z else score in
    Ok score.

(** The filtering loop of [get_table_by_search]. *)
Fixpoint score_all (all_datasets : list pyval) (query_lower : string)
    (scored_results : list (Z * pyval)) : result (list (Z * pyval)) :=
  match all_datasets with
  | [] => Ok scored_results
  | dataset :: rest =>
      score <- _calculate_search_score dataset query_lower ;;
      if (0 <? score)%Z then
        score_all rest query_lower (scored_results ++ [(score, dataset)])%list
      else score_all rest query_lower scored_results
  end.

(** [list.sort(key=lambda x: x[0], reverse=True)] is stable: highest
    score first, equal scores in their original order. *)
Fixpoint insert_desc (x : Z * pyval) (l : list (Z * pyval))
    : list (Z * pyval) :=
  match l with
  | [] => [x]
  | y :: r =>
      if (fst x <? fst y)%Z then y :: insert_desc x r else x :: l
  end.

Fixpoint sort_desc (l : list (Z * pyval)) : list (Z * pyval) :=
  match l with
  | [] => []
  | x :: r => insert_desc x (sort_desc r)
  end.

(** [l[start:stop]] *)
Definition py_slice {A : Type} (l : list A) (start stop : Z) : list A :=
  let n := Z.of_nat (List.length l) in
  let clamp (i : Z) := if (i <? 0)%Z then Z.max (i + n) 0 else Z.min i n in
  firstn (Z.to_nat (clamp stop - clamp start))
         (skipn (Z.to_nat (clamp start)) l).

Record search_result : Type := mk_search_result {
  total_results : Z;
  results : list pyval;
  page_index : Z
}.

(** [all_datasets] is what [_get_all_datasets_for_search] returned. *)
Definition get_table_by_search (all_datasets : list pyval)
    (query_term : string) (page_index : Z) : search_result :=
  catch
    (let query_lower := strip (lower query_term) in
     scored_results <- score_all all_datasets query_lower [] ;;
     let scored_results := sort_desc scored_results in
     let matching_tables := map snd scored_results in
     let page_size := 10%Z in
     let start_idx := (page_index * page_size)%Z in
     let end_idx := (start_idx + page_size)%Z in
     let paginated_results := py_slice matching_tables start_idx end_idx in
     Ok (mk_search_result (Z.of_nat (List.length matching_tables))
                          paginated_results page_index))
    (fun _ => mk_search_result 0 [] page_index).

(** ** Comma-separated columns *)

(** [[x.strip() for x in parts if x.strip()]], the way the tags, badges
    and owners columns are read. *)
Definition clean (parts : list string) : list string :=
  map strip (filter (fun x => nonempty (strip x)) parts).

Definition comma_list (s : string) : list string := clean (split "," s).

(** [[x.strip() for x in v.split(",") if x.strip()]] *)
Definition py_comma_list (v : pyval) : result (list string) :=
  parts <- py_split "," v ;;
  Ok (clean parts).

(** The one-line [select] of one column of a catalog row. *)
Definition select_column (col : string) (parsed : table_id) : string :=
  "select " ++ col ++ " from datacatalog where metadata_type='"
  ++ schema parsed ++ "' and name='" ++ name parsed ++ "';".

(** The [update] of one column of a catalog row, a text of five lines
    whose last line is indented by [n]. *)
Definition update_column (n : nat) (col value : string) (parsed : table_id)
    : string :=
  nl ++ indent (n + 4) ++ "update datacatalog "
  ++ nl ++ indent (n + 4) ++ "set " ++ col ++ "='" ++ value ++ "' "
  ++ nl ++ indent (n + 4) ++ "where metadata_type='" ++ schema parsed
  ++ "' and name='" ++ name parsed ++ "';"
  ++ nl ++ indent n.

(** ** Table page *)

Module Tag.
Record t : Type := mk { tag_name : string; tag_type : string }.
End Tag.

Module Badge.
Record t : Type := mk {
  badge_name : pyval;
  category : string;
  badge_type : string
}.
End Badge.

Module ProgDesc.
Record t : Type := mk { source : string; text : string }.
End ProgDesc.

Module Table.

Record writer : Type := mk_writer {
  application_url : string;
  writer_description : string;
  id : string;
  writer_name : string
}.

Record origin : Type := mk_origin {
  source : string;
  source_type : string
}.

Record t : Type := mk {
  database : string;
  cluster : string;
  schema : string;
  name : pyval;
  key : string;
  description : pyval;
  last_updated_timestamp : Z;
  columns : list column;
  owners : list owner;
  tags : list Tag.t;
  badges : list Badge.t;
  is_view : bool;
  table_writer : writer;
  table_readers : list pyval;
  watermarks : list pyval;
  table_source : origin;
  programmatic_descriptions : list ProgDesc.t
}.

End Table.

Definition optimusdb_writer : Table.writer :=
  Table.mk_writer EmptyString "OptimusDB" "optimusdb" "OptimusDB".

Definition optimusdb_source : Table.origin :=
  Table.mk_origin "optimusdb" "Table".

(** The ten fields the description highlights, in their order. *)
Definition highlight_fields : list string :=
  ["author"; "component"; "behaviour"; "status"; "priority";
   "type"; "category"; "environment"; "version"; "owner"].

Definition prog_desc_fields : list (string * string) :=
  [("metadata_type", "Type");
   ("relationships", "Relationships");
   ("associated_id", "Associated ID");
   ("related_ids", "Related IDs");
   ("scheduling_info", "Scheduling");
   ("sla_constraints", "SLA");
   ("behaviour", "Behavior");
   ("component", "Component");
   ("environment", "Environment");
   ("version", "Version")].

Definition timestamp_fields : list string :=
  ["updated_at"; "created_at"; "timestamp"; "last_modified"].

Definition _extract_badges (record : dict) : result (list Badge.t) :=
  let badges := [] in
  (* Status badge *)
  let status := dict_get record "status" PNone in
  badges <-
    (if truthy status then
       status_lower <- py_lower status ;;
       let badge_type :=
         if String.eqb status_lower "active" then "success" else "default" in
       Ok (badges ++ [Badge.mk status "status" badge_type])%list
     else Ok badges) ;;
  (* Priority badge *)
  let priority := dict_get record "priority" PNone in
  badges <-
    (if truthy priority then
       priority_lower <- py_lower priority ;;
       let badge_type :=
         if mem priority_lower ["critical"; "high"] then "danger"
         else "default" in
       Ok (badges ++ [Badge.mk priority "priority" badge_type])%list
     else Ok badges) ;;
  Ok badges.

Section TablePage.

(** The built-ins [str(v)] and [s.title()]; the clock [int(time.time())];
    [int(x)] on a float; [int(datetime.fromisoformat(s).timestamp())],
    with [None] when it raises. *)
Variable py_str : pyval -> string.
Variable title : string -> string.
Variable now : Z.
Variable int_of_float : float_lit -> result Z.
Variable iso_timestamp : string -> option Z.

(** [self._get_table_schema], which [get_table] calls and the class
    does not define. *)
Variable _get_table_schema : string -> result pyval.

Definition _parse_tags_from_record (record : dict) : list Tag.t :=
  (* Try different tag field names *)
  let tags_str :=
    py_or (py_or (py_or (dict_get record "tags" PNone)
                        (dict_get record "tag" PNone))
                 (dict_get record "labels" PNone))
          (PStr EmptyString) in
  if negb (truthy tags_str) then []
  else
    match tags_str with
    | PStr s =>
        (* Handle comma-separated tags *)
        if contains s "," then
          map (fun tag => Tag.mk tag "default") (comma_list s)
        (* Handle JSON array *)
        else if startswith s "[" then
          match Json.loads_text s with
          | Some (PList tag_list) =>
              map (fun tag => Tag.mk (py_str tag) "default") tag_list
          | _ => []
          end
        (* Handle single tag *)
        else [Tag.mk s "default"]
    | _ => []
    end.

(** [for field in highlight_fields] *)
Fixpoint highlight_loop (fields : list string) (record : dict)
    (metadata_parts : list string) : list string :=
  match fields with
  | [] => metadata_parts
  | field :: rest =>
      let value := dict_get record field PNone in
      if truthy value && py_ne_str value "N/A" then
        let field_name := title (replace "_" " " field) in
        let part := "**" ++ field_name ++ ":** " ++ py_str value in
        highlight_loop rest record (metadata_parts ++ [part])%list
      else highlight_loop rest record metadata_parts
  end.

Definition _build_enhanced_description (record : dict)
    (base_description : pyval) : pyval :=
  let metadata_parts := highlight_loop highlight_fields record [] in
  match metadata_parts with
  | [] => base_description
  | _ =>
      (* Limit to 5 most important fields to avoid clutter *)
      let metadata_parts := firstn 5 metadata_parts in
      PStr ((py_str base_description ++ nl ++ nl) ++ join " | " metadata_parts)
  end.

(** [for field_name, display_name in prog_desc_fields] *)
Fixpoint prog_desc_loop (fields : list (string * string)) (record : dict)
    (descriptions : list ProgDesc.t) : list ProgDesc.t :=
  match fields with
  | [] => descriptions
  | (field_name, display_name) :: rest =>
      let value := dict_get record field_name PNone in
      if truthy value && py_ne_str value "N/A" then
        let text := display_name ++ ": " ++ py_str value in
        prog_desc_loop rest record
          (descriptions ++ [ProgDesc.mk field_name text])%list
      else prog_desc_loop rest record descriptions
  end.

Definition _build_programmatic_descriptions (record : dict)
    : list ProgDesc.t :=
  prog_desc_loop prog_desc_fields record [].

(** [for field in timestamp_fields]; a [bool] is an [int]. *)
Fixpoint timestamp_loop (fields : list string) (record : dict) : result Z :=
  match fields with
  | [] => Ok now
  | field :: rest =>
      let value := dict_get record field PNone in
      if truthy value then
        match value with
        | PBool b => Ok (if b then 1 else 0)%Z
        | PInt z => Ok z
        | PFloat x => int_of_float x
        | _ =>
            match iso_timestamp (replace "Z" "+00:00" (py_str value)) with
            | Some seconds => Ok seconds
            | None => timestamp_loop rest record
            end
        end
      else timestamp_loop rest record
  end.

Definition _extract_timestamp (record : dict) : result Z :=
  timestamp_loop timestamp_fields record.

Definition _get_empty_table_response (table_uri : string) : Table.t :=
  let parsed := _parse_table_uri table_uri in
  Table.mk (database parsed) "optimusdb" (schema parsed) (PStr (name parsed))
    table_uri (PStr "No data available for this table") now
    [] [system_owner] [] [] false optimusdb_writer [] [] optimusdb_source [].

(** The [query] text of [get_table]. *)
Definition table_query (schema table_name : string) : string :=
  nl ++ indent 12 ++ "select * from " ++ schema
  ++ nl ++ indent 12 ++ "where name='" ++ table_name ++ "'"
  ++ nl ++ indent 12 ++ "limit 1"
  ++ nl ++ indent 12.

Definition get_table (post : transport) (table_uri : string) : Table.t :=
  catch
    ((* Parse the table URI *)
     let parsed := _parse_table_uri table_uri in
     let database := database parsed in
     let schema := schema parsed in
     let table_name := name parsed in
     if negb (nonempty table_name) then
       Ok (_get_empty_table_response table_uri)
     else
       (* STEP 1: discover the table schema *)
       schema_info <- _get_table_schema schema ;;
       let schema_info :=
         if negb (truthy schema_info) then PList [] else schema_info in
       _ <- py_len schema_info ;;
       (* STEP 2: query the table data *)
       let query := table_query schema table_name in
       let result := _execute_sql post query in
       if negb (isinstance_dict result) then
         Ok (_get_empty_table_response table_uri)
       else
         data <- py_get result "data" (PDict []) ;;
         if negb (isinstance_dict data) then
           Ok (_get_empty_table_response table_uri)
         else
           records <- py_get data "records" (PList []) ;;
           _ <- py_len records ;;
           if negb (truthy records) then
             Ok (_get_empty_table_response table_uri)
           else
             (* Get the first matching record *)
             record <- py_first records ;;
             match record with
             | PDict record =>
                 (* STEP 3: core fields *)
                 let name := dict_get record "name" (PStr table_name) in
                 let description :=
                   dict_get record "description"
                     (dict_get record "desc"
                        (PStr "No description available")) in
                 (* STEP 4 *)
                 let tags := _parse_tags_from_record record in
                 (* STEP 5 *)
                 owners <- _parse_owners_from_record record ;;
                 (* STEP 6 *)
                 let enhanced_description :=
                   _build_enhanced_description record description in
                 (* STEP 7 *)
                 schema_rows <- py_iter schema_info ;;
                 columns <-
                   _build_columns_from_record py_str title record schema_rows ;;
                 (* STEP 8 *)
                 let programmatic_descriptions :=
                   _build_programmatic_descriptions record in
                 (* STEP 9 *)
                 last_updated_timestamp <- _extract_timestamp record ;;
                 badges <- _extract_badges record ;;
                 Ok (Table.mk database "optimusdb" schema name table_uri
                       enhanced_description last_updated_timestamp
                       columns owners tags badges false optimusdb_writer
                       [] [] optimusdb_source programmatic_descriptions)
             | _ =>
                 (* [record.get] on a record that is no mapping *)
                 Raise AttributeError
             end)
    (fun _ => _get_empty_table_response table_uri).

End TablePage.

(** ** Descriptions *)

Definition get_table_description (post : transport) (table_uri : string)
    : pyval :=
  catch
    (let parsed := _parse_table_uri table_uri in
     let sql := select_column "description" parsed in
     let json_resp := _execute_sql post sql in
     records <- records_of json_resp ;;
     has <-
       (if truthy records then
          first <- py_first records ;;
          py_in "description" first
        else Ok false) ;;
     if has : bool then
       first <- py_first records ;;
       description <- py_getitem first "description" ;;
       Ok (py_or description (PStr EmptyString))
     else Ok (PStr EmptyString))
    (fun _ => PStr EmptyString).

(** The [select] of [get_column_description], a text of four lines. *)
Definition column_descriptions_query (parsed : table_id) : string :=
  nl ++ indent 16 ++ "select column_descriptions from datacatalog "
  ++ nl ++ indent 16 ++ "where metadata_type='" ++ schema parsed
  ++ "' and name='" ++ name parsed ++ "';"
  ++ nl ++ indent 12.

Definition get_column_description (post : transport)
    (table_uri column_name : string) : pyval :=
  catch
    (let parsed := _parse_table_uri table_uri in
     let sql := column_descriptions_query parsed in
     let json_resp := _execute_sql post sql in
     records <- records_of json_resp ;;
     has <-
       (if truthy records then
          first <- py_first records ;;
          py_in "column_descriptions" first
        else Ok false) ;;
     if has : bool then
       first <- py_first records ;;
       col_desc <- py_get first "column_descriptions" (PStr EmptyString) ;;
       (* Parse JSON-like column descriptions *)
       Ok (catch
             (col_dict <-
                (if truthy col_desc then Json.loads col_desc
                 else Ok (PDict [])) ;;
              py_get col_dict column_name (PStr EmptyString))
             (fun _ => PStr EmptyString))
     else Ok (PStr EmptyString))
    (fun _ => PStr EmptyString).

(** A method that writes returns [None]; what it does is the commands
    it sends, and the value here is the list of their SQL texts, in
    order. An exception can only come after the first command. *)
Definition put_column_description (post : transport)
    (table_uri column_name description : string) : list string :=
  let parsed := _parse_table_uri table_uri in
  (* First, get existing column descriptions *)
  let sql := select_column "column_descriptions" parsed in
  catch
    (let json_resp := _execute_sql post sql in
     records <- records_of json_resp ;;
     has <-
       (if truthy records then
          first <- py_first records ;;
          py_in "column_descriptions" first
        else Ok false) ;;
     let col_dict :=
       if has : bool then
         catch
           (first <- py_first records ;;
            text <- py_get first "column_descriptions" (PStr "{}") ;;
            Json.loads text)
           (fun _ => PDict [])
       else PDict [] in
     col_dict <- py_setitem col_dict column_name (PStr description) ;;
     let col_json := replace "'" "''" (Json.dumps col_dict) in
     (* Update with new column descriptions *)
     Ok [sql; update_column 12 "column_descriptions" col_json parsed])
    (fun _ => [sql]).

(** ** Tags and owners *)

Module TagCount.
Record t : Type := mk { tag_name : string; tag_count : Z }.
End TagCount.

(** [for tag in tags_str.split(",")] *)
Fixpoint add_tags (parts : list string) (tag_set : list string)
    : list string :=
  match parts with
  | [] => tag_set
  | tag :: rest =>
      let tag := strip tag in
      if nonempty tag then add_tags rest (set_add tag tag_set)
      else add_tags rest tag_set
  end.

(** [for rec in records] *)
Fixpoint tags_loop (records : list pyval) (tag_set : list string)
    : result (list string) :=
  match records with
  | [] => Ok tag_set
  | rec :: rest =>
      tags_str <- py_get rec "tags" (PStr EmptyString) ;;
      if truthy tags_str then
        parts <- py_split "," tags_str ;;
        tags_loop rest (add_tags parts tag_set)
      else tags_loop rest tag_set
  end.

Definition get_tags (post : transport) : list TagCount.t :=
  catch
    (let sql :=
       "select tags from datacatalog where tags is not null and tags != '';" in
     let json_resp := _execute_sql post sql in
     records <- records_of json_resp ;;
     records <- py_iter records ;;
     tag_set <- tags_loop records [] ;;
     Ok (map (fun tag => TagCount.mk tag 1) (sorted tag_set)))
    (fun _ => []).

Definition add_tag (post : transport) (id tag : string) : list string :=
  let parsed := _parse_table_uri id in
  (* Get current tags *)
  let sql := select_column "tags" parsed in
  catch
    (let json_resp := _execute_sql post sql in
     records <- records_of json_resp ;;
     current_tags <-
       (if truthy records then
          first <- py_first records ;;
          tags_str <- py_get first "tags" (PStr EmptyString) ;;
          py_comma_list tags_str
        else Ok []) ;;
     let current_tags :=
       if negb (mem tag current_tags) then (current_tags ++ [tag])%list
       else current_tags in
     let new_tags := join "," current_tags in
     Ok [sql; update_column 12 "tags" new_tags parsed])
    (fun _ => [sql]).

Definition delete_tag (post : transport) (id tag : string) : list string :=
  let parsed := _parse_table_uri id in
  (* Get current tags *)
  let sql := select_column "tags" parsed in
  catch
    (let json_resp := _execute_sql post sql in
     records <- records_of json_resp ;;
     if truthy records then
       first <- py_first records ;;
       tags_str <- py_get first "tags" (PStr EmptyString) ;;
       current_tags <- py_comma_list tags_str ;;
       let current_tags :=
         filter (fun t => negb (String.eqb t tag)) current_tags in
       let new_tags := join "," current_tags in
       Ok [sql; update_column 16 "tags" new_tags parsed]
     else Ok [sql])
    (fun _ => [sql]).

Definition add_owner (post : transport) (table_uri owner : string)
    : list string :=
  let parsed := _parse_table_uri table_uri in
  (* Get current owners *)
  let sql := select_column "owners" parsed in
  catch
    (let json_resp := _execute_sql post sql in
     records <- records_of json_resp ;;
     current_owners <-
       (if truthy records then
          first <- py_first records ;;
          owners_v <- py_get first "owners" (PStr EmptyString) ;;
          created_by <- py_get first "created_by" (PStr EmptyString) ;;
          py_comma_list (py_or owners_v created_by)
        else Ok []) ;;
     let current_owners :=
       if negb (mem owner current_owners) then (current_owners ++ [owner])%list
       else current_owners in
     let new_owners := join "," current_owners in
     Ok [sql; update_column 12 "owners" new_owners parsed])
    (fun _ => [sql]).

Definition delete_owner (post : transport) (table_uri owner : string)
    : list string :=
  let parsed := _parse_table_uri table_uri in
  (* Get current owners *)
  let sql := select_column "owners" parsed in
  catch
    (let json_resp := _execute_sql post sql in
     records <- records_of json_resp ;;
     if truthy records then
       first <- py_first records ;;
       owners_str <- py_get first "owners" (PStr EmptyString) ;;
       current_owners <- py_comma_list owners_str ;;
       let current_owners :=
         filter (fun o => negb (String.eqb o owner)) current_owners in
       let new_owners := join "," current_owners in
       Ok [sql; update_column 16 "owners" new_owners parsed]
     else Ok [sql])
    (fun _ => [sql]).

(** ** Writing lineage *)

(** [json.dumps(uris or [])] *)
Definition lineage_json (uris : option (list string)) : string :=
  Json.dumps
    (PList (map PStr (match uris with
                      | Some (u :: r) => u :: r
                      | _ => []
                      end))).

Definition set_lineage (post : transport) (table_uri : string)
    (upstream downstream : option (list string)) : list string :=
  let parsed := _parse_table_uri table_uri in
  (* Prepare JSON strings *)
  let upstream_json := replace "'" "''" (lineage_json upstream) in
  let downstream_json := replace "'" "''" (lineage_json downstream) in
  let sql :=
    nl ++ indent 16 ++ "UPDATE datacatalog "
    ++ nl ++ indent 16 ++ "SET lineage_upstream='" ++ upstream_json ++ "',"
    ++ nl ++ indent 20 ++ "lineage_downstream='" ++ downstream_json ++ "'"
    ++ nl ++ indent 16 ++ "WHERE metadata_type='" ++ schema parsed
    ++ "' AND name='" ++ name parsed ++ "';"
    ++ nl ++ indent 12 in
  [sql].

(** ** The column builder with type inference *)

(** [s.upper()] where the sharp s becomes two capitals; the two code
    points below 256 whose capital lies outside the model stay as they
    are, which no search for an ASCII word can observe. *)
Fixpoint py_upper (s : string) : string :=
  match s with
  | EmptyString => EmptyString
  | String c r =>
      if (code c =? 223)%nat then String "S" (String "S" (py_upper r))
      else if is_lower c then String (ascii_of_nat (code c - 32)) (py_upper r)
      else String c (py_upper r)
  end.

(** [any(t in s for t in words)] *)
Definition any_in (words : list string) (s : string) : bool :=
  existsb (fun t => contains s t) words.

Module EnhancedColumn.

Record stat : Type := mk_stat {
  stat_type : string;
  stat_val : string;
  start_epoch : Z;
  end_epoch : Z
}.

Record t : Type := mk {
  name : string;
  description : string;
  col_type : string;
  sort_order : Z;
  stats : list stat
}.

End EnhancedColumn.

(** What the functions of the enhanced block look up on the object
    they are given as [self]: [_build_columns_from_record_enhanced],
    [_infer_column_type] and [_normalize_column_type] are functions of
    the module with a first parameter [self], not methods of the
    class. An attribute the object does not have is [None]. *)
Module Self.

Record t : Type := mk {
  _infer_column_type : option (pyval -> string);
  _normalize_column_type : option (pyval -> string)
}.

End Self.

(** [self.attr]: [AttributeError] when the object has no such
    attribute. *)
Definition getattr {A : Type} (attr : option A) : result A :=
  match attr with
  | Some a => Ok a
  | None => Raise AttributeError
  end.

Section Enhanced.

Variable py_str : pyval -> string.
Variable title : string -> string.
Variable now : Z.

Definition _normalize_column_type (col_type : pyval) : string :=
  if negb (truthy col_type) then "varchar"
  else
    let col_type_upper := py_upper (py_str col_type) in
    (* String types *)
    if any_in ["TEXT"; "VARCHAR"; "STRING"; "CHAR"; "CLOB"] col_type_upper
    then "varchar"
    (* Integer types *)
    else if any_in ["INT"; "INTEGER"; "BIGINT"; "SMALLINT"; "TINYINT"]
              col_type_upper
    then "int"
    (* Float types *)
    else if any_in ["FLOAT"; "DOUBLE"; "DECIMAL"; "NUMERIC"; "REAL"]
              col_type_upper
    then "float"
    (* Timestamp types *)
    else if any_in ["TIMESTAMP"; "DATETIME"; "DATE"; "TIME"] col_type_upper
    then "timestamp"
    (* Boolean types *)
    else if any_in ["BOOLEAN"; "BOOL"; "BIT"] col_type_upper
    then "boolean"
    (* JSON types *)
    else if contains col_type_upper "JSON" then "json"
    (* Binary types *)
    else if any_in ["BLOB"; "BINARY"; "BYTEA"] col_type_upper
    then "binary"
    (* Default to varchar *)
    else "varchar".

(** The first loop: here the type of a schema row is kept whatever it
    is. *)
Fixpoint enhanced_schema_map (schema_info : list pyval) (schema_map : dict)
    : result dict :=
  match schema_info with
  | [] => Ok schema_map
  | col :: rest =>
      col_name <- py_get col "name" (PStr EmptyString) ;;
      col_type <- py_get col "type" (PStr "varchar") ;;
      if truthy col_name then
        match col_name with
        | PStr k => enhanced_schema_map rest (dict_set schema_map k col_type)
        | PList _ | PDict _ => Raise TypeError
        | _ => enhanced_schema_map rest schema_map
        end
      else enhanced_schema_map rest schema_map
  end.

Definition enhanced_display_of (field_value : pyval) : string :=
  let display_value :=
    match field_value with
    | PNone => "NULL"
    | _ => py_str field_value
    end in
  if (100 <? String.length display_value)%nat
  then substring 0 97 display_value ++ "..."
  else display_value.

(** The second loop, over [record.items()]. Both helpers are reached
    through [self]. *)
Fixpoint enhanced_columns_loop (self : Self.t) (items : dict)
    (schema_map : dict) (sort_order : Z) (columns : list EnhancedColumn.t)
    : result (list EnhancedColumn.t) :=
  match items with
  | [] => Ok columns
  | (field_name, field_value) :: rest =>
      (* Skip internal fields that should not be displayed *)
      if startswith field_name "_internal_" || startswith field_name "__" then
        enhanced_columns_loop self rest schema_map sort_order columns
      else
        (* Get column type from schema or infer from value *)
        col_type <-
          match dict_find schema_map field_name with
          | Some col_type => Ok col_type
          | None =>
              infer <- getattr (Self._infer_column_type self) ;;
              Ok (PStr (infer field_value))
          end ;;
        (* Normalize type names *)
        normalize <- getattr (Self._normalize_column_type self) ;;
        let col_type := normalize col_type in
        let col_description := title (replace "_" " " field_name) in
        enhanced_columns_loop self rest schema_map (sort_order + 1)
          (columns ++
           [EnhancedColumn.mk field_name col_description col_type sort_order
              [EnhancedColumn.mk_stat "sample_value"
                 (enhanced_display_of field_value) 0 now]])%list
  end.

Definition _build_columns_from_record_enhanced (self : Self.t)
    (record : dict) (schema_info : list pyval)
    : result (list EnhancedColumn.t) :=
  match record with
  | [] => Ok []
  | _ =>
      schema_map <- enhanced_schema_map schema_info [] ;;
      enhanced_columns_loop self record schema_map 0 []
  end.

(** An [OptimusDBProxy] as the class stands: it defines neither helper
    (both are functions of the module, below the class), so looking
    either up on it fails. *)
Definition the_proxy : Self.t := Self.mk None None.

(** An object that has the two functions of the module as its methods,
    which is what the notes at the end of the file ask for. *)
Definition with_helpers : Self.t :=
  Self.mk (Some _infer_column_type) (Some _normalize_column_type).

End Enhanced.

(** ** Discovery *)

(** [(v or default)] as the receiver of [replace]: a value that is
    neither false nor a str has no [replace]. The empty string stands
    for a false value, which [_build_table_key] replaces by its
    default. *)
Definition text_or_empty (v : pyval) : result string :=
  if truthy v then
    match v with
    | PStr s => Ok s
    | _ => Raise AttributeError
    end
  else Ok EmptyString.

(** [self._build_table_key(database, schema, name)] on the values of a
    record. *)
Definition build_key_of (database schema name : pyval) : result string :=
  database <- text_or_empty database ;;
  schema <- text_or_empty schema ;;
  name <- text_or_empty name ;;
  Ok (_build_table_key database schema name).

Section Discovery.

Variable py_str : pyval -> string.
Variable now : Z.

(** The [entry] that [discover_datasets] builds for one record. *)
Definition entry_of (node : string) (rec : pyval) : result pyval :=
  schema <- py_get rec "metadata_type" (PStr "default") ;;
  database <- py_get rec "component" (PStr "optimusdb") ;;
  name <- py_get rec "name" (PStr "unknown") ;;
  desc <-
    py_get rec "description"
      (PStr ("Discovered dataset " ++ py_str name ++ " from " ++ node)) ;;
  match rec with
  | PDict r =>
      key <- build_key_of database schema name ;;
      let column_names :=
        match keys r with
        | [] => ["_id"; "name"; "description"]
        | ks => ks
        end in
      let columns :=
        map (fun k => PDict [("name", PStr k);
                             ("description", PStr EmptyString);
                             ("col_type", PStr "string")])
            (keys r) in
      tags <- py_split "," (py_or (dict_get r "tags" (PStr EmptyString))
                                  (PStr EmptyString)) ;;
      Ok (PDict [("type", PStr "table");
                 ("key", PStr key);
                 ("name", PStr (py_str schema ++ "." ++ py_str name));
                 ("schema", schema);
                 ("cluster", PStr node);
                 ("database", database);
                 ("description", desc);
                 ("column_names", PList (map PStr column_names));
                 ("columns", PList columns);
                 ("tags", PList (map PStr tags));
                 ("owners", PList [dict_get r "created_by" (PStr "system")]);
                 ("last_updated_timestamp", PInt now);
                 ("preview", rec);
                 ("resource_type", PStr "table")])
  | _ => Raise AttributeError
  end.

(** [for rec in records], inside the [try] of one node: an exception
    ends the loop and leaves in [datasets] what was appended before. *)
Fixpoint discover_loop (node : string) (records datasets : list pyval)
    : list pyval :=
  match records with
  | [] => datasets
  | rec :: rest =>
      match entry_of node rec with
      | Ok entry => discover_loop node rest (datasets ++ [entry])%list
      | Raise _ => datasets
      end
  end.

(** [post] is the command endpoint of the one node of the list,
    [optimusdb1]. *)
Definition discover_datasets (post : transport) : list pyval :=
  let datasets := [] in
  let node := "optimusdb1" in
  match post "select * from datacatalog;" with
  | Ok resp =>
      if negb (ok resp) then datasets
      else
        let json_resp := _parse_optimusdb_response resp in
        match records_of json_resp with
        | Ok (PList records) => discover_loop node records datasets
        | Ok _ => datasets
        | Raise _ => datasets
        end
  | Raise _ => datasets
  end.

(** The cache flag of the configuration changes nothing: with it or
    without it the datasets are discovered anew. *)
Definition _get_all_datasets_for_search (post : transport) : list pyval :=
  discover_datasets post.

End Discovery.

End OptimusDBProxy.

(* ================================================================== *)
(** * [OptimusDBSearchProxy]: the methods of the search service *)
(* ================================================================== *)

Module OptimusDBSearch.

(** [x or default] where [x] is [None] or a str *)
Definition opt_or (x : option string) (default : string) : string :=
  match x with
  | Some s => if nonempty s then s else default
  | None => default
  end.

(** The [optimusdb_url] that [__init__] keeps, from the environment
    variable [OPTIMUSDB_API_URL] and the [host] argument. *)
Definition init_url (env host : option string) : string :=
  let optimusdb_url := opt_or env EmptyString in
  let optimusdb_url :=
    if negb (nonempty optimusdb_url)
    then opt_or host "http://localhost:18001"
    else optimusdb_url in
  (* Ensure URL has scheme *)
  if nonempty optimusdb_url
     && negb (startswith optimusdb_url "http://"
              || startswith optimusdb_url "https://")
  then "http://" ++ optimusdb_url
  else optimusdb_url.

Definition _execute_sql (post : transport) (sql : string) : pyval :=
  catch
    (resp <- post sql ;;
     if negb (ok resp) then Ok OptimusDBSearchProxy.empty_reply
     else Ok (OptimusDBSearchProxy._parse_optimusdb_response resp))
    (fun _ => OptimusDBSearchProxy.empty_reply).

Definition _escape_sql (value : string) : string :=
  if negb (nonempty value) then EmptyString
  else replace "'" "''" value.

(** [(v or default).replace(" ", "_")]: a value that is neither false
    nor a str has no [replace]. *)
Definition part_of_key (v : pyval) (default : string) : result string :=
  match py_or v (PStr default) with
  | PStr s => Ok (replace " " "_" s)
  | _ => Raise AttributeError
  end.

Definition _build_table_key (database schema name : pyval) : result string :=
  database <- part_of_key database "optimusdb" ;;
  schema <- part_of_key schema "default" ;;
  name <- part_of_key name "unknown" ;;
  Ok (database ++ "://default." ++ schema ++ "/" ++ name).

(** The keyword arguments of the call [Table(...)] of the table
    search. *)
Module Table.
Record t : Type := mk {
  name : pyval;
  key : string;
  description : pyval;
  cluster : string;
  database : pyval;
  schema : pyval;
  column_names : list string;
  tags : list string;
  badges : list string;
  last_updated_timestamp : Z;
  programmatic_descriptions : list string
}.
End Table.

Record SearchResult (table : Type) : Type := mk_SearchResult {
  total_results : Z;
  results : list table
}.

Arguments mk_SearchResult {table} total_results results.
Arguments total_results {table} s.
Arguments results {table} s.

(** [query_term in ('*', '', None)] *)
Definition is_wildcard (query_term : option string) : bool :=
  match query_term with
  | None => true
  | Some q => String.eqb q "*" || String.eqb q EmptyString
  end.

(** The [sql] text of the table search for an escaped term. *)
Definition table_search_sql (term : string) : string :=
  let like (col : string) := "LOWER(" ++ col ++ ") LIKE '%" ++ term ++ "%'" in
  nl ++ indent 20 ++ "SELECT * FROM datacatalog "
  ++ nl ++ indent 20 ++ "WHERE " ++ like "name"
  ++ nl ++ indent 23 ++ "OR " ++ like "description"
  ++ nl ++ indent 23 ++ "OR " ++ like "tags"
  ++ nl ++ indent 23 ++ "OR " ++ like "metadata_type"
  ++ nl ++ indent 23 ++ "OR " ++ like "component"
  ++ nl ++ indent 23 ++ "OR " ++ like "owners"
  ++ nl ++ indent 23 ++ "OR " ++ like "badges"
  ++ nl ++ indent 23 ++ "OR " ++ like "ai_summary"
  ++ nl ++ indent 20 ++ "ORDER BY "
  ++ nl ++ indent 24 ++ "CASE "
  ++ nl ++ indent 28 ++ "WHEN LOWER(name) LIKE '" ++ term ++ "%' THEN 1"
  ++ nl ++ indent 28 ++ "WHEN " ++ like "name" ++ " THEN 2"
  ++ nl ++ indent 28 ++ "ELSE 3"
  ++ nl ++ indent 24 ++ "END,"
  ++ nl ++ indent 24 ++ "name"
  ++ nl ++ indent 20 ++ "LIMIT 100;"
  ++ nl ++ indent 16.

Definition table_sql (query_term : option string) : string :=
  match query_term with
  | Some q =>
      if is_wildcard query_term
      then "SELECT * FROM datacatalog ORDER BY name LIMIT 100;"
      else table_search_sql (_escape_sql (lower q))
  | None => "SELECT * FROM datacatalog ORDER BY name LIMIT 100;"
  end.

Section TableSearch.

(** The class [Table] of [search_service.models.table] is not among
    the sources: its objects, and what its constructor answers to the
    keyword arguments of this call, are parameters. A constructor that
    requires a keyword the call does not give raises [TypeError]. *)
Variable table_object : Type.
Variable new_Table : Table.t -> result table_object.

(** [for rec in records]: convert to [Table] objects. *)
Fixpoint tables_loop (records : list pyval) (tables : list table_object)
    : result (list table_object) :=
  match records with
  | [] => Ok tables
  | rec :: rest =>
      name <- py_get rec "name" (PStr "unknown") ;;
      schema <- py_get rec "metadata_type" (PStr "default") ;;
      database <- py_get rec "component" (PStr "optimusdb") ;;
      description <- py_get rec "description" (PStr EmptyString) ;;
      tags_str <- py_get rec "tags" (PStr EmptyString) ;;
      tags <-
        (if truthy tags_str then OptimusDBProxy.py_comma_list tags_str
         else Ok []) ;;
      key <- _build_table_key database schema name ;;
      table <-
        new_Table
          (Table.mk name key description "default" database schema
             [] tags [] 0 []) ;;
      tables_loop rest (tables ++ [table])%list
  end.

Definition fetch_table_search_results (post : transport)
    (query_term : option string) (page_index : Z) : SearchResult table_object :=
  catch
    (let results_per_page := 10%Z in
     (* Handle wildcard search *)
     let sql := table_sql query_term in
     let result := _execute_sql post sql in
     records <- OptimusDBProxy.records_of result ;;
     _ <- py_len records ;;
     (* Convert to Table objects *)
     records <- py_iter records ;;
     tables <- tables_loop records [] ;;
     (* Apply pagination *)
     let start_idx := (page_index * results_per_page)%Z in
     let end_idx := (start_idx + results_per_page)%Z in
     let paginated := OptimusDBProxy.py_slice tables start_idx end_idx in
     Ok (mk_SearchResult (Z.of_nat (List.length tables)) paginated))
    (fun _ => mk_SearchResult 0 []).

End TableSearch.

Arguments tables_loop {table_object} new_Table records tables.
Arguments fetch_table_search_results {table_object} new_Table post
  query_term page_index.

End OptimusDBSearch.

(* ================================================================== *)
(** * Vocabulary of the design document *)
(* ================================================================== *)

Module Design.

Import OptimusDBProxy.

(** A reply the backend answered with status 200 and the given body. *)
Definition reply (body : string) : Http.response := mk_response true 200 body.

(** The nominal reply shape around a record set. *)
Definition envelope (R : list pyval) : pyval :=
  PDict [("data", PDict [("records", PList R)])].

(** A body that wraps [v] [extra + 1] times: the JSON text of [v], then
    [extra] times the JSON text of a string that holds the body so
    far. *)
Fixpoint wrapped_body (extra : nat) (v : pyval) : string :=
  match extra with
  | O => Json.dumps v
  | S n => Json.dumps (PStr (wrapped_body n v))
  end.

(** A body that wraps the record set [times] times, [times >= 1]. *)
Definition encode_wrapped (times : nat) (R : list pyval) : string :=
  wrapped_body (times - 1) (envelope R).

Definition encodeAsSinglyWrappedJSON (R : list pyval) : string :=
  encode_wrapped 1 R.

Definition encodeAsDoublyWrappedJSON (R : list pyval) : string :=
  encode_wrapped 2 R.

(** [normalize]: the parser of the metadata proxy, then the read of the
    record set every caller performs. *)
Definition normalize (body : string) : result pyval :=
  records_of (_parse_optimusdb_response (reply body)).

(** The same through the parser of the search proxy. *)
Definition normalize_search (body : string) : result pyval :=
  records_of (OptimusDBSearchProxy._parse_optimusdb_response (reply body)).

(** The empty-RecordSet soft result. *)
Definition no_data : result pyval := Ok (PList []).

(** A dataset whose only signal for the query [q] is its description:
    its name, schema, tags, column names and database are all there and
    none contains [q]; its description does. *)
Definition only_description_matches (ds : dict) (q : string) : Prop :=
  exists (nm sc desc db : string) (tags cols : list string),
    dict_get ds "name" (PStr EmptyString) = PStr nm
    /\ contains (lower nm) q = false
    /\ dict_get ds "schema" (PStr EmptyString) = PStr sc
    /\ contains (lower sc) q = false
    /\ dict_get ds "tags" (PList []) = PList (map PStr tags)
    /\ forallb (fun t => negb (contains (lower t) q)) tags = true
    /\ dict_get ds "description" (PStr EmptyString) = PStr desc
    /\ contains (lower desc) q = true
    /\ dict_get ds "column_names" (PList []) = PList (map PStr cols)
    /\ forallb (fun c => negb (contains (lower c) q)) cols = true
    /\ dict_get ds "database" (PStr EmptyString) = PStr db
    /\ contains (lower db) q = false.

(** The fields of a record that become columns: those whose name does
    not start with the reserved internal prefix. *)
Definition visible_fields (record : dict) : list string :=
  filter (fun k => negb (startswith k "_internal_")) (keys record).

(** A row of schema discovery the first loop of the column builder
    accepts: a mapping whose name can be a dict key and whose type is a
    string. *)
Definition schema_row_ok (col : pyval) : bool :=
  match col with
  | PDict c =>
      hashable (dict_get c "name" (PStr EmptyString))
      && isinstance_str (dict_get c "type" (PStr "varchar"))
  | _ => false
  end.

(** A backend that answers every command with the same body. *)
Definition answers (body : string) : transport :=
  fun _ => Ok (reply body).

(** A backend that cannot be reached. *)
Definition unreachable : transport := fun _ => Raise ConnectionError.

End Design.

(* ================================================================== *)
(** * Loop invariants *)
(* ================================================================== *)

Module Invariants.

Import OptimusDBProxy.

(** What the filtering loop of the search keeps: a dataset with its
    score, which is positive. *)
Definition kept (q : string) (p : Z * pyval) : Prop :=
  _calculate_search_score (snd p) q = Ok (fst p) /\ (0 < fst p)%Z.

(** A schema map that holds strings only. *)
Definition all_str (m : dict) : Prop :=
  Forall (fun kv => isinstance_str (snd kv) = true) m.

(** What the owner loop maintains: no display name occurs twice, and
    every display name is in the set of seen owners. *)
Definition owner_state (owners : list owner) (seen_owners : list string)
    : Prop :=
  NoDup (map display_name owners)
  /\ forall o, In o owners -> In (display_name o) seen_owners.

(** An entry of a comma-separated column as the code reads it back: not
    empty, without white space around it, without a comma. *)
Definition plain (t : string) : bool :=
  nonempty t && String.eqb (strip t) t && negb (contains t ",").

(** Highest score first. *)
Definition ranked (x y : Z * pyval) : Prop := (fst y <= fst x)%Z.

(** A value that is false or a string: what [.lower()], [.split()] and
    [.replace()] accept after a truth test. *)
Definition str_or_false (v : pyval) : bool :=
  negb (truthy v) || isinstance_str v.

(** A catalog entry whose name, schema, description and database are
    strings wherever it has them: the fields the scorer lower-cases. *)
Definition text_fields (d : dict) : bool :=
  isinstance_str (dict_get d "name" (PStr EmptyString))
  && isinstance_str (dict_get d "schema" (PStr EmptyString))
  && isinstance_str (dict_get d "description" (PStr EmptyString))
  && isinstance_str (dict_get d "database" (PStr EmptyString)).

(** A dataset that matches the query: its score is positive. *)
Definition matches (q : string) (d : pyval) : bool :=
  match _calculate_search_score d q with
  | Ok score => (0 <? score)%Z
  | Raise _ => false
  end.

(** The type names of the column builder with type inference. *)
Definition normal_types : list string :=
  ["varchar"; "int"; "float"; "timestamp"; "boolean"; "json"; "binary"].

(** The fields that builder shows: those whose name starts neither with
    the reserved internal prefix nor with two underscores. *)
Definition displayed (record : dict) : dict :=
  filter (fun kv => negb (startswith (fst kv) "_internal_"
                          || startswith (fst kv) "__"))
         record.

(** A row the table search of the search service can convert: a
    mapping whose tags, component, metadata type and name are each
    false or a string. *)
Definition convertible (rec : pyval) : bool :=
  match rec with
  | PDict d =>
      str_or_false (dict_get d "tags" (PStr EmptyString))
      && str_or_false (dict_get d "component" (PStr "optimusdb"))
      && str_or_false (dict_get d "metadata_type" (PStr "default"))
      && str_or_false (dict_get d "name" (PStr "unknown"))
  | _ => false
  end.

(** The keyword arguments the table search of the search service
    passes to the constructor of [Table] for a row. *)
Definition kwargs_of (rec : pyval) : result OptimusDBSearch.Table.t :=
  name <- py_get rec "name" (PStr "unknown") ;;
  schema <- py_get rec "metadata_type" (PStr "default") ;;
  database <- py_get rec "component" (PStr "optimusdb") ;;
  description <- py_get rec "description" (PStr EmptyString) ;;
  tags_str <- py_get rec "tags" (PStr EmptyString) ;;
  tags <-
    (if truthy tags_str then py_comma_list tags_str else Ok []) ;;
  key <- OptimusDBSearch._build_table_key database schema name ;;
  Ok (OptimusDBSearch.Table.mk name key description "default" database
        schema [] tags [] 0 []).

(** A hit of that search: an object the constructor returned for
    keyword arguments whose key has no space, whose tags are plain and
    whose cluster is [default]. *)
Definition built {table_object : Type}
    (new_Table : OptimusDBSearch.Table.t -> result table_object)
    (t : table_object) : Prop :=
  exists kw : OptimusDBSearch.Table.t,
    new_Table kw = Ok t
    /\ contains (OptimusDBSearch.Table.key kw) " " = false
    /\ Forall (fun x => plain x = true) (OptimusDBSearch.Table.tags kw)
    /\ OptimusDBSearch.Table.cluster kw = "default".

(** The rows of a reply before the first that cannot be converted. *)
Fixpoint leading (rows : list pyval) : list pyval :=
  match rows with
  | [] => []
  | rec :: rest => if convertible rec then rec :: leading rest else []
  end.

(** A row whose description, metadata type and component are strings
    wherever it has them. *)
Definition text_row (rec : pyval) : bool :=
  match rec with
  | PDict d =>
      isinstance_str (dict_get d "description" (PStr EmptyString))
      && isinstance_str (dict_get d "metadata_type" (PStr EmptyString))
      && isinstance_str (dict_get d "component" (PStr EmptyString))
  | _ => false
  end.

(** The row an entry of discovery was built from. *)
Definition preview (entry : pyval) : pyval :=
  match entry with
  | PDict e => dict_get e "preview" PNone
  | _ => PNone
  end.

(** A text with each apostrophe doubled, and with its apostrophes
    removed. *)
Fixpoint doubled (s : string) : string :=
  match s with
  | EmptyString => EmptyString
  | String c r =>
      if Ascii.eqb c "'" then String "'" (String "'" (doubled r))
      else String c (doubled r)
  end.

Fixpoint unquoted (s : string) : string :=
  match s with
  | EmptyString => EmptyString
  | String c r =>
      if Ascii.eqb c "'" then unquoted r else String c (unquoted r)
  end.

(** Strictly ascending order of strings, by code points. *)
Definition ascending (a b : string) : Prop := String.ltb a b = true.

(** An owner field the membership test accepts: a false value is
    skipped before the test, any other has to be hashable. *)
Definition owner_field_ok (v : pyval) : bool :=
  negb (truthy v) || hashable v.

End Invariants.

(* ================================================================== *)
(** * Sample data *)
(* ================================================================== *)

Module Samples.

(** The record set of the end-to-end scenario of the design document. *)
Definition orders : list pyval :=
  [PDict [("name", PStr "orders"); ("metadata_type", PStr "sales");
          ("tags", PStr "ecommerce,orders")]].

(** A records array the backend may send: a string, null, a number and
    an array next to one mapping. *)
Definition mixed : list pyval :=
  [PStr "x"; PNone; PInt 5; PList [PInt 1];
   PDict [("name", PStr "orders")]].

(** Three catalog entries for the search ranker. *)
Definition retail_entry : dict :=
  [("name", PStr "retail.figures"); ("schema", PStr "retail");
   ("tags", PList [PStr "quarterly"]);
   ("description", PStr "Quarterly figures");
   ("column_names", PList [PStr "id"; PStr "amount"]);
   ("database", PStr "optimusdb")].

Definition ledger_entry : dict :=
  [("name", PStr "finance.ledger"); ("schema", PStr "finance");
   ("tags", PList [PStr "q1"]);
   ("description", PStr "All Sales of the quarter");
   ("column_names", PList [PStr "id"; PStr "booked_at"]);
   ("database", PStr "optimusdb")].

Definition invoices_entry : dict :=
  [("name", PStr "finance.invoices"); ("schema", PStr "finance");
   ("tags", PStr "billing, sales");
   ("description", PStr "Invoices sent");
   ("column_names", PList [PStr "id"]);
   ("database", PStr "optimusdb")].

(** A catalog row whose upstream lineage is not JSON and whose
    downstream lineage lists a bare key and a key with its level. *)
Definition lineage_row : dict :=
  [("lineage_upstream", PStr "not json");
   ("lineage_downstream",
    PStr (Json.dumps
            (PList [PStr "optimusdb://default.sales/orders";
                    PDict [("key", PStr "optimusdb://default.sales/items");
                           ("level", PInt 2)]])))].

(** A record with two internal fields, and one row of schema
    discovery. *)
Definition sample_record : dict :=
  [("_internal_id", PInt 7); ("name", PStr "orders");
   ("_internal_rev", PStr "r1"); ("rows", PInt 3);
   ("tags", PStr "ecommerce,orders")].

Definition sample_schema : list pyval :=
  [PDict [("name", PStr "rows"); ("type", PStr "INTEGER")]].

(** A row of the users table that lacks an e-mail address. *)
Definition user_row : dict :=
  [("user_id", PStr "alice"); ("display_name", PStr "Alice A.");
   ("is_active", PBool false); ("team_name", PStr "data")].

(** A record with one field of each runtime type. *)
Definition typed_record : dict :=
  [("active", PBool true);
   ("count", PInt 5);
   ("ratio", PFloat (FDec (Decimal.Pos (Decimal.D1 Decimal.Nil))
                          (Decimal.D5 Decimal.Nil) None));
   ("created", PStr "2024-05-01T10:00:00");
   ("note", PNone)].

End Samples.

(* ================================================================== *)
(** * Facts about strings *)
(* ================================================================== *)

Section StringFacts.

Lemma append_nil_r (s : string) : s ++ EmptyString = s.
Proof. induction s as [|c s IH]; simpl; [reflexivity | now rewrite IH]. Qed.

Lemma append_assoc (a b c : string) : (a ++ b) ++ c = a ++ (b ++ c).
Proof. induction a as [|x a IH]; simpl; [reflexivity | now rewrite IH]. Qed.

Lemma append_cons (c : ascii) (s t : string) :
  String c s ++ t = String c (s ++ t).
Proof. reflexivity. Qed.

Lemma length_append (a b : string) :
  String.length (a ++ b) = (String.length a + String.length b)%nat.
Proof. induction a as [|x a IH]; simpl; [reflexivity | now rewrite IH]. Qed.

Lemma startswith_append (p r : string) : startswith (p ++ r) p = true.
Proof.
  induction p as [|c p IH]; simpl; [reflexivity|].
  now rewrite Ascii.eqb_refl, IH.
Qed.

Lemma drop_append (p r : string) : drop (String.length p) (p ++ r) = r.
Proof. induction p as [|c p IH]; simpl; [reflexivity | exact IH]. Qed.

End StringFacts.

(* ================================================================== *)
(** * [json.loads] inverts [json.dumps] *)
(* ================================================================== *)

Module JsonFacts.

Import Decimal Json.

(** Every case of a character is decided by computation. *)
Ltac each_char c :=
  destruct c as [[] [] [] [] [] [] [] []]; try reflexivity; try discriminate.

Lemma scan_escape_char (c : ascii) (r : string) :
  scan_string (escape_char c ++ r) = push c (scan_string r).
Proof. each_char c. Qed.

Lemma scan_escape (s rest : string) :
  scan_string (escape s ++ String dquote rest) = Some (s, rest).
Proof.
  induction s as [|c s IH]; [reflexivity|].
  simpl escape. rewrite append_assoc, scan_escape_char, IH. reflexivity.
Qed.

Lemma quote_append (s rest : string) :
  quote s ++ rest = String dquote (escape s ++ String dquote rest).
Proof. unfold quote. simpl. now rewrite append_assoc. Qed.


(** ** Numbers *)

Lemma read_digits_print (u : uint) (rest : string) :
  starts_digit rest = false ->
  read_digits (NilEmpty.string_of_uint u ++ rest) = (u, rest).
Proof.
  intros Hrest.
  induction u; simpl; try (rewrite IHu; reflexivity).
  destruct rest as [|c r]; [reflexivity|].
  simpl in Hrest. unfold is_digit in Hrest. simpl.
  destruct (digit_of c); [discriminate | reflexivity].
Qed.

Lemma tail_ok_inv (rest : string) :
  tail_ok rest = true ->
  starts_digit rest = false
  /\ parse_frac rest = Some (Nil, rest)
  /\ parse_exp rest = Some (None, rest).
Proof.
  unfold tail_ok. intros H.
  apply andb_true_iff in H. destruct H as [H1 H2].
  apply negb_true_iff in H1. apply negb_true_iff in H2.
  split; [exact H1|].
  destruct rest as [|c r]; [split; reflexivity|].
  simpl in H2. apply orb_false_iff in H2. destruct H2 as [H2 Hp].
  unfold parse_frac, parse_exp, expect. now rewrite Hp, H2.
Qed.

Lemma uint_beq_refl (u : uint) : uint_beq u u = true.
Proof. now apply internal_uint_dec_lb. Qed.

Lemma normal_digits_head (u : uint) (rest : string) :
  uint_beq u (unorm u) = true ->
  head_is is_digit (NilEmpty.string_of_uint u ++ rest) = true
  /\ expect "-" (NilEmpty.string_of_uint u ++ rest) = None.
Proof. destruct u; simpl; intros H; try discriminate; split; reflexivity. Qed.

Lemma print_int_head (i : signed_int) (rest : string) :
  uint_beq (abs i) (unorm (abs i)) = true ->
  head_is (fun c => is_digit c || Ascii.eqb c "-") (print_int i ++ rest) = true.
Proof.
  destruct i as [u|u]; simpl; intros H; [|reflexivity].
  destruct (normal_digits_head u rest H) as [Hd _].
  destruct (NilEmpty.string_of_uint u ++ rest); simpl in *; [discriminate|].
  now rewrite Hd.
Qed.

(** The integer part is read back, whatever follows it that is not a
    digit. *)
Lemma parse_number_sign (i : signed_int) (t : string) :
  uint_beq (abs i) (unorm (abs i)) = true ->
  starts_digit t = false ->
  parse_number (print_int i ++ t)
  = match parse_frac t with
    | None => None
    | Some (f, s3) =>
        match parse_exp s3 with
        | None => None
        | Some (e, s4) =>
            if is_nil f && match e with None => true | Some _ => false end
            then Some (PInt (Z.of_int i), s4)
            else Some (PFloat (FDec i f e), s4)
        end
    end.
Proof.
  intros Hn Hd. unfold parse_number.
  destruct i as [u|u]; simpl in Hn; simpl print_int.
  - destruct (normal_digits_head u t Hn) as [_ ->].
    rewrite (read_digits_print u t Hd), Hn. reflexivity.
  - rewrite append_cons. simpl expect. cbv beta iota.
    rewrite (read_digits_print u t Hd), Hn. reflexivity.
Qed.

Lemma parse_number_int (i : signed_int) (rest : string) :
  uint_beq (abs i) (unorm (abs i)) = true ->
  tail_ok rest = true ->
  parse_number (print_int i ++ rest) = Some (PInt (Z.of_int i), rest).
Proof.
  intros Hn Ht. destruct (tail_ok_inv rest Ht) as (Hd & Hf & He).
  rewrite (parse_number_sign i rest Hn Hd), Hf, He. reflexivity.
Qed.

Lemma print_exp_head (e : option signed_int) (rest : string) :
  tail_ok rest = true -> starts_digit (print_exp e ++ rest) = false.
Proof.
  intros Ht. destruct e as [[d|d]|]; try reflexivity.
  now destruct (tail_ok_inv rest Ht).
Qed.

Lemma parse_exp_print (e : option signed_int) (rest : string) :
  match e with Some d => is_nil (abs d) = false | None => True end ->
  tail_ok rest = true ->
  parse_exp (print_exp e ++ rest) = Some (e, rest).
Proof.
  intros He Ht. destruct (tail_ok_inv rest Ht) as (Hd & _ & Hn).
  destruct e as [[d|d]|]; [| |exact Hn]; simpl in He;
    unfold print_exp; rewrite !append_cons; simpl append;
    unfold parse_exp; simpl orb; simpl expect; cbv beta iota;
    rewrite (read_digits_print d rest Hd), He; reflexivity.
Qed.

Lemma parse_frac_print (f : uint) (t : string) :
  starts_digit t = false ->
  (is_nil f = true -> expect "." t = None) ->
  parse_frac (print_frac f ++ t) = Some (f, t).
Proof.
  intros Hd Hnil. unfold parse_frac.
  destruct (is_nil f) eqn:E.
  - destruct f; try discriminate E. simpl. now rewrite (Hnil eq_refl).
  - assert (Hp : print_frac f ++ t = String "." (NilEmpty.string_of_uint f ++ t))
      by (destruct f; try discriminate E; reflexivity).
    rewrite Hp. simpl expect. cbv beta iota.
    rewrite (read_digits_print f t Hd), E.
    reflexivity.
Qed.

Lemma parse_number_float (i : signed_int) (f : uint) (e : option signed_int)
    (rest : string) :
  wf_float (FDec i f e) = true ->
  tail_ok rest = true ->
  parse_number (print_float (FDec i f e) ++ rest)
  = Some (PFloat (FDec i f e), rest).
Proof.
  intros Hwf Ht. simpl in Hwf.
  apply andb_true_iff in Hwf. destruct Hwf as [Hwf He].
  apply andb_true_iff in Hwf. destruct Hwf as [Hn Hfe].
  simpl print_float. rewrite !append_assoc.
  assert (Hexp : starts_digit (print_exp e ++ rest) = false)
    by now apply print_exp_head.
  rewrite parse_number_sign; [| exact Hn |].
  - rewrite parse_frac_print; [| exact Hexp |].
    + rewrite parse_exp_print; [| | exact Ht].
      * destruct (is_nil f); [|reflexivity].
        destruct e; [reflexivity | discriminate Hfe].
      * destruct e; [now apply negb_true_iff in He | exact I].
    + intros Hnil. rewrite Hnil in Hfe.
      destruct e as [[d|d]|]; [reflexivity | reflexivity | discriminate Hfe].
  - destruct f; try reflexivity. exact Hexp.
Qed.

Lemma to_int_normal (z : Z) :
  uint_beq (abs (Z.to_int z)) (unorm (abs (Z.to_int z))) = true.
Proof.
  rewrite <- (DecimalZ.of_to z) at 1.
  rewrite DecimalZ.to_of, abs_norm.
  apply uint_beq_refl.
Qed.


(** ** Heads of printed values *)

Lemma head_is_impl (P Q : ascii -> bool) (s : string) :
  (forall c, P c = true -> Q c = true) ->
  head_is P s = true -> head_is Q s = true.
Proof. destruct s; simpl; auto. Qed.

Lemma number_start_value_start (c : ascii) :
  is_digit c || Ascii.eqb c "-" = true -> value_start c = true.
Proof.
  unfold value_start. intros H. apply orb_true_iff in H.
  destruct H as [-> | ->]; [reflexivity | now rewrite orb_true_r].
Qed.

Lemma dumps_head (v : pyval) (rest : string) :
  wf v = true -> head_is value_start (dumps v ++ rest) = true.
Proof.
  destruct v as [| [] | z | [i f e| | []] | s | l | d]; try reflexivity;
    intros Hwf; try discriminate Hwf.
  - apply head_is_impl with (1 := number_start_value_start).
    apply print_int_head, to_int_normal.
  - simpl dumps. unfold print_float. rewrite append_assoc.
    apply head_is_impl with (1 := number_start_value_start).
    apply print_int_head.
    simpl in Hwf. apply andb_true_iff in Hwf. destruct Hwf as [Hwf _].
    now apply andb_true_iff in Hwf.
Qed.

Lemma dumps_head_number (i : signed_int) (f : uint) (e : option signed_int)
    (rest : string) :
  wf_float (FDec i f e) = true ->
  head_is (fun c => is_digit c || Ascii.eqb c "-")
    (dumps (PFloat (FDec i f e)) ++ rest) = true.
Proof.
  intros Hwf. simpl dumps. unfold print_float. rewrite append_assoc.
  apply print_int_head.
  simpl in Hwf. apply andb_true_iff in Hwf. destruct Hwf as [Hwf _].
  now apply andb_true_iff in Hwf.
Qed.

Lemma value_start_facts (c : ascii) :
  value_start c = true ->
  is_ws c = false /\ Ascii.eqb c "]" = false /\ Ascii.eqb c "}" = false.
Proof. each_char c; intros _; repeat split. Qed.

Lemma head_skip_ws (s : string) :
  head_is value_start s = true -> skip_ws s = s.
Proof.
  destruct s as [|c r]; [reflexivity|]. simpl. intros H.
  destruct (value_start_facts c H) as (-> & _). reflexivity.
Qed.

Lemma head_not_close (s : string) :
  head_is value_start s = true ->
  expect "]" s = None /\ expect "}" s = None.
Proof.
  destruct s as [|c r]; [discriminate|]. simpl. intros H.
  destruct (value_start_facts c H) as (_ & -> & ->). split; reflexivity.
Qed.

(** ** One step of each parser *)

Lemma parse_value_number (n : nat) (s : string) (x : pyval * string) :
  head_is (fun c => is_digit c || Ascii.eqb c "-") s = true ->
  parse_number s = Some x ->
  parse_value (S n) s = Some x.
Proof.
  destruct s as [|c r]; [discriminate|]. simpl head_is. intros H Hx.
  simpl parse_value. rewrite H, Hx. reflexivity.
Qed.

Lemma parse_value_string (n : nat) (r : string) :
  parse_value (S n) (String dquote r)
  = match scan_string r with
    | Some (str, r') => Some (PStr str, r')
    | None => None
    end.
Proof. reflexivity. Qed.

Lemma parse_value_list (n : nat) (r : string) :
  parse_value (S n) (String "[" r)
  = match expect "]" (skip_ws r) with
    | Some r' => Some (PList [], r')
    | None =>
        match parse_elements n (skip_ws r) with
        | Some (l, r') => Some (PList l, r')
        | None => None
        end
    end.
Proof. reflexivity. Qed.

Lemma parse_value_dict (n : nat) (r : string) :
  parse_value (S n) (String "{" r)
  = match expect "}" (skip_ws r) with
    | Some r' => Some (PDict [], r')
    | None =>
        match parse_members n (skip_ws r) with
        | Some (kvs, r') => Some (PDict (dict_of_pairs kvs), r')
        | None => None
        end
    end.
Proof. reflexivity. Qed.

Lemma parse_elements_step (n : nat) (s : string) :
  parse_elements (S n) s
  = match parse_value n s with
    | None => None
    | Some (v, r) =>
        match expect "," (skip_ws r) with
        | Some r1 =>
            match parse_elements n (skip_ws r1) with
            | Some (vs, r2) => Some (v :: vs, r2)
            | None => None
            end
        | None =>
            match expect "]" (skip_ws r) with
            | Some r1 => Some ([v], r1)
            | None => None
            end
        end
    end.
Proof. reflexivity. Qed.

Lemma parse_members_step (n : nat) (k r : string) :
  parse_members (S n) (quote k ++ String ":" (String " " r))
  = match parse_value n (skip_ws r) with
    | None => None
    | Some (v, r3) =>
        match expect "," (skip_ws r3) with
        | Some r4 =>
            match parse_members n (skip_ws r4) with
            | Some (kvs, r5) => Some ((k, v) :: kvs, r5)
            | None => None
            end
        | None =>
            match expect "}" (skip_ws r3) with
            | Some r4 => Some ([(k, v)], r4)
            | None => None
            end
        end
    end.
Proof.
  rewrite quote_append.
  change (parse_members (S n) (String dquote ?t)) with
    (match scan_string t with
     | None => None
     | Some (k, r1) =>
         match expect ":" (skip_ws r1) with
         | None => None
         | Some r2 =>
             match parse_value n (skip_ws r2) with
             | None => None
             | Some (v, r3) =>
                 match expect "," (skip_ws r3) with
                 | Some r4 =>
                     match parse_members n (skip_ws r4) with
                     | Some (kvs, r5) => Some ((k, v) :: kvs, r5)
                     | None => None
                     end
                 | None =>
                     match expect "}" (skip_ws r3) with
                     | Some r4 => Some ([(k, v)], r4)
                     | None => None
                     end
                 end
             end
         end
     end).
  rewrite scan_escape. reflexivity.
Qed.


(** ** Dicts with distinct keys *)

Lemma existsb_eqb_In (k : string) (l : list string) :
  existsb (String.eqb k) l = true <-> In k l.
Proof.
  rewrite existsb_exists. split.
  - intros (x & Hx & He). apply String.eqb_eq in He. now subst.
  - intros H. exists k. split; [exact H | apply String.eqb_refl].
Qed.

Lemma distinct_NoDup (l : list string) : distinct l = true <-> NoDup l.
Proof.
  induction l as [|k r IH]; simpl.
  - split; [constructor | reflexivity].
  - rewrite andb_true_iff, negb_true_iff, IH. split.
    + intros [Hk Hr]. constructor; [|exact Hr].
      intros Hin. apply existsb_eqb_In in Hin. congruence.
    + intros H. inversion H as [|? ? Hk Hr]; subst. split; [|exact Hr].
      destruct (existsb (String.eqb k) r) eqn:E; [|reflexivity].
      apply existsb_eqb_In in E. contradiction.
Qed.

Lemma dict_set_fresh (d : dict) (k : string) (v : pyval) :
  ~ In k (map fst d) -> dict_set d k v = (d ++ [(k, v)])%list.
Proof.
  induction d as [|[k' v'] r IH]; simpl; intros H; [reflexivity|].
  destruct (String.eqb k k') eqn:E.
  - apply String.eqb_eq in E. subst. tauto.
  - rewrite IH; [reflexivity | tauto].
Qed.

Lemma fold_dict_set (kvs acc : dict) :
  NoDup (map fst (acc ++ kvs)%list) ->
  fold_left (fun d kv => dict_set d (fst kv) (snd kv)) kvs acc
  = (acc ++ kvs)%list.
Proof.
  revert acc. induction kvs as [|[k v] r IH]; intros acc H; simpl.
  - now rewrite List.app_nil_r.
  - rewrite dict_set_fresh.
    + rewrite IH; rewrite <- List.app_assoc; [reflexivity | exact H].
    + rewrite map_app in H. simpl in H. apply NoDup_remove_2 in H.
      intros Hin. apply H. apply in_or_app. now left.
Qed.

Lemma dict_of_pairs_distinct (d : dict) :
  distinct (map fst d) = true -> dict_of_pairs d = d.
Proof.
  intros H. unfold dict_of_pairs.
  rewrite fold_dict_set; [reflexivity | now apply distinct_NoDup].
Qed.

(** ** The round trip *)

#[local] Arguments quote : simpl never.

Lemma dump_items_cons (x y : pyval) (r : list pyval) :
  dump_items dumps (x :: y :: r)
  = dumps x ++ String "," (String " " (dump_items dumps (y :: r))).
Proof. reflexivity. Qed.

Lemma dump_members_cons (kv kv' : string * pyval) (r : dict) :
  dump_members dumps (kv :: kv' :: r)
  = quote (fst kv) ++ String ":" (String " "
      (dumps (snd kv) ++ String "," (String " " (dump_members dumps (kv' :: r))))).
Proof. reflexivity. Qed.

Lemma dump_items_head (x : pyval) (r : list pyval) (rest : string) :
  wf x = true ->
  head_is value_start (dump_items dumps (x :: r) ++ rest) = true.
Proof.
  intros Hx. destruct r as [|y r].
  - now apply dumps_head.
  - rewrite dump_items_cons, append_assoc. now apply dumps_head.
Qed.

Lemma expect_comma (t : string) : expect "," (skip_ws (String "," t)) = Some t.
Proof. reflexivity. Qed.

Lemma skip_space (t : string) : skip_ws (String " " t) = skip_ws t.
Proof. reflexivity. Qed.

Lemma parse_items (l : list pyval) :
  Forall reads_back l -> forallb wf l = true -> l <> [] ->
  forall (fuel : nat) (rest : string),
    (String.length (dump_items dumps l) < fuel)%nat ->
    parse_elements fuel (dump_items dumps l ++ String "]" rest)
    = Some (l, rest).
Proof.
  induction l as [|x r IH]; intros Hrb Hwf Hne fuel rest Hfuel;
    [contradiction|].
  inversion Hrb as [|? ? Hx Hr]; subst.
  simpl in Hwf. apply andb_true_iff in Hwf. destruct Hwf as [Hwx Hwr].
  destruct fuel as [|n]; [lia|].
  rewrite parse_elements_step.
  destruct r as [|y r].
  - simpl dump_items. simpl in Hfuel.
    rewrite (Hx Hwx n (String "]" rest)); [reflexivity | lia | reflexivity].
  - simpl in Hwr.
    assert (Hwy : wf y = true) by now apply andb_true_iff in Hwr.
    assert (Hhd := dump_items_head y r (String "]" rest) Hwy).
    specialize (IH Hr Hwr ltac:(discriminate)).
    rewrite dump_items_cons in Hfuel |- *.
    set (tl := dump_items dumps (y :: r)) in *.
    rewrite length_append in Hfuel. simpl in Hfuel.
    rewrite append_assoc. simpl append.
    rewrite (Hx Hwx n); [| lia | reflexivity].
    rewrite expect_comma, skip_space, (head_skip_ws _ Hhd).
    rewrite IH by lia. reflexivity.
Qed.

Lemma dump_members_head (kv : string * pyval) (r : dict) (rest : string) :
  head_is (fun c => Ascii.eqb c dquote) (dump_members dumps (kv :: r) ++ rest)
  = true.
Proof. destruct r; reflexivity. Qed.

Lemma parse_pairs (d : dict) :
  Forall (fun kv => reads_back (snd kv)) d ->
  forallb (fun kv => wf (snd kv)) d = true -> d <> [] ->
  forall (fuel : nat) (rest : string),
    (String.length (dump_members dumps d) < fuel)%nat ->
    parse_members fuel (dump_members dumps d ++ String "}" rest)
    = Some (d, rest).
Proof.
  induction d as [|[k x] r IH]; intros Hrb Hwf Hne fuel rest Hfuel;
    [contradiction|].
  inversion Hrb as [|? ? Hx Hr]; subst. simpl in Hx.
  simpl in Hwf. apply andb_true_iff in Hwf. destruct Hwf as [Hwx Hwr].
  destruct fuel as [|n]; [lia|].
  destruct r as [|[k' y] r].
  - change (dump_members dumps [(k, x)])
      with (quote k ++ String ":" (String " " (dumps x))) in Hfuel |- *.
    rewrite length_append in Hfuel. simpl in Hfuel.
    rewrite append_assoc, !append_cons.
    rewrite parse_members_step.
    rewrite head_skip_ws by now apply dumps_head.
    rewrite (Hx Hwx n (String "}" rest)); [reflexivity | lia | reflexivity].
  - specialize (IH Hr Hwr ltac:(discriminate)).
    assert (Hh := dump_members_head (k', y) r (String "}" rest)).
    rewrite dump_members_cons in Hfuel |- *. simpl fst in *. simpl snd in *.
    set (tl := dump_members dumps ((k', y) :: r)) in *.
    repeat (rewrite length_append in Hfuel; simpl in Hfuel).
    rewrite append_assoc, !append_cons, append_assoc, !append_cons.
    rewrite parse_members_step.
    rewrite head_skip_ws by now apply dumps_head.
    rewrite (Hx Hwx n); [| lia | reflexivity].
    rewrite expect_comma, skip_space.
    assert (Hs : skip_ws (tl ++ String "}" rest) = tl ++ String "}" rest).
    { destruct (tl ++ String "}" rest) as [|c t]; [reflexivity|].
      simpl in Hh. apply Ascii.eqb_eq in Hh. subst c. reflexivity. }
    rewrite Hs, IH by lia. reflexivity.
Qed.

Lemma dumps_nonempty (v : pyval) :
  wf v = true -> (1 <= String.length (dumps v))%nat.
Proof.
  intros H. pose proof (dumps_head v EmptyString H) as Hh.
  rewrite append_nil_r in Hh.
  destruct (dumps v); [discriminate | simpl; lia].
Qed.

Lemma all_read_back (v : pyval) : reads_back v.
Proof.
  induction v as [| b | z | x | s | l IHl | d IHd] using pyval_ind;
    intros Hwf fuel rest Hfuel Ht;
    (destruct fuel as [|n];
     [pose proof (dumps_nonempty _ Hwf); lia|]).
  - reflexivity.
  - destruct b; reflexivity.
  - simpl dumps. apply parse_value_number.
    + apply print_int_head, to_int_normal.
    + rewrite parse_number_int; [| apply to_int_normal | exact Ht].
      now rewrite DecimalZ.of_to.
  - destruct x as [i f e| | []]; try discriminate Hwf; try reflexivity.
    apply parse_value_number.
    + apply (dumps_head_number i f e rest Hwf).
    + now apply parse_number_float.
  - simpl dumps. rewrite quote_append, parse_value_string, scan_escape.
    reflexivity.
  - simpl dumps in Hfuel |- *. simpl append. rewrite append_assoc.
    simpl append. rewrite parse_value_list.
    destruct l as [|x r]; [reflexivity|].
    simpl in Hwf. assert (Hwx : wf x = true) by now apply andb_true_iff in Hwf.
    cbn [String.length] in Hfuel. rewrite length_append in Hfuel.
    cbn [String.length] in Hfuel.
    rewrite head_skip_ws by now apply dump_items_head.
    destruct (head_not_close _
                (dump_items_head x r (String "]" rest) Hwx)) as [-> _].
    rewrite parse_items; [reflexivity | exact IHl | exact Hwf
                          | discriminate | lia].
  - simpl dumps in Hfuel |- *. simpl append. rewrite append_assoc.
    simpl append. rewrite parse_value_dict.
    destruct d as [|kv r]; [reflexivity|].
    simpl wf in Hwf. apply andb_true_iff in Hwf. destruct Hwf as [Hk Hv].
    cbn [String.length] in Hfuel. rewrite length_append in Hfuel.
    cbn [String.length] in Hfuel.
    assert (Hh := dump_members_head kv r (String "}" rest)).
    destruct (dump_members dumps (kv :: r) ++ String "}" rest)
      as [|c t] eqn:E; [discriminate|].
    simpl in Hh. apply Ascii.eqb_eq in Hh. subst c.
    change (skip_ws (String dquote t)) with (String dquote t).
    change (expect "}" (String dquote t)) with (@None string).
    rewrite <- E.
    rewrite parse_pairs; [| exact IHd | exact Hv | discriminate | lia].
    now rewrite dict_of_pairs_distinct.
Qed.

(** [json.loads(json.dumps(v)) == v] *)
Lemma loads_dumps (v : pyval) :
  wf v = true -> loads_text (dumps v) = Some v.
Proof.
  intros Hwf. unfold loads_text.
  pose proof (dumps_head v EmptyString Hwf) as Hh.
  rewrite append_nil_r in Hh. rewrite (head_skip_ws _ Hh).
  rewrite <- (append_nil_r (dumps v)) at 2.
  rewrite (all_read_back v Hwf); [reflexivity | lia | reflexivity].
Qed.

End JsonFacts.

(* ================================================================== *)
(** * Response normaliser *)
(* ================================================================== *)

Section Normaliser.

Import Json JsonFacts OptimusDBProxy Design Samples.

Lemma loads_wrapped_more (n : nat) (v : pyval) :
  Json.loads (PStr (wrapped_body (S n) v)) = Ok (PStr (wrapped_body n v)).
Proof.
  change (wrapped_body (S n) v) with (dumps (PStr (wrapped_body n v))).
  unfold Json.loads.
  now rewrite (loads_dumps (PStr (wrapped_body n v)) eq_refl).
Qed.

Lemma loads_wrapped_once (v : pyval) :
  wf v = true -> Json.loads (PStr (wrapped_body 0 v)) = Ok v.
Proof.
  intros H. change (wrapped_body 0 v) with (dumps v). unfold Json.loads.
  now rewrite (loads_dumps v H).
Qed.

(** With enough attempts left the loop reaches the wrapped value. *)
Lemma unwrap_reaches (d : dict) (n m : nat) :
  wf (PDict d) = true -> (n < m)%nat ->
  unwrap m (PStr (wrapped_body n (PDict d))) = inr (PDict d).
Proof.
  intros Hwf. revert n. induction m as [|m IH]; intros n Hlt; [lia|].
  cbn [unwrap]. destruct n as [|n].
  - rewrite (loads_wrapped_once _ Hwf). now destruct m.
  - rewrite loads_wrapped_more. apply IH. lia.
Qed.

(** With too few attempts the loop stops on a string. *)
Lemma unwrap_exhausts (v : pyval) (n m : nat) :
  (m <= n)%nat ->
  unwrap m (PStr (wrapped_body n v)) = inr (PStr (wrapped_body (n - m) v)).
Proof.
  revert n. induction m as [|m IH]; intros n Hle.
  - now rewrite Nat.sub_0_r.
  - destruct n as [|n]; [lia|].
    cbn [unwrap]. rewrite loads_wrapped_more. rewrite IH by lia.
    reflexivity.
Qed.

Lemma parse_wrapped_within (R : list pyval) (extra : nat) :
  forallb wf R = true -> (extra <= max_unwrap_attempts)%nat ->
  _parse_optimusdb_response (reply (wrapped_body extra (envelope R)))
  = envelope R.
Proof.
  intros HR Hle.
  assert (Hwf : wf (envelope R) = true) by (simpl; now rewrite HR).
  unfold _parse_optimusdb_response, response_json, reply. cbn [text].
  destruct extra as [|n].
  - rewrite (loads_wrapped_once _ Hwf). reflexivity.
  - rewrite loads_wrapped_more. cbn [bind].
    unfold envelope in *.
    rewrite (unwrap_reaches _ n max_unwrap_attempts Hwf) by lia.
    reflexivity.
Qed.

Lemma parse_wrapped_beyond (R : list pyval) (extra : nat) :
  (max_unwrap_attempts < extra)%nat ->
  _parse_optimusdb_response (reply (wrapped_body extra (envelope R)))
  = empty_reply.
Proof.
  intros Hlt.
  unfold _parse_optimusdb_response, response_json, reply. cbn [text].
  destruct extra as [|n]; [lia|].
  rewrite loads_wrapped_more. cbn [bind].
  rewrite unwrap_exhausts by lia. reflexivity.
Qed.

Lemma search_parse_wrapped (R : list pyval) (extra : nat) :
  forallb wf R = true ->
  OptimusDBSearchProxy._parse_optimusdb_response
    (reply (wrapped_body extra (envelope R)))
  = if (extra <=? 1)%nat then envelope R else OptimusDBSearchProxy.empty_reply.
Proof.
  intros HR.
  assert (Hwf : wf (envelope R) = true) by (simpl; now rewrite HR).
  unfold OptimusDBSearchProxy._parse_optimusdb_response, response_json, reply.
  cbn [text].
  destruct extra as [|[|n]].
  - rewrite (loads_wrapped_once _ Hwf). reflexivity.
  - rewrite loads_wrapped_more. cbn [bind].
    rewrite (loads_wrapped_once _ Hwf). reflexivity.
  - rewrite loads_wrapped_more. cbn [bind].
    rewrite loads_wrapped_more. reflexivity.
Qed.

(** C1, as the code has it. For every record set [R] of JSON values, a
    reply body that wraps [R] between one and six times normalises to
    exactly [R] under the metadata proxy: the first parse does not count
    against the budget of five re-parses. From seven wraps on the budget
    is exhausted and the result is the empty record set, returned and
    not raised. The parser of the search proxy re-parses once: one or
    two wraps give [R], three or more the empty record set. *)
Theorem unwrap_budget (R : list pyval) (times : nat) :
  forallb wf R = true ->
  (1 <= times)%nat ->
  normalize (encode_wrapped times R)
  = (if (times <=? 6)%nat then Ok (PList R) else no_data)
  /\ normalize_search (encode_wrapped times R)
    = (if (times <=? 2)%nat then Ok (PList R) else no_data).
Proof.
  intros HR Hpos. unfold normalize, normalize_search, encode_wrapped.
  split.
  - destruct (times <=? 6)%nat eqn:E.
    + apply Nat.leb_le in E.
      rewrite parse_wrapped_within; [reflexivity | exact HR |].
      unfold max_unwrap_attempts. lia.
    + apply Nat.leb_gt in E.
      rewrite parse_wrapped_beyond; [reflexivity |].
      unfold max_unwrap_attempts. lia.
  - rewrite (search_parse_wrapped R (times - 1) HR).
    replace (times - 1 <=? 1)%nat with (times <=? 2)%nat.
    + now destruct (times <=? 2)%nat.
    + destruct (times <=? 2)%nat eqn:E; symmetry.
      * apply Nat.leb_le in E. apply Nat.leb_le. lia.
      * apply Nat.leb_gt in E. apply Nat.leb_gt. lia.
Qed.

Lemma unwrap_budget_witness :
  normalize (encodeAsSinglyWrappedJSON orders) = Ok (PList orders)
  /\ normalize (encodeAsDoublyWrappedJSON orders) = Ok (PList orders)
  /\ normalize (encode_wrapped 7 orders) = no_data.
Proof.
  split; [|split].
  - exact (proj1 (unwrap_budget orders 1 eq_refl (le_n 1))).
  - exact (proj1 (unwrap_budget orders 2 eq_refl (le_S 1 1 (le_n 1)))).
  - refine (proj1 (unwrap_budget orders 7 eq_refl _)). repeat constructor.
Defined.

(** C1 as stated fails at six wraps: the non-empty record set comes
    back whole, not the empty one. *)
Lemma six_wraps_are_unwrapped :
  normalize (encode_wrapped 6 orders) = Ok (PList orders)
  /\ normalize (encode_wrapped 6 orders) <> no_data.
Proof.
  assert (H : normalize (encode_wrapped 6 orders) = Ok (PList orders))
    by (vm_compute; reflexivity).
  split; [exact H | rewrite H; discriminate].
Qed.

(** C2, as the code has it. The parser validates the envelope only:
    when the reply is a mapping that carries a [data] or a [records]
    key it is returned unchanged, whatever its records array holds. No
    element is inspected, so none is dropped. *)
Theorem reply_returned_unchanged (d : dict) :
  wf (PDict d) = true ->
  dict_mem d "data" || dict_mem d "records" = true ->
  _parse_optimusdb_response (reply (dumps (PDict d))) = PDict d.
Proof.
  intros Hwf Hkey.
  unfold _parse_optimusdb_response, response_json, reply, Json.loads.
  cbn [text]. rewrite (loads_dumps (PDict d) Hwf).
  unfold max_unwrap_attempts. cbn [bind unwrap].
  replace (negb (dict_mem d "data") && negb (dict_mem d "records"))
    with false; [reflexivity|].
  rewrite <- negb_orb, Hkey. reflexivity.
Qed.

Lemma reply_returned_unchanged_witness :
  _parse_optimusdb_response (reply (dumps (envelope mixed))) = envelope mixed.
Proof.
  apply (reply_returned_unchanged [("data", PDict [("records", PList mixed)])]);
    reflexivity.
Defined.

(** C2 as stated fails: the four elements of [mixed] that are not
    mappings are in the normalised record set. *)
Lemma non_mappings_are_kept :
  normalize (dumps (envelope mixed)) = Ok (PList mixed)
  /\ forallb isinstance_dict mixed = false
  /\ List.length mixed = 5%nat.
Proof. repeat split; vm_compute; reflexivity. Qed.

End Normaliser.

(* ================================================================== *)
(** * More on [str] methods: cuts and replacements *)
(* ================================================================== *)

Section Cuts.

Lemma map_chars_append (f : ascii -> ascii) (a b : string) :
  map_chars f (a ++ b) = map_chars f a ++ map_chars f b.
Proof. induction a as [|c a IH]; simpl; [reflexivity | now rewrite IH]. Qed.

Lemma startswith_char (x c : ascii) (r : string) :
  startswith (String c r) (String x EmptyString) = Ascii.eqb x c.
Proof. cbn [startswith]. apply andb_true_r. Qed.

Lemma contains_cons (c : ascii) (r p : string) :
  contains (String c r) p = false ->
  startswith (String c r) p = false /\ contains r p = false.
Proof. simpl. intros H. now apply orb_false_iff in H. Qed.

Lemma contains_false_find (p s : string) :
  contains s p = false -> find_sub p s = None.
Proof.
  induction s as [|c r IH]; intros H.
  - simpl in *. apply orb_false_iff in H. destruct H as [-> _]. reflexivity.
  - destruct (contains_cons c r p H) as [Hs Hr].
    simpl find_sub. simpl in Hs. rewrite Hs, (IH Hr). reflexivity.
Qed.

Lemma replace_absent (p new s : string) :
  contains s p = false -> replace p new s = s.
Proof.
  intros H. unfold replace.
  destruct (String.length s); simpl; now rewrite (contains_false_find p s H).
Qed.

Lemma contains_middle (a p b : string) : contains (a ++ p ++ b) p = true.
Proof.
  induction a as [|c a IH].
  - simpl append. destruct (p ++ b) eqn:E; simpl.
    + destruct p; [reflexivity | discriminate].
    + rewrite <- E, startswith_append. reflexivity.
  - simpl append. simpl contains. rewrite IH. apply orb_true_r.
Qed.

(** A one-character separator is found at its first occurrence. *)
Lemma find_char (x : ascii) (a b : string) :
  contains a (String x EmptyString) = false ->
  find_sub (String x EmptyString) (a ++ String x b) = Some (a, b).
Proof.
  induction a as [|c a IH]; intros H.
  - simpl. now rewrite Ascii.eqb_refl.
  - destruct (contains_cons c a _ H) as [Hs Hr].
    simpl append. simpl find_sub. simpl in Hs. rewrite Hs, (IH Hr).
    reflexivity.
Qed.

(** The separator of the key is found right after a database that does
    not contain it: no occurrence can start inside the database and end
    in the separator. *)
Lemma find_scheme_sep (a b : string) :
  contains a "://" = false ->
  find_sub "://" (a ++ "://" ++ b) = Some (a, b).
Proof.
  induction a as [|c a IH]; intros H; [reflexivity|].
  destruct (contains_cons c a _ H) as [Hs Hr].
  simpl append. cbn [find_sub].
  assert (Hno : startswith (String c (a ++ String ":" (String "/" (String "/" b))))
                  "://" = false).
  { destruct a as [|x [|y a]]; simpl in Hs |- *.
    - now rewrite andb_false_r.
    - now rewrite !andb_false_r.
    - exact Hs. }
  rewrite Hno. simpl append in IH. rewrite (IH Hr). reflexivity.
Qed.

(** ** Replacing one character by another *)

Lemma find_char_spec (x y : ascii) (s : string) :
  match find_sub (String x EmptyString) s with
  | None => map_chars (swap x y) s = s
  | Some (a, b) =>
      s = a ++ String x b /\ map_chars (swap x y) a = a
      /\ (String.length b < String.length s)%nat
  end.
Proof.
  induction s as [|c r IH]; [reflexivity|].
  simpl find_sub. rewrite andb_true_r.
  destruct (Ascii.eqb x c) eqn:E.
  - apply Ascii.eqb_eq in E. subst c. simpl. repeat split. lia.
  - destruct (find_sub (String x EmptyString) r) as [[a b]|].
    + destruct IH as (-> & Ha & Hl). simpl. unfold swap at 1.
      rewrite Ascii.eqb_sym, E, Ha. repeat split.
      rewrite length_append in *. simpl in *. lia.
    + simpl. unfold swap at 1. rewrite Ascii.eqb_sym, E, IH. reflexivity.
Qed.

Lemma replace_fuel_char (x y : ascii) (n : nat) (s : string) :
  (String.length s <= n)%nat ->
  replace_fuel n (String x EmptyString) (String y EmptyString) s
  = map_chars (swap x y) s.
Proof.
  revert s. induction n as [|n IH]; intros s Hlen.
  - destruct s; [reflexivity | simpl in Hlen; lia].
  - cbn [replace_fuel].
    pose proof (find_char_spec x y s) as Hspec.
    destruct (find_sub (String x EmptyString) s) as [[a b]|];
      [|now rewrite Hspec].
    destruct Hspec as (-> & Ha & Hl).
    rewrite IH by lia.
    rewrite map_chars_append, Ha. simpl. unfold swap at 2.
    now rewrite Ascii.eqb_refl.
Qed.

Lemma replace_char (x y : ascii) (s : string) :
  replace (String x EmptyString) (String y EmptyString) s
  = map_chars (swap x y) s.
Proof. unfold replace. now apply replace_fuel_char. Qed.

(** Decoding undoes the encoding of a text without underscores. *)
Lemma swap_back (s : string) :
  contains s "_" = false ->
  map_chars (swap "_" " ") (map_chars (swap " " "_") s) = s.
Proof.
  induction s as [|c r IH]; intros H; [reflexivity|].
  destruct (contains_cons c r _ H) as [Hs Hr].
  cbn [map_chars]. rewrite (IH Hr). f_equal.
  rewrite startswith_char in Hs.
  unfold swap. destruct (Ascii.eqb c " ") eqn:E.
  - apply Ascii.eqb_eq in E. now subst c.
  - now rewrite Ascii.eqb_sym, Hs.
Qed.

(** The encoding leaves the separators of the key alone. *)
Lemma startswith_map (f : ascii -> ascii) (p s : string) :
  untouched f p -> startswith (map_chars f s) p = startswith s p.
Proof.
  revert s. induction p as [|c p IH]; intros s Hp; [reflexivity|].
  destruct Hp as [Hc Hp]. destruct s as [|b s]; [reflexivity|].
  simpl. now rewrite Hc, IH.
Qed.

Lemma contains_map (f : ascii -> ascii) (p s : string) :
  untouched f p -> contains (map_chars f s) p = contains s p.
Proof.
  intros Hp. induction s as [|b s IH].
  - reflexivity.
  - change (map_chars f (String b s)) with (String (f b) (map_chars f s)).
    cbn [contains].
    change (String (f b) (map_chars f s)) with (map_chars f (String b s)).
    now rewrite (startswith_map f p _ Hp), IH.
Qed.

Lemma underscore_spares (c : ascii) :
  Ascii.eqb c " " = false -> Ascii.eqb c "_" = false ->
  forall b, Ascii.eqb c (swap " " "_" b) = Ascii.eqb c b.
Proof.
  intros Hs Hu b. unfold swap. destruct (Ascii.eqb b " ") eqn:E; [|reflexivity].
  apply Ascii.eqb_eq in E. subst b. now rewrite Hs, Hu.
Qed.

End Cuts.

(* ================================================================== *)
(** * URI codec *)
(* ================================================================== *)

Section UriCodec.

Import OptimusDBProxy.

Lemma or_else_nonempty (s default : string) :
  nonempty s = true -> or_else s default = s.
Proof. unfold or_else. now intros ->. Qed.

Lemma separators_untouched :
  untouched (swap " " "_") "://" /\ untouched (swap " " "_") "/".
Proof.
  repeat split; intros b; now apply underscore_spares.
Qed.

Lemma split_two (p s a b : string) :
  find_sub p s = Some (a, b) -> find_sub p b = None ->
  split p s = [a; b].
Proof.
  intros Hs Hb. unfold split.
  destruct (String.length s); cbn [split_fuel]; rewrite Hs; [reflexivity|].
  destruct n; cbn [split_fuel]; now rewrite Hb.
Qed.

(** The key of a triple whose parts are not empty and whose database has
    no space. *)
Lemma key_shape (d s n : string) :
  nonempty d = true -> nonempty s = true -> nonempty n = true ->
  contains d " " = false ->
  _build_table_key d s n
  = d ++ "://" ++ ("default." ++ map_chars (swap " " "_") s)
      ++ String "/" (map_chars (swap " " "_") n).
Proof.
  intros Hd Hs Hn Hsp. unfold _build_table_key.
  rewrite !or_else_nonempty by assumption.
  rewrite (replace_absent " " "_" d Hsp), !replace_char.
  reflexivity.
Qed.

(** C3, as the code has it. Decoding the key of a triple gives the
    triple back when its three parts are not empty, the database
    contains no space, schema and name contain no underscore, the schema
    contains no slash, the separator of the key occurs neither in the
    database nor in schema/name, and the key has no leading or trailing
    white space and no percent-escaped space. *)
Theorem uri_round_trip (d s n : string) :
  nonempty d = true -> nonempty s = true -> nonempty n = true ->
  contains d " " = false ->
  contains s "_" = false -> contains n "_" = false ->
  contains s "/" = false ->
  contains d "://" = false ->
  contains (s ++ "/" ++ n) "://" = false ->
  strip (_build_table_key d s n) = _build_table_key d s n ->
  contains (_build_table_key d s n) "%20" = false ->
  _parse_table_uri (_build_table_key d s n) = mk_table_id d s n.
Proof.
  intros Hd Hs Hn Hsp Hus Hun Hslash Hsepd Hsep Hstrip Hpct.
  destruct separators_untouched as [Usep Uslash].
  unfold _parse_table_uri.
  rewrite Hstrip, (replace_absent "%20" " " _ Hpct).
  rewrite (key_shape d s n Hd Hs Hn Hsp).
  set (s' := map_chars (swap " " "_") s).
  set (n' := map_chars (swap " " "_") n).
  set (cs := "default." ++ s').
  set (rest := cs ++ String "/" n').
  assert (Hrest : contains rest "://" = false).
  { change (contains rest "://")
      with (contains (s' ++ String "/" n') "://").
    change (s' ++ String "/" n')
      with (s' ++ map_chars (swap " " "_") "/" ++ n').
    subst s' n'. rewrite <- !map_chars_append.
    now rewrite (contains_map _ _ _ Usep). }
  assert (Hcs : contains cs "/" = false).
  { change (contains cs "/") with (contains s' "/").
    subst s'. now rewrite (contains_map _ _ _ Uslash). }
  rewrite (split_two "://" (d ++ "://" ++ rest) d rest);
    [| now apply find_scheme_sep | now apply contains_false_find].
  cbn [List.length Nat.ltb Nat.leb nth].
  change rest with (cs ++ "/" ++ n') at 1.
  rewrite (contains_middle cs "/" n').
  unfold split1 at 1. subst rest. rewrite (find_char "/" cs n' Hcs).
  change (contains cs ".") with true. cbv iota.
  change (split1 "." cs) with ["default"; s']. cbn [nth].
  subst s' n'. rewrite !replace_char, (swap_back s Hus), (swap_back n Hun).
  reflexivity.
Qed.

Lemma uri_round_trip_witness :
  _parse_table_uri (_build_table_key "optimusdb" "Type A" "Sample Name")
  = mk_table_id "optimusdb" "Type A" "Sample Name".
Proof.
  apply (uri_round_trip "optimusdb" "Type A" "Sample Name"); reflexivity.
Defined.

(** C3 as stated fails: a space in the database is encoded and never
    decoded, an empty part is replaced by its default, a slash in the
    schema moves the cut between schema and name, a second separator
    ends the key early, the decoder rewrites a percent-escaped space and
    strips a trailing tab. None of the schemas and names below has an
    underscore. *)
Lemma uri_round_trip_fails :
  _parse_table_uri (_build_table_key "my db" "sales" "orders")
  = mk_table_id "my_db" "sales" "orders"
  /\ _parse_table_uri (_build_table_key "" "sales" "orders")
     = mk_table_id "optimusdb" "sales" "orders"
  /\ _parse_table_uri (_build_table_key "db" "" "orders")
     = mk_table_id "db" "public" "orders"
  /\ _parse_table_uri (_build_table_key "db" "sales" "")
     = mk_table_id "db" "sales" "unknown"
  /\ _parse_table_uri (_build_table_key "db" "a/b" "orders")
     = mk_table_id "db" "a" "b/orders"
  /\ _parse_table_uri (_build_table_key "db" "sales" "a://b")
     = mk_table_id "db" "sales" "a"
  /\ _parse_table_uri (_build_table_key "db" "sales" "a%20b")
     = mk_table_id "db" "sales" "a b"
  /\ _parse_table_uri (_build_table_key "db" "sales" (String "o" (String "009" "")))
     = mk_table_id "db" "sales" "o"
  /\ ~ (forall d s n : string,
          contains s "_" = false -> contains n "_" = false ->
          _parse_table_uri (_build_table_key d s n) = mk_table_id d s n).
Proof.
  repeat split; try reflexivity.
  intros H. specialize (H "my db" "sales" "orders" eq_refl eq_refl).
  vm_compute in H. discriminate H.
Qed.

End UriCodec.

(* ================================================================== *)
(** * Search ranker *)
(* ================================================================== *)

Section SearchRanker.

Import OptimusDBProxy Design Invariants Samples.

(** ** Dict updates *)

Lemma dict_find_set_same (d : dict) (k : string) (v : pyval) :
  dict_find (dict_set d k v) k = Some v.
Proof.
  induction d as [|[k' v'] r IH]; simpl.
  - now rewrite String.eqb_refl.
  - destruct (String.eqb k k') eqn:E; simpl; rewrite E; [reflexivity | exact IH].
Qed.

Lemma dict_find_set_other (d : dict) (k k' : string) (v : pyval) :
  String.eqb k' k = false ->
  dict_find (dict_set d k v) k' = dict_find d k'.
Proof.
  intros Hne. induction d as [|[k0 v0] r IH]; simpl.
  - now rewrite Hne.
  - destruct (String.eqb k k0) eqn:E; simpl.
    + apply String.eqb_eq in E. subst k0. now rewrite Hne.
    + now rewrite IH.
Qed.

Lemma dict_get_set_same (d : dict) (k : string) (v default : pyval) :
  dict_get (dict_set d k v) k default = v.
Proof. unfold dict_get. now rewrite dict_find_set_same. Qed.

Lemma dict_get_set_other (d : dict) (k k' : string) (v default : pyval) :
  String.eqb k' k = false ->
  dict_get (dict_set d k v) k' default = dict_get d k' default.
Proof. intros H. unfold dict_get. now rewrite dict_find_set_other. Qed.

(** ** Substrings *)

Lemma startswith_refl (s : string) : startswith s s = true.
Proof.
  induction s as [|c s IH]; [reflexivity|].
  simpl. now rewrite Ascii.eqb_refl.
Qed.

Lemma startswith_contains (s p : string) :
  startswith s p = true -> contains s p = true.
Proof. intros H. destruct s; simpl in *; now rewrite H. Qed.

Lemma not_contains_inv (s q : string) :
  contains s q = false ->
  String.eqb s q = false /\ String.eqb q s = false /\ startswith s q = false.
Proof.
  intros H.
  assert (Hs : startswith s q = false).
  { destruct (startswith s q) eqn:E; [|reflexivity].
    apply startswith_contains in E. congruence. }
  assert (He : String.eqb s q = false).
  { destruct (String.eqb s q) eqn:E; [|reflexivity].
    apply String.eqb_eq in E. subst q. now rewrite startswith_refl in Hs. }
  repeat split; trivial. now rewrite String.eqb_sym.
Qed.

Lemma first_hit_none (hit : string -> string -> bool) (items : list string)
    (q : string) :
  forallb (fun t => negb (hit q (lower t))) items = true ->
  first_hit hit (map PStr items) q = Ok false.
Proof.
  induction items as [|t r IH]; intros H; [reflexivity|].
  simpl in H. apply andb_true_iff in H. destruct H as [Ht Hr].
  apply negb_true_iff in Ht. simpl. rewrite Ht. now apply IH.
Qed.

(** A dataset that matches by its description alone scores 20. *)
Lemma description_only_score (other : dict) (q : string) :
  nonempty q = true ->
  only_description_matches other q ->
  _calculate_search_score (PDict other) q = Ok 20%Z.
Proof.
  intros Hq (nm & sc & desc & db & tags & cols & Hnm & Cnm & Hsc & Csc
             & Htags & Ctags & Hdesc & Cdesc & Hcols & Ccols & Hdb & Cdb).
  destruct (not_contains_inv _ _ Cnm) as (Enm & _ & Snm).
  destruct (not_contains_inv _ _ Csc) as (Esc & _ & _).
  unfold _calculate_search_score. rewrite Hq. cbn [negb py_get bind].
  rewrite Hnm, Hsc, Htags, Hdesc, Hcols, Hdb. cbn [py_lower py_iter bind].
  rewrite Enm, Snm, Cnm, Esc, Csc, Cdesc, Cdb. cbn [orb].
  rewrite (first_hit_none (fun q t => String.eqb q t || contains t q) tags q).
  - rewrite (first_hit_none (fun q c => contains c q) cols q Ccols).
    reflexivity.
  - rewrite forallb_forall in Ctags |- *. intros t Ht.
    specialize (Ctags t Ht). apply negb_true_iff in Ctags.
    destruct (not_contains_inv _ _ Ctags) as (_ & -> & _).
    now rewrite Ctags.
Qed.

(** Unfolds one step of a computation that is known to return. *)
Ltac step_ok H :=
  match type of H with
  | context [bind ?c _] =>
      let E := fresh "E" in
      destruct c eqn:E; cbn [bind] in H |- *; [|discriminate H]
  end.

(** C4. With the query "sales", a dataset named "sales" scores 20
    points more than the same dataset named "sales_report", which in
    turn scores at least 80 and so more than the 20 points of a dataset
    whose only signal is the query in its description. *)
Theorem search_monotone (d other : dict) (s1 : Z) :
  _calculate_search_score (PDict (dict_set d "name" (PStr "sales"))) "sales"
  = Ok s1 ->
  only_description_matches other "sales" ->
  exists s2 s3 : Z,
    _calculate_search_score
      (PDict (dict_set d "name" (PStr "sales_report"))) "sales" = Ok s2
    /\ _calculate_search_score (PDict other) "sales" = Ok s3
    /\ (s2 < s1)%Z /\ (s3 < s2)%Z.
Proof.
  intros H1 Hother.
  rewrite (description_only_score other "sales" eq_refl Hother).
  unfold _calculate_search_score in H1 |- *.
  cbn [nonempty negb py_get bind] in H1 |- *.
  rewrite !dict_get_set_same in H1 |- *.
  rewrite !dict_get_set_other in H1 |- * by reflexivity.
  change (py_lower (PStr "sales")) with (Ok "sales") in H1.
  change (py_lower (PStr "sales_report")) with (Ok "sales_report").
  cbn [bind] in H1 |- *.
  change (String.eqb "sales" "sales") with true in H1.
  change (String.eqb "sales_report" "sales") with false.
  change (startswith "sales_report" "sales") with true.
  cbv iota in H1 |- *.
  repeat step_ok H1.
  injection H1 as <-.
  eexists. exists 20%Z. split; [reflexivity|]. split; [reflexivity|].
  repeat match goal with
         | |- context [if ?b then _ else _] => destruct b
         end; lia.
Qed.

Lemma search_monotone_witness :
  exists s2 s3 : Z,
    _calculate_search_score
      (PDict (dict_set retail_entry "name" (PStr "sales_report"))) "sales"
    = Ok s2
    /\ _calculate_search_score (PDict ledger_entry) "sales" = Ok s3
    /\ (s2 < 100)%Z /\ (s3 < s2)%Z.
Proof.
  apply (search_monotone retail_entry ledger_entry 100%Z).
  - vm_compute. reflexivity.
  - exists "finance.ledger", "finance", "All Sales of the quarter", "optimusdb",
      ["q1"], ["id"; "booked_at"].
    repeat split; vm_compute; reflexivity.
Defined.

(** ** Filtering, sorting, paging *)

Lemma In_firstn {A : Type} (n : nat) (l : list A) (x : A) :
  In x (firstn n l) -> In x l.
Proof.
  revert l. induction n as [|n IH]; intros [|y l]; simpl; try tauto.
  intros [->|H]; [now left | right; now apply IH].
Qed.

Lemma In_skipn {A : Type} (n : nat) (l : list A) (x : A) :
  In x (skipn n l) -> In x l.
Proof.
  revert l. induction n as [|n IH]; intros [|y l]; simpl; try tauto.
  intros H. right. now apply IH.
Qed.

Lemma In_py_slice {A : Type} (l : list A) (start stop : Z) (x : A) :
  In x (py_slice l start stop) -> In x l.
Proof. unfold py_slice. intros H. eapply In_skipn, In_firstn, H. Qed.

Lemma In_insert_desc (x y : Z * pyval) (l : list (Z * pyval)) :
  In y (insert_desc x l) -> y = x \/ In y l.
Proof.
  induction l as [|z r IH]; simpl.
  - intros [<-|[]]. now left.
  - destruct (fst x <? fst z)%Z; simpl.
    + intros [<-|H]; [right; now left|].
      destruct (IH H) as [->|Hr]; [now left | right; now right].
    + intros [<-|[<-|H]]; [now left | right; now left | right; now right].
Qed.

Lemma In_sort_desc (y : Z * pyval) (l : list (Z * pyval)) :
  In y (sort_desc l) -> In y l.
Proof.
  induction l as [|x r IH]; simpl; [tauto|].
  intros H. destruct (In_insert_desc _ _ _ H) as [->|Hr];
    [now left | right; now apply IH].
Qed.

Lemma score_all_kept (q : string) (ds : list pyval)
    (acc out : list (Z * pyval)) :
  Forall (kept q) acc ->
  score_all ds q acc = Ok out -> Forall (kept q) out.
Proof.
  revert acc. induction ds as [|x r IH]; intros acc Hacc H; simpl in H.
  - now injection H as <-.
  - destruct (_calculate_search_score x q) as [sc|e] eqn:E;
      cbn [bind] in H; [|discriminate H].
    destruct (0 <? sc)%Z eqn:Hpos; [|now apply (IH acc)].
    apply (IH (acc ++ [(sc, x)])%list); [|exact H].
    apply Forall_app. split; [exact Hacc|].
    constructor; [|constructor]. split; [exact E | now apply Z.ltb_lt].
Qed.

Lemma empty_query_scores_nothing (ds : list pyval) (acc : list (Z * pyval)) :
  score_all ds EmptyString acc = Ok acc.
Proof. induction ds as [|x r IH]; simpl; [reflexivity | exact IH]. Qed.

(** C5. Every dataset on a page of results has a positive score for the
    stripped, lower-cased query, so a dataset that scores zero is on no
    page; the empty query scores every dataset zero and the search
    returns the empty list with a total of zero. *)
Theorem zero_score_is_excluded (all_datasets : list pyval)
    (query_term : string) (page : Z) :
  (forall dataset : pyval,
      In dataset (results (get_table_by_search all_datasets query_term page)) ->
      exists score : Z,
        _calculate_search_score dataset (strip (lower query_term)) = Ok score
        /\ (0 < score)%Z)
  /\ (forall dataset : pyval,
        _calculate_search_score dataset EmptyString = Ok 0%Z)
  /\ get_table_by_search all_datasets EmptyString page
     = mk_search_result 0 [] page.
Proof.
  split; [|split].
  - intros dataset. unfold get_table_by_search.
    destruct (score_all all_datasets (strip (lower query_term)) [])
      as [scored|e] eqn:E; [|simpl; tauto].
    cbn [bind catch results]. intros Hin. apply In_py_slice, in_map_iff in Hin.
    destruct Hin as ([sc x] & Hx & Hin). simpl in Hx. subst x.
    apply In_sort_desc in Hin.
    pose proof (score_all_kept _ _ [] scored (Forall_nil _) E) as Hall.
    rewrite Forall_forall in Hall. destruct (Hall _ Hin) as [Hs Hp].
    exists sc. now split.
  - reflexivity.
  - unfold get_table_by_search.
    change (strip (lower EmptyString)) with EmptyString.
    rewrite empty_query_scores_nothing. cbn [bind catch sort_desc map].
    unfold py_slice. now rewrite skipn_nil, firstn_nil.
Qed.

Lemma zero_score_is_excluded_witness :
  results (get_table_by_search [PDict retail_entry; PDict ledger_entry]
             " Sales " 0)
  = [PDict ledger_entry]
  /\ exists score : Z,
       _calculate_search_score (PDict ledger_entry) (strip (lower " Sales "))
       = Ok score
       /\ (0 < score)%Z.
Proof.
  assert (Hres : results (get_table_by_search
                            [PDict retail_entry; PDict ledger_entry]
                            " Sales " 0)
                 = [PDict ledger_entry]) by (vm_compute; reflexivity).
  split; [exact Hres|].
  apply (proj1 (zero_score_is_excluded
                  [PDict retail_entry; PDict ledger_entry] " Sales " 0)).
  rewrite Hres. now left.
Defined.

End SearchRanker.

(* ================================================================== *)
(** * Entity mapper: columns *)
(* ================================================================== *)

Section ColumnFacts.

Import OptimusDBProxy Design Invariants Samples.

Variable py_str : pyval -> string.
Variable title : string -> string.

Lemma dict_set_all_str (m : dict) (k : string) (v : pyval) :
  all_str m -> isinstance_str v = true -> all_str (dict_set m k v).
Proof.
  unfold all_str. intros Hm Hv. induction m as [|[k' v'] r IH]; simpl.
  - now repeat constructor.
  - inversion Hm as [|? ? Hh Hr]; subst.
    destruct (String.eqb k k'); constructor; auto.
Qed.

Lemma dict_get_all_str (m : dict) (k : string) (default : pyval) :
  all_str m -> isinstance_str default = true ->
  isinstance_str (dict_get m k default) = true.
Proof.
  unfold all_str. intros Hm Hd. unfold dict_get.
  induction m as [|[k' v'] r IH]; simpl; [exact Hd|].
  inversion Hm as [|? ? Hh Hr]; subst.
  destruct (String.eqb k k'); [exact Hh | now apply IH].
Qed.

Lemma build_schema_map_ok (schema_info : list pyval) (m : dict) :
  forallb schema_row_ok schema_info = true -> all_str m ->
  exists m', build_schema_map schema_info m = Ok m' /\ all_str m'.
Proof.
  revert m. induction schema_info as [|col rest IH]; intros m Hrows Hm.
  - exists m. now split.
  - simpl in Hrows. apply andb_true_iff in Hrows. destruct Hrows as [Hcol Hrest].
    destruct col as [| | | | |  | c]; try discriminate Hcol.
    simpl in Hcol. apply andb_true_iff in Hcol. destruct Hcol as [Hname Htype].
    cbn [build_schema_map py_get bind].
    destruct (truthy (dict_get c "name" (PStr EmptyString))); [|now apply IH].
    destruct (dict_get c "name" (PStr EmptyString)); try discriminate Hname;
      apply IH; trivial.
    now apply dict_set_all_str.
Qed.

Lemma columns_loop_total (items m : dict) (so : Z) (cols : list column) :
  all_str m ->
  exists out, columns_loop py_str title items m so cols = Ok out.
Proof.
  intros Hm. revert so cols.
  induction items as [|[k v] r IH]; intros so cols; cbn [columns_loop].
  - now exists cols.
  - destruct (startswith k "_internal_"); [apply IH|].
    pose proof (dict_get_all_str m k (PStr "varchar") Hm eq_refl) as Hs.
    destruct (dict_get m k (PStr "varchar")); try discriminate Hs.
    apply IH.
Qed.

(** The loop appends one column per visible field, numbered from the
    counter it starts with. *)
Lemma columns_loop_spec (items m : dict) (s : nat) (cols out : list column) :
  columns_loop py_str title items m (Z.of_nat s) cols = Ok out ->
  exists new,
    out = (cols ++ new)%list
    /\ map col_name new = visible_fields items
    /\ map sort_order new
       = map Z.of_nat (seq s (List.length (visible_fields items))).
Proof.
  revert s cols. induction items as [|[k v] r IH]; intros s cols H.
  - simpl in H. injection H as <-. exists []. now rewrite List.app_nil_r.
  - cbn [columns_loop] in H. unfold visible_fields. cbn [keys map filter fst].
    fold (keys r). fold (visible_fields r).
    destruct (startswith k "_internal_"); cbn [negb]; [now apply IH|].
    destruct (dict_get m k (PStr "varchar")) as [| | | | ty | |];
      try discriminate H.
    replace (Z.of_nat s + 1)%Z with (Z.of_nat (S s)) in H by lia.
    destruct (IH _ _ H) as (new & -> & Hn & Ho).
    eexists (_ :: new). split; [now rewrite <- List.app_assoc|].
    cbn [map col_name sort_order List.length seq]. now rewrite Hn, Ho.
Qed.

(** C7. Whenever [_build_columns_from_record] returns, it returns one
    column per field whose name does not start with the internal
    prefix, in the order of the record, numbered 0, 1, .. k-1; and it
    does return when the rows of schema discovery are mappings with
    string types, in particular when there are none. *)
Theorem columns_are_dense (record : dict) (schema_info : list pyval) :
  (forall cols : list column,
      _build_columns_from_record py_str title record schema_info = Ok cols ->
      map col_name cols = visible_fields record
      /\ map sort_order cols
         = map Z.of_nat (seq 0 (List.length (visible_fields record))))
  /\ (forallb schema_row_ok schema_info = true ->
      exists cols : list column,
        _build_columns_from_record py_str title record schema_info = Ok cols).
Proof.
  unfold _build_columns_from_record. split.
  - intros cols H.
    destruct (build_schema_map schema_info []) as [m|e]; cbn [bind] in H;
      [|discriminate H].
    destruct (columns_loop_spec record m 0 [] cols H) as (new & -> & Hn & Ho).
    now split.
  - intros Hrows.
    destruct (build_schema_map_ok schema_info [] Hrows (Forall_nil _))
      as (m & -> & Hm).
    cbn [bind]. now apply columns_loop_total.
Qed.

(** With no schema discovery every column is typed [varchar], whatever
    the value of its field. *)
Lemma columns_loop_varchar (items : dict) (so : Z) (cols out : list column) :
  columns_loop py_str title items [] so cols = Ok out ->
  Forall (fun c => col_type c = "varchar") cols ->
  Forall (fun c => col_type c = "varchar") out.
Proof.
  revert so cols. induction items as [|[k v] r IH]; intros so cols H Hc.
  - simpl in H. now injection H as <-.
  - cbn [columns_loop] in H.
    destruct (startswith k "_internal_"); [now apply (IH so cols)|].
    cbn [dict_get dict_find] in H.
    apply (IH _ _ H). apply Forall_app. split; [exact Hc|].
    now repeat constructor.
Qed.

(** C6 fails on the code. Built with an empty schema map, the boolean,
    the integer, the float and the timestamp-shaped string of
    [typed_record] all come out as [varchar]: the builder never consults
    the value. [_infer_type] would have answered boolean, int and float,
    and the [_infer_column_type] of the enhanced builder timestamp as
    well. *)
Theorem absent_fields_are_varchar :
  (exists cols : list column,
      _build_columns_from_record py_str title typed_record [] = Ok cols
      /\ map col_name cols = ["active"; "count"; "ratio"; "created"; "note"]
      /\ map col_type cols
         = ["varchar"; "varchar"; "varchar"; "varchar"; "varchar"])
  /\ map (fun kv => _infer_type (snd kv)) typed_record
     = ["boolean"; "int"; "float"; "varchar"; "varchar"]
  /\ map (fun kv => _infer_column_type (snd kv)) typed_record
     = ["boolean"; "int"; "float"; "timestamp"; "varchar"].
Proof.
  split; [|split; reflexivity].
  eexists. split; [reflexivity|]. split; reflexivity.
Qed.

End ColumnFacts.

Lemma columns_are_dense_witness :
  exists cols : list OptimusDBProxy.column,
    OptimusDBProxy._build_columns_from_record
      (fun _ => EmptyString) (fun s => s)
      Samples.sample_record Samples.sample_schema = Ok cols
    /\ map OptimusDBProxy.col_name cols = ["name"; "rows"; "tags"]
    /\ map OptimusDBProxy.sort_order cols = [0%Z; 1%Z; 2%Z].
Proof.
  destruct (columns_are_dense (fun _ => EmptyString) (fun s => s)
              Samples.sample_record Samples.sample_schema) as [Hdense Htotal].
  destruct (Htotal eq_refl) as [cols Hcols].
  exists cols. split; [exact Hcols | exact (Hdense cols Hcols)].
Defined.

(* ================================================================== *)
(** * Entity mapper: owners *)
(* ================================================================== *)

Section OwnerFacts.

Import OptimusDBProxy Design Invariants Samples.

Lemma mem_In (x : string) (l : list string) : mem x l = true <-> In x l.
Proof. apply JsonFacts.existsb_eqb_In. Qed.

Lemma owner_state_nil : owner_state [] [].
Proof. split; [constructor | intros o []]. Qed.

Lemma owner_state_add (owners : list owner) (seen : list string) (nm : string) :
  owner_state owners seen -> mem nm seen = false ->
  owner_state (owners ++ [owner_of nm])%list (nm :: seen).
Proof.
  intros [Hnd Hsub] Hnew. split.
  - rewrite map_app. simpl.
    apply NoDup_app; [exact Hnd | repeat constructor; simpl; tauto |].
    intros x Hx [<-|[]]. apply in_map_iff in Hx.
    destruct Hx as (o & Ho & Hin). apply Hsub in Hin. rewrite Ho in Hin.
    apply mem_In in Hin. congruence.
  - intros o Hin. apply in_app_or in Hin. destruct Hin as [Hin|[<-|[]]].
    + right. now apply Hsub.
    + now left.
Qed.

Lemma add_split_owners_inv (parts : list string) (owners owners' : list owner)
    (seen seen' : list string) :
  owner_state owners seen ->
  add_split_owners parts owners seen = (owners', seen') ->
  owner_state owners' seen' /\ (owners <> [] -> owners' <> []).
Proof.
  revert owners seen. induction parts as [|p r IH]; intros owners seen Hst H.
  - simpl in H. injection H as <- <-. now split.
  - cbn [add_split_owners] in H.
    destruct (nonempty (strip p) && negb (mem (strip p) seen)) eqn:E.
    + apply andb_true_iff in E. destruct E as [_ E].
      apply negb_true_iff in E.
      destruct (IH _ _ (owner_state_add owners seen (strip p) Hst E) H)
        as [Hst' Hne].
      split; [exact Hst'|]. intros _. apply Hne. now destruct owners.
    + now apply (IH owners seen).
Qed.

Lemma owners_loop_inv (fields : list string) (record : dict)
    (owners out : list owner) (seen : list string) :
  owner_state owners seen ->
  owners_loop fields record owners seen = Ok out ->
  NoDup (map display_name out) /\ (owners <> [] -> out <> []).
Proof.
  revert owners seen. induction fields as [|f r IH]; intros owners seen Hst H.
  - simpl in H. injection H as <-. split; [apply Hst | auto].
  - cbn [owners_loop] in H.
    destruct (truthy (dict_get record f PNone)); cbn [negb] in H;
      [|now apply (IH owners seen)].
    destruct (in_str_set (dict_get record f PNone) seen) as [dup|e] eqn:Edup;
      cbn [bind] in H; [|discriminate H].
    destruct dup; [now apply (IH owners seen)|].
    destruct (dict_get record f PNone) as [| | | | s | |];
      try (now apply (IH owners seen)).
    simpl in Edup. injection Edup as Edup.
    destruct (contains s ",").
    + destruct (add_split_owners (split "," s) owners seen)
        as [owners' seen'] eqn:Es.
      destruct (add_split_owners_inv _ _ _ _ _ Hst Es) as [Hst' Hne].
      destruct (IH _ _ Hst' H) as [Hnd Hne'].
      split; [exact Hnd | auto].
    + destruct (IH _ _ (owner_state_add owners seen s Hst Edup) H)
        as [Hnd Hne].
      split; [exact Hnd|]. intros _. apply Hne. now destruct owners.
Qed.

(** Where the parser of owners returns, the claim of the design holds:
    the list is not empty, no display name occurs twice, and with no
    owner found it is the single [system] owner. *)
Lemma owners_when_returned (record : dict) (owners : list owner) :
  _parse_owners_from_record record = Ok owners ->
  owners <> []
  /\ NoDup (map display_name owners)
  /\ (owners_loop owner_fields record [] [] = Ok [] ->
      owners = [system_owner]).
Proof.
  unfold _parse_owners_from_record. intros H.
  destruct (owners_loop owner_fields record [] []) as [found|e] eqn:E;
    cbn [bind] in H; [|discriminate H].
  destruct (owners_loop_inv _ _ _ _ _ owner_state_nil E) as [Hnd _].
  destruct found as [|o r]; injection H as <-.
  - repeat split; [discriminate | repeat constructor; simpl; tauto].
  - repeat split; [discriminate | exact Hnd | discriminate].
Qed.

(** It returns on every record whose owner fields hold values that can
    be looked up in a set. *)
Lemma owners_loop_total (fields : list string) (record : dict)
    (owners : list owner) (seen : list string) :
  forallb (fun f => hashable (dict_get record f PNone)) fields = true ->
  exists out, owners_loop fields record owners seen = Ok out.
Proof.
  revert owners seen. induction fields as [|f r IH]; intros owners seen Hh.
  - now exists owners.
  - simpl in Hh. apply andb_true_iff in Hh. destruct Hh as [Hf Hr].
    cbn [owners_loop].
    destruct (truthy (dict_get record f PNone)); cbn [negb]; [|now apply IH].
    destruct (dict_get record f PNone) as [| | | | s | |];
      try discriminate Hf; cbn [in_str_set bind]; try (now apply IH).
    destruct (existsb (String.eqb s) seen); [now apply IH|].
    destruct (contains s ","); [|now apply IH].
    destruct (add_split_owners (split "," s) owners seen). now apply IH.
Qed.

Lemma owners_total (record : dict) :
  forallb (fun f => hashable (dict_get record f PNone)) owner_fields = true ->
  exists owners : list owner,
    _parse_owners_from_record record = Ok owners /\ owners <> [].
Proof.
  intros Hh.
  destruct (owners_loop_total owner_fields record [] [] Hh) as [found Hf].
  unfold _parse_owners_from_record. rewrite Hf. cbn [bind].
  destruct found as [|o r]; eexists; (split; [reflexivity | discriminate]).
Qed.

(** C8 fails on the code. An owner field that holds a JSON array makes
    the membership test against the set of seen owners raise
    [TypeError]: the parser returns no list at all. *)
Theorem owners_raise_on_array :
  _parse_owners_from_record [("owner", PList [PStr "alice"])]
  = Raise TypeError
  /\ _parse_owners_from_record [("owner", PStr "alice, bob,alice")]
     = Ok [owner_of "alice"; owner_of "bob"]
  /\ _parse_owners_from_record [("name", PStr "orders")] = Ok [system_owner].
Proof. repeat split; vm_compute; reflexivity. Qed.

End OwnerFacts.

(* ================================================================== *)
(** * Lineage *)
(* ================================================================== *)

Section LineageFacts.

Import OptimusDBProxy Design Invariants Samples.

(** A field that [json.loads] rejects gives the empty list. *)
Lemma parse_direction_failure (field_str : pyval) :
  is_ok (Json.loads field_str) = false -> parse_direction field_str = [].
Proof.
  unfold parse_direction. intros H.
  destruct (truthy field_str); [|reflexivity].
  destruct (Json.loads field_str); [discriminate H | reflexivity].
Qed.

(** C9. When the backend returns a first record, each direction of the
    lineage is read from its own field alone: the upstream entities are
    [parse_direction] of [lineage_upstream] when upstream is asked for,
    the downstream entities [parse_direction] of [lineage_downstream]
    when downstream is asked for, and a field that fails to parse gives
    the empty list for its own direction only. *)
Theorem lineage_directions_independent (post : transport)
    (id resource_type direction : string) (depth : Z)
    (first : dict) (more : list pyval) :
  records_of (_execute_sql post (lineage_sql (_parse_table_uri id)))
  = Ok (PList (PDict first :: more)) ->
  let up := dict_get first "lineage_upstream" (PStr EmptyString) in
  let down := dict_get first "lineage_downstream" (PStr EmptyString) in
  get_lineage post id resource_type direction depth
  = mk_lineage
      (if mem direction ["upstream"; "both"] then parse_direction up else [])
      (if mem direction ["downstream"; "both"] then parse_direction down else [])
      depth direction id
  /\ (is_ok (Json.loads up) = false -> parse_direction up = [])
  /\ (is_ok (Json.loads down) = false -> parse_direction down = []).
Proof.
  intros Hrec up down. split; [|split; apply parse_direction_failure].
  unfold get_lineage. cbv zeta. rewrite Hrec.
  cbn [bind truthy negb py_first py_get].
  fold up. fold down.
  destruct (mem direction ["upstream"; "both"]);
    destruct (mem direction ["downstream"; "both"]); reflexivity.
Qed.

Lemma lineage_directions_independent_witness :
  let l := get_lineage (answers (Json.dumps (envelope [PDict lineage_row])))
             "optimusdb://default.sales/report" "table" "both" 1 in
  upstream_entities l = []
  /\ downstream_entities l
     = [mk_entity (PStr "optimusdb://default.sales/orders") (PInt 1)
          "optimusdb" [];
        mk_entity (PStr "optimusdb://default.sales/items") (PInt 2)
          "optimusdb" []].
Proof.
  destruct (lineage_directions_independent
              (answers (Json.dumps (envelope [PDict lineage_row])))
              "optimusdb://default.sales/report" "table" "both" 1
              lineage_row [] eq_refl) as (Heq & Hup & _).
  cbv zeta. rewrite Heq. split.
  - exact (Hup eq_refl).
  - vm_compute. reflexivity.
Defined.

End LineageFacts.

(* ================================================================== *)
(** * Users *)
(* ================================================================== *)

Section UserFacts.

Import OptimusDBProxy Design Invariants Samples.

(** C10. [get_user] never returns [None]: whatever the backend does,
    it returns a mapping that has the nine fields of a user. When the
    request fails, or the parsed reply holds no record, that mapping is
    the default user, whose [user_id] and [display_name] are the id
    asked for, whose [email] is the id followed by [@company.com] and
    whose [is_active] is [True]; when the first record is a mapping,
    each field is taken from it, with the value of the default user
    where the record has none. *)
Theorem get_user_never_none (post : transport) (id : string) :
  (exists u : dict,
      get_user post id = Some (PDict u)
      /\ keys u
         = ["email"; "user_id"; "display_name"; "profile_url"; "is_active";
            "github_username"; "team_name"; "slack_id"; "employee_type"])
  /\ (forall e : exn,
        post (user_query id) = Raise e ->
        get_user post id = Some (default_user id))
  /\ (forall (response : Http.response) (records : pyval),
        post (user_query id) = Ok response ->
        records_of (_parse_optimusdb_response response) = Ok records ->
        truthy records = false ->
        get_user post id = Some (default_user id))
  /\ (forall (response : Http.response) (user_data : dict)
             (more : list pyval),
        post (user_query id) = Ok response ->
        records_of (_parse_optimusdb_response response)
        = Ok (PList (PDict user_data :: more)) ->
        get_user post id
        = Some (PDict
                  [("email",
                    dict_get user_data "email" (PStr (id ++ "@company.com")));
                   ("user_id", dict_get user_data "user_id" (PStr id));
                   ("display_name",
                    dict_get user_data "display_name" (PStr id));
                   ("profile_url",
                    dict_get user_data "profile_url" (PStr EmptyString));
                   ("is_active", dict_get user_data "is_active" (PBool true));
                   ("github_username",
                    dict_get user_data "github_username" (PStr EmptyString));
                   ("team_name",
                    dict_get user_data "team_name" (PStr EmptyString));
                   ("slack_id",
                    dict_get user_data "slack_id" (PStr EmptyString));
                   ("employee_type",
                    dict_get user_data "employee_type" (PStr EmptyString))]))
  /\ py_get (default_user id) "user_id" PNone = Ok (PStr id)
  /\ py_get (default_user id) "display_name" PNone = Ok (PStr id)
  /\ py_get (default_user id) "email" PNone = Ok (PStr (id ++ "@company.com"))
  /\ py_get (default_user id) "is_active" PNone = Ok (PBool true).
Proof.
  split; [|split; [|split; [|split; [|repeat split]]]].
  - unfold get_user. cbv zeta.
    destruct (post (user_query id)) as [response|e];
      [|eexists; split; reflexivity].
    cbn [bind].
    destruct (records_of (_parse_optimusdb_response response)) as [records|e];
      [|eexists; split; reflexivity].
    cbn [bind]. destruct (truthy records); cbn [negb];
      [|eexists; split; reflexivity].
    destruct (py_first records) as [user_data|e]; cbn [bind];
      [|eexists; split; reflexivity].
    destruct user_data; cbn [py_get bind catch]; eexists; split; reflexivity.
  - intros e He. unfold get_user. cbv zeta. now rewrite He.
  - intros response records Hpost Hrec Hno. unfold get_user. cbv zeta.
    rewrite Hpost. cbn [bind]. rewrite Hrec. cbn [bind]. now rewrite Hno.
  - intros response user_data more Hpost Hrec. unfold get_user. cbv zeta.
    rewrite Hpost. cbn [bind]. rewrite Hrec. reflexivity.
Qed.

Lemma get_user_never_none_witness :
  get_user unreachable "alice" = Some (default_user "alice")
  /\ get_user (answers (Json.dumps (envelope []))) "alice"
     = Some (default_user "alice")
  /\ get_user (answers (Json.dumps (envelope [PDict user_row]))) "alice"
     = Some (PDict
               [("email", PStr "alice@company.com");
                ("user_id", PStr "alice");
                ("display_name", PStr "Alice A.");
                ("profile_url", PStr EmptyString);
                ("is_active", PBool false);
                ("github_username", PStr EmptyString);
                ("team_name", PStr "data");
                ("slack_id", PStr EmptyString);
                ("employee_type", PStr EmptyString)]).
Proof.
  destruct (get_user_never_none unreachable "alice") as (_ & Hfail & _).
  destruct (get_user_never_none (answers (Json.dumps (envelope []))) "alice")
    as (_ & _ & Hempty & _).
  destruct (get_user_never_none
              (answers (Json.dumps (envelope [PDict user_row]))) "alice")
    as (_ & _ & _ & Hfound & _).
  split; [|split].
  - exact (Hfail ConnectionError eq_refl).
  - exact (Hempty (reply (Json.dumps (envelope []))) (PList [])
             eq_refl eq_refl eq_refl).
  - exact (Hfound (reply (Json.dumps (envelope [PDict user_row]))) user_row []
             eq_refl eq_refl).
Defined.

End UserFacts.

(* ================================================================== *)
(** * Worked examples *)
(* ================================================================== *)

Section Examples.

Import Json OptimusDBProxy Design Samples.

(** The doubly wrapped body of the end-to-end scenario, written with
    apostrophes for double quotes. *)
Example scenario_body :
  encodeAsDoublyWrappedJSON orders
  = q "'{\'data\': {\'records\': [{\'name\': \'orders\', \'metadata_type\': \'sales\', \'tags\': \'ecommerce,orders\'}]}}'".
Proof. vm_compute. reflexivity. Qed.

Example scenario_key :
  _build_table_key "optimusdb" "sales" "orders"
  = "optimusdb://default.sales/orders".
Proof. vm_compute. reflexivity. Qed.

(** The example of the docstring of [_parse_table_uri]. *)
Example docstring_uri :
  _parse_table_uri "optimusdb://default.Type_A/Sample_Name"
  = mk_table_id "optimusdb" "Type A" "Sample Name".
Proof. vm_compute. reflexivity. Qed.

Example uri_without_scheme :
  _parse_table_uri "orders" = mk_table_id "optimusdb" "default" "orders".
Proof. vm_compute. reflexivity. Qed.

(** A reply that carries an error message and no records. *)
Example error_reply :
  _parse_optimusdb_response (reply (q "{'message': 'table not found'}"))
  = PDict [("error", PStr "table not found");
           ("data", PDict [("records", PList [])])].
Proof. vm_compute. reflexivity. Qed.

(** A JSON string whose content is not JSON. *)
Example wrapped_garbage :
  _parse_optimusdb_response (reply (q "'no such table'"))
  = PDict [("error", PStr "no such table");
           ("data", PDict [("records", PList [])])].
Proof. vm_compute. reflexivity. Qed.

Example not_json_at_all :
  _parse_optimusdb_response (reply "<html>502</html>") = empty_reply.
Proof. vm_compute. reflexivity. Qed.

(** The scores of the three sample entries for the query "sales": none
    for the first, the description for the second, a tag for the
    third; the ranking puts the third before the second. *)
Example sample_scores :
  map (fun e => _calculate_search_score (PDict e) "sales")
      [retail_entry; ledger_entry; invoices_entry]
  = [Ok 0%Z; Ok 20%Z; Ok 30%Z].
Proof. vm_compute. reflexivity. Qed.

Example sample_ranking :
  get_table_by_search
    [PDict retail_entry; PDict ledger_entry; PDict invoices_entry] "Sales" 0
  = mk_search_result 2 [PDict invoices_entry; PDict ledger_entry] 0.
Proof. vm_compute. reflexivity. Qed.

(** A page past the end is empty, with the total unchanged. *)
Example sample_page_out_of_range :
  get_table_by_search
    [PDict retail_entry; PDict ledger_entry; PDict invoices_entry] "Sales" 3
  = mk_search_result 2 [] 3.
Proof. vm_compute. reflexivity. Qed.

(** A dataset without a usable name makes the scorer raise, and the
    search answers with no result at all. *)
Example null_name_empties_search :
  get_table_by_search [PDict ledger_entry; PDict [("name", PNone)]] "sales" 0
  = mk_search_result 0 [] 0.
Proof. vm_compute. reflexivity. Qed.

End Examples.

(* ================================================================== *)
(** * More on [str] methods: trimming, splitting, joining *)
(* ================================================================== *)

Section Trimming.

Import Invariants.

Lemma contains_char (x c : ascii) (r : string) :
  contains (String c r) (String x EmptyString)
  = Ascii.eqb x c || contains r (String x EmptyString).
Proof. cbn [contains]. now rewrite startswith_char. Qed.

Lemma contains_char_append (x : ascii) (a b : string) :
  contains (a ++ b) (String x EmptyString)
  = contains a (String x EmptyString) || contains b (String x EmptyString).
Proof.
  induction a as [|c a IH]; [reflexivity|].
  simpl append. rewrite !contains_char, IH. now rewrite orb_assoc.
Qed.

(** Replacing a character removes it. *)
Lemma swap_removes (x y : ascii) (s : string) :
  Ascii.eqb x y = false ->
  contains (map_chars (swap x y) s) (String x EmptyString) = false.
Proof.
  intros Hxy. induction s as [|c r IH]; [reflexivity|].
  cbn [map_chars]. rewrite contains_char, IH, orb_false_r.
  unfold swap. destruct (Ascii.eqb c x) eqn:E; [exact Hxy|].
  now rewrite Ascii.eqb_sym.
Qed.

Lemma lstrip_length (s : string) :
  (String.length (lstrip s) <= String.length s)%nat.
Proof.
  induction s as [|c r IH]; simpl; [lia|].
  destruct (is_space c); simpl; lia.
Qed.

Lemma lstrip_idem (s : string) : lstrip (lstrip s) = lstrip s.
Proof.
  induction s as [|c r IH]; [reflexivity|].
  simpl. destruct (is_space c) eqn:E; [exact IH|].
  simpl. now rewrite E.
Qed.

Lemma rstrip_cons (c : ascii) (r : string) :
  rstrip (String c r)
  = match rstrip r with
    | EmptyString => if is_space c then EmptyString else String c EmptyString
    | r' => String c r'
    end.
Proof. reflexivity. Qed.

Lemma rstrip_idem (s : string) : rstrip (rstrip s) = rstrip s.
Proof.
  induction s as [|c r IH]; [reflexivity|].
  rewrite rstrip_cons. destruct (rstrip r) as [|d r'] eqn:E.
  - destruct (is_space c) eqn:Ec; [reflexivity|].
    rewrite rstrip_cons. simpl rstrip. now rewrite Ec.
  - rewrite rstrip_cons, IH. reflexivity.
Qed.

(** Trimming on the right keeps a text that starts with no white space
    that way. *)
Lemma lstrip_rstrip (s : string) :
  lstrip s = s -> lstrip (rstrip s) = rstrip s.
Proof.
  destruct s as [|c r]; [reflexivity|]. intros H.
  assert (Ec : is_space c = false).
  { destruct (is_space c) eqn:Ec; [|reflexivity].
    simpl in H. rewrite Ec in H.
    pose proof (lstrip_length r) as Hl. rewrite H in Hl. simpl in Hl. lia. }
  rewrite rstrip_cons.
  destruct (rstrip r) as [|d r']; [rewrite Ec|]; cbn [lstrip]; now rewrite Ec.
Qed.

Lemma strip_idem (s : string) : strip (strip s) = strip s.
Proof.
  unfold strip.
  rewrite (lstrip_rstrip (lstrip s) (lstrip_idem s)).
  apply rstrip_idem.
Qed.

Lemma lstrip_free (x : ascii) (s : string) :
  contains s (String x EmptyString) = false ->
  contains (lstrip s) (String x EmptyString) = false.
Proof.
  induction s as [|c r IH]; intros H; [exact H|].
  simpl lstrip. destruct (is_space c); [|exact H].
  rewrite contains_char in H. apply orb_false_iff in H. now apply IH.
Qed.

Lemma rstrip_free (x : ascii) (s : string) :
  contains s (String x EmptyString) = false ->
  contains (rstrip s) (String x EmptyString) = false.
Proof.
  induction s as [|c r IH]; intros H; [exact H|].
  rewrite contains_char in H. apply orb_false_iff in H. destruct H as [Hc Hr].
  rewrite rstrip_cons. specialize (IH Hr).
  destruct (rstrip r) as [|d r'].
  - destruct (is_space c); [reflexivity|].
    now rewrite contains_char, Hc.
  - now rewrite contains_char, Hc, IH.
Qed.

Lemma strip_free (x : ascii) (s : string) :
  contains s (String x EmptyString) = false ->
  contains (strip s) (String x EmptyString) = false.
Proof. intros H. now apply rstrip_free, lstrip_free. Qed.

(** A text that starts with a character that is no white space keeps
    it when trimmed. *)
Lemma strip_head (c : ascii) (r : string) :
  is_space c = false -> exists r', strip (String c r) = String c r'.
Proof.
  intros Ec. unfold strip. simpl lstrip. rewrite Ec, rstrip_cons.
  destruct (rstrip r) as [|d r'].
  - rewrite Ec. now exists EmptyString.
  - now exists (String d r').
Qed.

(** ** Cutting at one character *)

Lemma find_char_inv (x : ascii) (s : string) :
  match find_sub (String x EmptyString) s with
  | None => contains s (String x EmptyString) = false
  | Some (a, b) =>
      s = a ++ String x b /\ contains a (String x EmptyString) = false
  end.
Proof.
  induction s as [|c r IH]; [reflexivity|].
  simpl find_sub. rewrite andb_true_r.
  destruct (Ascii.eqb x c) eqn:E.
  - apply Ascii.eqb_eq in E. subst c. now split.
  - destruct (find_sub (String x EmptyString) r) as [[a b]|].
    + destruct IH as [-> Ha]. split; [reflexivity|].
      now rewrite contains_char, E, Ha.
    + now rewrite contains_char, E, IH.
Qed.

(** No piece of a cut contains the separator. *)
Lemma split_fuel_free (x : ascii) (n : nat) (s : string) :
  (String.length s <= n)%nat ->
  Forall (fun p => contains p (String x EmptyString) = false)
         (split_fuel n (String x EmptyString) s).
Proof.
  revert s. induction n as [|n IH]; intros s Hlen; cbn [split_fuel];
    pose proof (find_char_inv x s) as Hinv;
    destruct (find_sub (String x EmptyString) s) as [[a b]|].
  - destruct Hinv as [-> _]. rewrite length_append in Hlen.
    simpl in Hlen. lia.
  - now repeat constructor.
  - destruct Hinv as [-> Ha]. constructor; [exact Ha|].
    apply IH. rewrite length_append in Hlen. simpl in Hlen. lia.
  - now repeat constructor.
Qed.

Lemma split_free (x : ascii) (s : string) :
  Forall (fun p => contains p (String x EmptyString) = false)
         (split (String x EmptyString) s).
Proof. unfold split. now apply split_fuel_free. Qed.

(** The first piece of a cut of a text that starts with another
    character starts with that character. *)
Lemma split_head (x c : ascii) (r : string) :
  Ascii.eqb x c = false ->
  exists a rest,
    split (String x EmptyString) (String c r) = String c a :: rest.
Proof.
  intros Hxc. unfold split. simpl String.length. cbn [split_fuel].
  simpl find_sub. rewrite andb_true_r, Hxc.
  destruct (find_sub (String x EmptyString) r) as [[a b]|]; eauto.
Qed.

Lemma join_cons (sep x y : string) (r : list string) :
  join sep (x :: y :: r) = x ++ sep ++ join sep (y :: r).
Proof. reflexivity. Qed.

(** Cutting undoes joining when no part contains the separator. *)
Lemma split_fuel_join (x : ascii) (l : list string) (n : nat) :
  l <> [] ->
  Forall (fun p => contains p (String x EmptyString) = false) l ->
  (String.length (join (String x EmptyString) l) <= n)%nat ->
  split_fuel n (String x EmptyString) (join (String x EmptyString) l) = l.
Proof.
  revert n. induction l as [|a r IH]; intros n Hne Hall Hlen; [congruence|].
  inversion Hall as [|? ? Ha Hr]; subst.
  destruct r as [|b r'].
  - simpl join. destruct n; cbn [split_fuel];
      now rewrite (contains_false_find _ _ Ha).
  - rewrite join_cons in Hlen |- *.
    set (tl := join (String x EmptyString) (b :: r')) in *.
    change (a ++ String x EmptyString ++ tl) with (a ++ String x tl) in *.
    rewrite length_append in Hlen. cbn [String.length] in Hlen.
    destruct n; [lia|].
    cbn [split_fuel]. rewrite (find_char x a _ Ha).
    f_equal. apply IH; [discriminate | exact Hr | lia].
Qed.

Lemma split_join (x : ascii) (l : list string) :
  l <> [] ->
  Forall (fun p => contains p (String x EmptyString) = false) l ->
  split (String x EmptyString) (join (String x EmptyString) l) = l.
Proof. intros Hne Hall. unfold split. now apply split_fuel_join. Qed.

(** ** Comma-separated columns *)

Import OptimusDBProxy.

Lemma plain_inv (t : string) :
  plain t = true ->
  nonempty t = true /\ strip t = t /\ contains t "," = false.
Proof.
  unfold plain. intros H.
  apply andb_true_iff in H. destruct H as [H Hc].
  apply andb_true_iff in H. destruct H as [Hn Hs].
  apply String.eqb_eq in Hs. apply negb_true_iff in Hc. auto.
Qed.

Lemma plain_intro (t : string) :
  nonempty t = true -> strip t = t -> contains t "," = false ->
  plain t = true.
Proof.
  intros Hn Hs Hc. unfold plain. now rewrite Hn, Hs, String.eqb_refl, Hc.
Qed.

(** What is read from the pieces of a cut at commas is plain. *)
Lemma clean_plain (parts : list string) :
  Forall (fun p => contains p "," = false) parts ->
  Forall (fun t => plain t = true) (clean parts).
Proof.
  unfold clean. induction parts as [|p r IH]; intros H; [constructor|].
  inversion H as [|? ? Hp Hr]; subst. cbn [filter].
  destruct (nonempty (strip p)) eqn:E; [|now apply IH].
  cbn [map]. constructor; [|now apply IH].
  apply plain_intro; [exact E | apply strip_idem | now apply strip_free].
Qed.

Lemma comma_list_plain (s : string) :
  Forall (fun t => plain t = true) (comma_list s).
Proof. apply clean_plain, split_free. Qed.

(** Plain entries are read as they are. *)
Lemma clean_of_plain (l : list string) :
  Forall (fun t => plain t = true) l -> clean l = l.
Proof.
  unfold clean. induction l as [|t r IH]; intros H; [reflexivity|].
  inversion H as [|? ? Ht Hr]; subst.
  destruct (plain_inv t Ht) as (Hn & Hs & _).
  cbn [filter]. rewrite Hs, Hn. cbn [map]. rewrite Hs. f_equal. now apply IH.
Qed.

Lemma comma_list_join (l : list string) :
  Forall (fun t => plain t = true) l -> comma_list (join "," l) = l.
Proof.
  intros H. unfold comma_list. destruct l as [|t r]; [reflexivity|].
  rewrite (split_join "," (t :: r)); [now apply clean_of_plain | discriminate |].
  eapply Forall_impl; [|exact H]. intros a Ha. now apply plain_inv in Ha.
Qed.

End Trimming.

(* ================================================================== *)
(** * Replies and keys: what every caller relies on *)
(* ================================================================== *)

Section ReplyFacts.

Import OptimusDBProxy Design Invariants.

Lemma unwrap_early (n : nat) (v early : pyval) :
  unwrap n v = inl early ->
  exists s : string,
    early = PDict [("error", PStr s); ("data", PDict [("records", PList [])])].
Proof.
  revert v. induction n as [|n IH]; intros v H; [simpl in H; discriminate H|].
  destruct v; try (simpl in H; discriminate H).
  cbn [unwrap] in H.
  destruct (Json.loads (PStr s)) as [v'|e]; [now apply (IH v')|].
  injection H as <-. now exists s.
Qed.

Lemma parse_keeps_envelope (response : Http.response) :
  exists d : dict,
    _parse_optimusdb_response response = PDict d
    /\ dict_mem d "data" || dict_mem d "records" = true.
Proof.
  unfold _parse_optimusdb_response.
  destruct (response_json response) as [v|e]; cbn [bind catch];
    [|now eexists].
  destruct (unwrap max_unwrap_attempts v) as [early|result] eqn:U.
  - destruct (unwrap_early _ _ _ U) as [s ->]. now eexists.
  - destruct result as [| | | | |l|d]; try (now eexists).
    destruct (dict_mem d "data") eqn:Ed; cbn [negb andb catch].
    + exists d. now rewrite Ed.
    + destruct (dict_mem d "records") eqn:Er; cbn [negb catch].
      * exists d. now rewrite Ed, Er.
      * destruct (dict_mem d "error" || dict_mem d "message"); now eexists.
Qed.

(** X1. The reply parser of the metadata proxy and its [_execute_sql]
    return a mapping that has a [data] or a [records] key, whatever the
    backend sent and also when the request fails; the parser and the
    [_execute_sql] of the search proxy return a mapping. None of them
    raises. *)
Theorem reply_is_always_a_mapping (post : transport) (sql : string)
    (response : Http.response) :
  (exists d : dict,
      _parse_optimusdb_response response = PDict d
      /\ dict_mem d "data" || dict_mem d "records" = true)
  /\ (exists d : dict,
        _execute_sql post sql = PDict d
        /\ dict_mem d "data" || dict_mem d "records" = true)
  /\ isinstance_dict (OptimusDBSearchProxy._parse_optimusdb_response response)
     = true
  /\ isinstance_dict (OptimusDBSearch._execute_sql post sql) = true.
Proof.
  assert (Hsearch : forall r,
             isinstance_dict (OptimusDBSearchProxy._parse_optimusdb_response r)
             = true).
  { intros r. unfold OptimusDBSearchProxy._parse_optimusdb_response.
    destruct (response_json r) as [v|e]; cbn [bind catch]; [|reflexivity].
    destruct v as [| | | |s| |]; try reflexivity.
    - destruct (Json.loads (PStr s)) as [v'|[]]; cbn [catch]; try reflexivity.
      now destruct v'.
  }
  split; [apply parse_keeps_envelope|]. split; [|split; [apply Hsearch|]].
  - unfold _execute_sql.
    destruct (post sql) as [resp|e]; cbn [bind catch]; [|now eexists].
    destruct (ok resp); cbn [negb catch]; [apply parse_keeps_envelope|].
    now eexists.
  - unfold OptimusDBSearch._execute_sql.
    destruct (post sql) as [resp|e]; cbn [bind catch]; [|reflexivity].
    destruct (ok resp); cbn [negb catch]; [apply Hsearch | reflexivity].
Qed.

(** X2. A table key never contains a space, and it always carries the
    cluster separator, whatever the three parts are. *)
Theorem table_key_has_no_space (database schema name : string) :
  contains (_build_table_key database schema name) " " = false
  /\ contains (_build_table_key database schema name) "://default." = true.
Proof.
  unfold _build_table_key. cbv zeta. rewrite !replace_char. split.
  - rewrite !contains_char_append.
    rewrite !swap_removes by reflexivity. reflexivity.
  - apply contains_middle.
Qed.

(** X3. The schema and the name that [_parse_table_uri] returns never
    contain an underscore, and white space around the URI is ignored. *)
Theorem parsed_uri_has_no_underscore (table_uri : string) :
  contains (OptimusDBProxy.schema (_parse_table_uri table_uri)) "_" = false
  /\ contains (OptimusDBProxy.name (_parse_table_uri table_uri)) "_" = false
  /\ _parse_table_uri (strip table_uri) = _parse_table_uri table_uri.
Proof.
  assert (Hrep : forall s, contains (replace "_" " " s) "_" = false).
  { intros s. rewrite replace_char. now apply swap_removes. }
  split; [|split].
  - unfold _parse_table_uri. cbv zeta.
    match goal with
    | |- context [if contains ?r "/" then _ else _] => destruct (contains r "/")
    end; [|apply Hrep].
    match goal with
    | |- context [split1 "/" ?r] =>
        destruct (split1 "/" r) as [|a [|b [|c l]]]
    end; try reflexivity. apply Hrep.
  - unfold _parse_table_uri. cbv zeta.
    match goal with
    | |- context [if contains ?r "/" then _ else _] => destruct (contains r "/")
    end; [|apply Hrep].
    match goal with
    | |- context [split1 "/" ?r] =>
        destruct (split1 "/" r) as [|a [|b [|c l]]]
    end; try reflexivity. apply Hrep.
  - unfold _parse_table_uri. now rewrite strip_idem.
Qed.

End ReplyFacts.

(* ================================================================== *)
(** * Search: bounds, ranking, completeness *)
(* ================================================================== *)

Section RankingFacts.

Import OptimusDBProxy Design Invariants Samples.

(** ** The score *)

(** One more step of a computation that is known to return. *)
Ltac returned H :=
  match type of H with
  | context [bind ?c _] =>
      let E := fresh "E" in
      destruct c eqn:E; cbn [bind] in H |- *; [|discriminate H]
  end.

(** A relevance score lies between 0 and 215. *)
Lemma search_score_is_bounded (dataset : pyval) (query_lower : string)
    (score : Z) :
  _calculate_search_score dataset query_lower = Ok score ->
  (0 <= score <= 215)%Z.
Proof.
  unfold _calculate_search_score. intros H.
  destruct (nonempty query_lower); cbn [negb] in H;
    [|injection H as <-; lia].
  repeat returned H. injection H as <-.
  repeat match goal with
         | |- context [if ?b then _ else _] => destruct b
         end; lia.
Qed.

Lemma search_score_is_bounded_witness :
  _calculate_search_score (PDict invoices_entry) "sales" = Ok 30%Z
  /\ (0 <= 30 <= 215)%Z.
Proof.
  assert (H : _calculate_search_score (PDict invoices_entry) "sales" = Ok 30%Z)
    by (vm_compute; reflexivity).
  split; [exact H|].
  exact (search_score_is_bounded (PDict invoices_entry) "sales" 30%Z H).
Defined.

Lemma py_lower_ok (v : pyval) (s : string) :
  py_lower v = Ok s -> isinstance_str v = true.
Proof. destruct v; simpl; intros H; now try discriminate H. Qed.

(** The scorer raises on an entry one of whose text fields is no
    string. *)
Lemma score_raises (d : dict) (q : string) :
  nonempty q = true -> text_fields d = false ->
  is_ok (_calculate_search_score (PDict d) q) = false.
Proof.
  intros Hq Hd. unfold _calculate_search_score. rewrite Hq.
  cbn [negb py_get bind].
  destruct (py_lower (dict_get d "name" (PStr EmptyString))) as [nm|e] eqn:E1;
    cbn [bind]; [|reflexivity].
  destruct (py_lower (dict_get d "schema" (PStr EmptyString))) as [sc|e] eqn:E2;
    cbn [bind]; [|reflexivity].
  match goal with
  | |- is_ok (bind ?c _) = false => destruct c; cbn [bind]; [|reflexivity]
  end.
  match goal with
  | |- is_ok (bind ?c _) = false => destruct c; cbn [bind]; [|reflexivity]
  end.
  destruct (py_lower (dict_get d "description" (PStr EmptyString)))
    as [ds|e] eqn:E3; cbn [bind]; [|reflexivity].
  match goal with
  | |- is_ok (bind ?c _) = false => destruct c; cbn [bind]; [|reflexivity]
  end.
  match goal with
  | |- is_ok (bind ?c _) = false => destruct c; cbn [bind]; [|reflexivity]
  end.
  destruct (py_lower (dict_get d "database" (PStr EmptyString)))
    as [db|e] eqn:E4; cbn [bind]; [|reflexivity].
  apply py_lower_ok in E1, E2, E3, E4.
  unfold text_fields in Hd. rewrite E1, E2, E3, E4 in Hd. discriminate Hd.
Qed.

Lemma score_all_raises (q : string) (ds : list pyval) (x : pyval)
    (acc : list (Z * pyval)) :
  In x ds -> is_ok (_calculate_search_score x q) = false ->
  is_ok (score_all ds q acc) = false.
Proof.
  revert acc. induction ds as [|y r IH]; intros acc Hin Hx; [destruct Hin|].
  cbn [score_all].
  destruct (_calculate_search_score y q) as [sc|e] eqn:E; cbn [bind];
    [|reflexivity].
  destruct Hin as [->|Hin]; [rewrite E in Hx; discriminate Hx|].
  destruct (0 <? sc)%Z; now apply IH.
Qed.

(** X4. One entry whose name, schema, description or database is not a
    string (a JSON null, say) empties every search: for any query that
    is not blank the result is the empty page with a total of zero,
    whatever the other datasets are. *)
Theorem one_bad_entry_empties_the_search (all_datasets : list pyval)
    (d : dict) (query_term : string) (page : Z) :
  In (PDict d) all_datasets ->
  text_fields d = false ->
  nonempty (strip (lower query_term)) = true ->
  get_table_by_search all_datasets query_term page
  = mk_search_result 0 [] page.
Proof.
  intros Hin Hd Hq. unfold get_table_by_search.
  pose proof (score_all_raises _ all_datasets _ []
                Hin (score_raises d _ Hq Hd)) as H.
  destruct (score_all all_datasets (strip (lower query_term)) []);
    [discriminate H | reflexivity].
Qed.

Lemma one_bad_entry_empties_the_search_witness :
  get_table_by_search
    [PDict ledger_entry; PDict (dict_set invoices_entry "description" PNone)]
    "Sales" 0
  = mk_search_result 0 [] 0.
Proof.
  apply (one_bad_entry_empties_the_search
           [PDict ledger_entry;
            PDict (dict_set invoices_entry "description" PNone)]
           (dict_set invoices_entry "description" PNone) "Sales" 0).
  - right. now left.
  - vm_compute. reflexivity.
  - vm_compute. reflexivity.
Defined.

(** ** Filtering *)

Lemma score_all_filter (q : string) (ds : list pyval)
    (acc : list (Z * pyval)) :
  (forall d, In d ds -> is_ok (_calculate_search_score d q) = true) ->
  exists out : list (Z * pyval),
    score_all ds q acc = Ok (acc ++ out)%list
    /\ map snd out = filter (matches q) ds.
Proof.
  revert acc. induction ds as [|x r IH]; intros acc Hok.
  - exists []. now rewrite List.app_nil_r.
  - cbn [score_all filter]. unfold matches at 1.
    pose proof (Hok x (or_introl eq_refl)) as Hx.
    destruct (_calculate_search_score x q) as [sc|e]; [|discriminate Hx].
    cbn [bind].
    assert (Hr : forall d, In d r ->
                 is_ok (_calculate_search_score d q) = true)
      by (intros d Hd; apply Hok; now right).
    destruct (0 <? sc)%Z.
    + destruct (IH (acc ++ [(sc, x)])%list Hr) as (out & Hout & Hmap).
      exists ((sc, x) :: out). rewrite Hout, <- List.app_assoc.
      split; [reflexivity|]. cbn [map snd]. now rewrite Hmap.
    + apply (IH acc Hr).
Qed.

(** ** Sorting *)

Lemma insert_desc_length (x : Z * pyval) (l : list (Z * pyval)) :
  List.length (insert_desc x l) = S (List.length l).
Proof.
  induction l as [|y r IH]; [reflexivity|].
  cbn [insert_desc]. destruct (fst x <? fst y)%Z; simpl; now rewrite ?IH.
Qed.

Lemma sort_desc_length (l : list (Z * pyval)) :
  List.length (sort_desc l) = List.length l.
Proof.
  induction l as [|x r IH]; [reflexivity|].
  cbn [sort_desc]. rewrite insert_desc_length. simpl. now rewrite IH.
Qed.

Lemma insert_desc_In (x y : Z * pyval) (l : list (Z * pyval)) :
  y = x \/ In y l -> In y (insert_desc x l).
Proof.
  induction l as [|z r IH]; simpl.
  - intros [->|[]]. now left.
  - destruct (fst x <? fst z)%Z; simpl; intros [->|[->|H]]; auto.
Qed.

Lemma sort_desc_In (y : Z * pyval) (l : list (Z * pyval)) :
  In y l -> In y (sort_desc l).
Proof.
  induction l as [|x r IH]; simpl; [tauto|].
  intros [->|H]; apply insert_desc_In; auto.
Qed.

Lemma insert_desc_ranked (x : Z * pyval) (l : list (Z * pyval)) :
  StronglySorted ranked l -> StronglySorted ranked (insert_desc x l).
Proof.
  induction l as [|y r IH]; intros Hs; cbn [insert_desc].
  - repeat constructor.
  - apply StronglySorted_inv in Hs. destruct Hs as [Hr Hy].
    destruct (fst x <? fst y)%Z eqn:E.
    + constructor; [now apply IH|].
      rewrite Forall_forall in Hy |- *. intros z Hz.
      destruct (In_insert_desc _ _ _ Hz) as [->|Hz'].
      * unfold ranked. apply Z.ltb_lt in E. lia.
      * now apply Hy.
    + constructor; [now constructor|].
      apply Z.ltb_ge in E. constructor; [exact E|].
      rewrite Forall_forall in Hy |- *. intros z Hz.
      specialize (Hy z Hz). unfold ranked in *. lia.
Qed.

Lemma sort_desc_ranked (l : list (Z * pyval)) :
  StronglySorted ranked (sort_desc l).
Proof.
  induction l as [|x r IH]; [constructor|].
  cbn [sort_desc]. now apply insert_desc_ranked.
Qed.

(** ** Paging *)

Lemma sorted_skipn {A : Type} (R : A -> A -> Prop) (n : nat) (l : list A) :
  StronglySorted R l -> StronglySorted R (skipn n l).
Proof.
  revert l. induction n as [|n IH]; intros l Hs; [exact Hs|].
  destruct l as [|x r]; [constructor|].
  apply StronglySorted_inv in Hs. simpl. now apply IH.
Qed.

Lemma sorted_firstn {A : Type} (R : A -> A -> Prop) (n : nat) (l : list A) :
  StronglySorted R l -> StronglySorted R (firstn n l).
Proof.
  revert l. induction n as [|n IH]; intros l Hs; [constructor|].
  destruct l as [|x r]; [constructor|].
  apply StronglySorted_inv in Hs. destruct Hs as [Hr Hx].
  simpl. constructor; [now apply IH|].
  rewrite Forall_forall in Hx |- *. intros y Hy. apply Hx.
  now apply In_firstn in Hy.
Qed.

Lemma sorted_nth {A : Type} (R : A -> A -> Prop) (l : list A) (i j : nat)
    (a b : A) :
  StronglySorted R l -> (i < j)%nat ->
  nth_error l i = Some a -> nth_error l j = Some b -> R a b.
Proof.
  revert i j. induction l as [|x r IH]; intros i j Hs Hij Ha Hb.
  - destruct i; discriminate Ha.
  - apply StronglySorted_inv in Hs. destruct Hs as [Hr Hx].
    destruct j as [|j]; [lia|]. simpl in Hb.
    destruct i as [|i].
    + injection Ha as <-. rewrite Forall_forall in Hx.
      apply Hx. now apply nth_error_In in Hb.
    + simpl in Ha. apply (IH i j); trivial. lia.
Qed.

Lemma py_slice_map {A B : Type} (f : A -> B) (l : list A) (start stop : Z) :
  py_slice (map f l) start stop = map f (py_slice l start stop).
Proof.
  unfold py_slice. now rewrite length_map, skipn_map, firstn_map.
Qed.

Lemma py_slice_sorted {A : Type} (R : A -> A -> Prop) (l : list A)
    (start stop : Z) :
  StronglySorted R l -> StronglySorted R (py_slice l start stop).
Proof. intros H. unfold py_slice. now apply sorted_firstn, sorted_skipn. Qed.

Lemma py_slice_length {A : Type} (l : list A) (start stop : Z) :
  (List.length (py_slice l start stop) <= List.length l)%nat.
Proof. unfold py_slice. rewrite length_firstn, length_skipn. lia. Qed.

(** A page of ten holds at most ten entries, for every page index. *)
Lemma py_slice_page {A : Type} (l : list A) (page : Z) :
  (List.length (py_slice l (page * 10) (page * 10 + 10)) <= 10)%nat.
Proof.
  unfold py_slice.
  etransitivity; [apply firstn_le_length|].
  set (n := Z.of_nat (List.length l)).
  assert (Hn : (0 <= n)%Z) by (subst n; lia).
  destruct (Z.ltb_spec (page * 10 + 10) 0), (Z.ltb_spec (page * 10) 0); lia.
Qed.

(** X5. A page of the table search holds at most ten datasets and never
    more than the total it reports; the total never exceeds the number
    of datasets searched, and the page index is the one asked for. *)
Theorem search_page_is_bounded (all_datasets : list pyval)
    (query_term : string) (page : Z) :
  let r := get_table_by_search all_datasets query_term page in
  (List.length (results r) <= 10)%nat
  /\ (Z.of_nat (List.length (results r)) <= total_results r)%Z
  /\ (total_results r <= Z.of_nat (List.length all_datasets))%Z
  /\ page_index r = page.
Proof.
  cbv zeta. unfold get_table_by_search.
  destruct (score_all all_datasets (strip (lower query_term)) [])
    as [scored|e] eqn:E; cbn [bind catch results total_results page_index].
  - repeat split.
    + apply py_slice_page.
    + apply inj_le, py_slice_length.
    + rewrite length_map, sort_desc_length.
      assert (Hlen : forall ds acc out,
                 score_all ds (strip (lower query_term)) acc = Ok out ->
                 (List.length out <= List.length acc + List.length ds)%nat).
      { induction ds as [|x r IH]; intros acc out H; simpl in H.
        - injection H as <-. lia.
        - destruct (_calculate_search_score x (strip (lower query_term)));
            cbn [bind] in H; [|discriminate H].
          destruct (0 <? a)%Z; apply IH in H; simpl;
            rewrite ?length_app in H; simpl in H; lia. }
      apply Hlen in E. simpl in E. lia.
  - simpl. repeat split; lia.
Qed.

(** X6. The datasets of a page are in ranking order: each scores at
    least as much as every dataset after it on the page. *)
Theorem search_page_is_ranked (all_datasets : list pyval)
    (query_term : string) (page : Z) (i j : nat) (di dj : pyval) :
  (i <= j)%nat ->
  nth_error (results (get_table_by_search all_datasets query_term page)) i
  = Some di ->
  nth_error (results (get_table_by_search all_datasets query_term page)) j
  = Some dj ->
  exists si sj : Z,
    _calculate_search_score di (strip (lower query_term)) = Ok si
    /\ _calculate_search_score dj (strip (lower query_term)) = Ok sj
    /\ (sj <= si)%Z.
Proof.
  intros Hij. unfold get_table_by_search.
  destruct (score_all all_datasets (strip (lower query_term)) [])
    as [scored|e] eqn:E; cbn [bind catch results];
    [|destruct i; discriminate].
  rewrite py_slice_map, !nth_error_map.
  set (pg := py_slice (sort_desc scored) (page * 10) (page * 10 + 10)).
  destruct (nth_error pg i) as [[si xi]|] eqn:Ei; [|discriminate].
  destruct (nth_error pg j) as [[sj xj]|] eqn:Ej; [|discriminate].
  cbn [option_map snd]. intros Hi Hj.
  injection Hi as ->. injection Hj as ->.
  pose proof (score_all_kept _ _ [] scored (Forall_nil _) E) as Hall.
  rewrite Forall_forall in Hall.
  assert (Hk : forall n p, nth_error pg n = Some p -> kept (strip (lower query_term)) p).
  { intros n p Hp. apply Hall, In_sort_desc.
    apply nth_error_In in Hp. now apply In_py_slice in Hp. }
  destruct (Hk _ _ Ei) as [Hsi _]. destruct (Hk _ _ Ej) as [Hsj _].
  exists si, sj. split; [exact Hsi|]. split; [exact Hsj|].
  destruct (Nat.eq_dec i j) as [->|Hne].
  - rewrite Ei in Ej. injection Ej as -> _. lia.
  - assert (Hs : StronglySorted ranked pg)
      by apply py_slice_sorted, sort_desc_ranked.
    apply (sorted_nth ranked pg i j _ _ Hs ltac:(lia) Ei Ej).
Qed.

Lemma search_page_is_ranked_witness :
  exists si sj : Z,
    _calculate_search_score (PDict invoices_entry) (strip (lower "Sales"))
    = Ok si
    /\ _calculate_search_score (PDict ledger_entry) (strip (lower "Sales"))
       = Ok sj
    /\ (sj <= si)%Z.
Proof.
  apply (search_page_is_ranked
           [PDict retail_entry; PDict ledger_entry; PDict invoices_entry]
           "Sales" 0 0 1 (PDict invoices_entry) (PDict ledger_entry)).
  - lia.
  - vm_compute. reflexivity.
  - vm_compute. reflexivity.
Defined.

Lemma nth_error_page {A : Type} (l : list A) (n : nat) (x : A) :
  nth_error l n = Some x ->
  nth_error (py_slice l (Z.of_nat (n / 10) * 10) (Z.of_nat (n / 10) * 10 + 10))
            (n mod 10)
  = Some x.
Proof.
  intros Hn.
  assert (Hlt : (n < List.length l)%nat)
    by (apply nth_error_Some; congruence).
  pose proof (Nat.div_mod_eq n 10) as Hdm.
  pose proof (Nat.mod_upper_bound n 10 ltac:(lia)) as Hm.
  unfold py_slice.
  set (len := Z.of_nat (List.length l)).
  set (k := (n / 10)%nat) in *.
  assert (Hk : (Z.of_nat k * 10 <= Z.of_nat n)%Z) by lia.
  assert (Hlen : (Z.of_nat n < len)%Z) by (subst len; lia).
  destruct (Z.ltb_spec (Z.of_nat k * 10 + 10) 0); [lia|].
  destruct (Z.ltb_spec (Z.of_nat k * 10) 0); [lia|].
  rewrite nth_error_firstn, nth_error_skipn.
  replace (Z.to_nat (Z.min (Z.of_nat k * 10) len) + n mod 10)%nat with n
    by lia.
  destruct (Nat.ltb_spec (n mod 10)
              (Z.to_nat (Z.min (Z.of_nat k * 10 + 10) len
                         - Z.min (Z.of_nat k * 10) len))); [exact Hn | lia].
Qed.

(** X7. When every dataset can be scored, the total of the search is
    the number of datasets that match the query, and each of them is on
    one of the pages: ranking and paging lose no match. *)
Theorem search_finds_every_match (all_datasets : list pyval)
    (query_term : string) :
  (forall d, In d all_datasets ->
     is_ok (_calculate_search_score d (strip (lower query_term))) = true) ->
  (forall page : Z,
      total_results (get_table_by_search all_datasets query_term page)
      = Z.of_nat (List.length
                    (filter (matches (strip (lower query_term)))
                            all_datasets)))
  /\ (forall d : pyval,
        In d all_datasets ->
        matches (strip (lower query_term)) d = true ->
        exists page : Z,
          In d (results (get_table_by_search all_datasets query_term page))).
Proof.
  intros Hok.
  destruct (score_all_filter _ all_datasets [] Hok) as (out & Hout & Hmap).
  simpl app in Hout. split.
  - intros page. unfold get_table_by_search. rewrite Hout.
    cbn [bind catch total_results].
    now rewrite length_map, sort_desc_length, <- Hmap, length_map.
  - intros d Hin Hd.
    assert (Hf : In d (map snd out)).
    { rewrite Hmap. apply filter_In. now split. }
    apply in_map_iff in Hf. destruct Hf as (p & Hp & Hpin).
    apply sort_desc_In in Hpin.
    assert (Hd' : In d (map snd (sort_desc out)))
      by (apply in_map_iff; now exists p).
    apply In_nth_error in Hd'. destruct Hd' as [n Hn].
    exists (Z.of_nat (n / 10)).
    unfold get_table_by_search. rewrite Hout. cbn [bind catch results].
    eapply nth_error_In, nth_error_page, Hn.
Qed.

Lemma search_finds_every_match_witness :
  total_results
    (get_table_by_search
       [PDict retail_entry; PDict ledger_entry; PDict invoices_entry]
       "Sales" 0)
  = 2%Z.
Proof.
  refine (proj1 (search_finds_every_match
                   [PDict retail_entry; PDict ledger_entry;
                    PDict invoices_entry] "Sales" _) 0%Z).
  intros d [<-|[<-|[<-|[]]]]; vm_compute; reflexivity.
Defined.

End RankingFacts.

(* ================================================================== *)
(** * Owners: when the parser returns, and what *)
(* ================================================================== *)

Section OwnerMoreFacts.

Import OptimusDBProxy Design Invariants Samples.

Lemma owners_loop_ok (fields : list string) (record : dict)
    (owners : list owner) (seen : list string) :
  is_ok (owners_loop fields record owners seen)
  = forallb (fun f => owner_field_ok (dict_get record f PNone)) fields.
Proof.
  revert owners seen. induction fields as [|f r IH]; intros owners seen;
    [reflexivity|].
  cbn [owners_loop forallb]. unfold owner_field_ok at 1.
  destruct (truthy (dict_get record f PNone)); cbn [negb orb andb];
    [|apply IH].
  destruct (dict_get record f PNone) as [| | | | s | |];
    cbn [in_str_set bind hashable andb]; try apply IH; try reflexivity.
  destruct (existsb (String.eqb s) seen); [apply IH|].
  destruct (contains s ","); [|apply IH].
  destruct (add_split_owners (split "," s) owners seen). apply IH.
Qed.

Lemma owners_loop_exn (fields : list string) (record : dict)
    (owners : list owner) (seen : list string) (e : exn) :
  owners_loop fields record owners seen = Raise e -> e = TypeError.
Proof.
  revert owners seen. induction fields as [|f r IH]; intros owners seen H;
    [discriminate H|].
  cbn [owners_loop] in H.
  destruct (truthy (dict_get record f PNone)); cbn [negb] in H;
    [|now apply IH in H].
  destruct (dict_get record f PNone) as [| | | | s | |];
    cbn [in_str_set bind] in H;
    try (now apply IH in H); try (now injection H as <-).
  destruct (existsb (String.eqb s) seen); [now apply IH in H|].
  destruct (contains s ","); [|now apply IH in H].
  destruct (add_split_owners (split "," s) owners seen). now apply IH in H.
Qed.

Lemma parse_owners_ok (record : dict) :
  is_ok (_parse_owners_from_record record)
  = forallb (fun f => owner_field_ok (dict_get record f PNone)) owner_fields.
Proof.
  unfold _parse_owners_from_record.
  rewrite <- (owners_loop_ok owner_fields record [] []).
  destruct (owners_loop owner_fields record [] []) as [[|o r]|e]; reflexivity.
Qed.

(** X8. The parser of owners returns exactly on the records each of
    whose seven owner fields is false (absent, null, empty) or
    hashable; on any other record, one with a non-empty array or
    mapping in an owner field, it raises [TypeError]. *)
Theorem owners_return_exactly_on_hashable_fields (record : dict) :
  is_ok (_parse_owners_from_record record)
  = forallb (fun f => owner_field_ok (dict_get record f PNone)) owner_fields
  /\ forall e : exn,
       _parse_owners_from_record record = Raise e -> e = TypeError.
Proof.
  split; [apply parse_owners_ok|]. unfold _parse_owners_from_record.
  - intros e H.
    destruct (owners_loop owner_fields record [] []) as [[|o r]|e'] eqn:E;
      cbn [bind] in H; try discriminate H.
    injection H as <-. now apply owners_loop_exn in E.
Qed.

Lemma owners_return_exactly_on_hashable_fields_witness :
  is_ok (_parse_owners_from_record [("owner", PList [PStr "alice"])]) = false
  /\ forall e : exn,
       _parse_owners_from_record [("owner", PList [PStr "alice"])] = Raise e ->
       e = TypeError.
Proof.
  exact (conj
           (eq_trans
              (proj1 (owners_return_exactly_on_hashable_fields
                        [("owner", PList [PStr "alice"])]))
              eq_refl)
           (proj2 (owners_return_exactly_on_hashable_fields
                     [("owner", PList [PStr "alice"])]))).
Defined.

Lemma add_split_owners_derived (parts : list string)
    (owners owners' : list owner) (seen seen' : list string) :
  Forall (fun o => o = owner_of (display_name o)) owners ->
  add_split_owners parts owners seen = (owners', seen') ->
  Forall (fun o => o = owner_of (display_name o)) owners'.
Proof.
  revert owners seen. induction parts as [|p r IH]; intros owners seen Hd H.
  - simpl in H. now injection H as <- <-.
  - cbn [add_split_owners] in H.
    destruct (nonempty (strip p) && negb (mem (strip p) seen));
      [|now apply (IH owners seen)].
    apply (IH _ _ (proj2 (Forall_app _ _ _)
                     (conj Hd (Forall_cons _ eq_refl (Forall_nil _)))) H).
Qed.

Lemma owners_loop_derived (fields : list string) (record : dict)
    (owners out : list owner) (seen : list string) :
  Forall (fun o => o = owner_of (display_name o)) owners ->
  owners_loop fields record owners seen = Ok out ->
  Forall (fun o => o = owner_of (display_name o)) out.
Proof.
  revert owners seen. induction fields as [|f r IH]; intros owners seen Hd H.
  - simpl in H. now injection H as <-.
  - cbn [owners_loop] in H.
    destruct (truthy (dict_get record f PNone)); cbn [negb] in H;
      [|now apply (IH owners seen)].
    destruct (in_str_set (dict_get record f PNone) seen) as [dup|e];
      cbn [bind] in H; [|discriminate H].
    destruct dup; [now apply (IH owners seen)|].
    destruct (dict_get record f PNone) as [| | | | s | |];
      try (now apply (IH owners seen)).
    destruct (contains s ",").
    + destruct (add_split_owners (split "," s) owners seen)
        as [owners' seen'] eqn:Es.
      apply (IH _ _ (add_split_owners_derived _ _ _ _ _ Hd Es) H).
    + apply (IH _ _ (proj2 (Forall_app _ _ _)
                       (conj Hd (Forall_cons _ eq_refl (Forall_nil _)))) H).
Qed.

(** X9. Whenever the parser of owners returns, the list is not empty,
    no display name occurs twice, and every owner is derived from its
    display name alone: the user id is the display name and the e-mail
    address is the lower-cased name with dots for spaces at
    [company.com]. *)
Theorem owners_are_distinct_and_derived (record : dict)
    (owners : list owner) :
  _parse_owners_from_record record = Ok owners ->
  owners <> []
  /\ NoDup (map display_name owners)
  /\ Forall (fun o =>
               user_id o = display_name o
               /\ email o
                  = replace " " "." (lower (display_name o)) ++ "@company.com")
            owners.
Proof.
  intros H. destruct (owners_when_returned record owners H) as (Hne & Hnd & _).
  split; [exact Hne|]. split; [exact Hnd|].
  assert (Hd : Forall (fun o => o = owner_of (display_name o)) owners).
  { unfold _parse_owners_from_record in H.
    destruct (owners_loop owner_fields record [] []) as [found|e] eqn:E;
      cbn [bind] in H; [|discriminate H].
    pose proof (owners_loop_derived _ _ _ _ _ (Forall_nil _) E) as Hf.
    destruct found; injection H as <-; [|exact Hf].
    repeat constructor. }
  eapply Forall_impl; [|exact Hd]. intros o Ho. rewrite Ho. now split.
Qed.

Lemma owners_are_distinct_and_derived_witness :
  _parse_owners_from_record
    [("created_by", PStr "Ann Lee"); ("owners", PStr "bob, Ann Lee ,carol")]
  = Ok [owner_of "Ann Lee"; owner_of "bob"; owner_of "carol"]
  /\ NoDup (map display_name
              [owner_of "Ann Lee"; owner_of "bob"; owner_of "carol"]).
Proof.
  assert (H : _parse_owners_from_record
                [("created_by", PStr "Ann Lee");
                 ("owners", PStr "bob, Ann Lee ,carol")]
              = Ok [owner_of "Ann Lee"; owner_of "bob"; owner_of "carol"])
    by (vm_compute; reflexivity).
  split; [exact H|].
  exact (proj1 (proj2 (owners_are_distinct_and_derived _ _ H))).
Defined.

End OwnerMoreFacts.

(* ================================================================== *)
(** * Lineage: what every answer carries *)
(* ================================================================== *)

Section LineageMoreFacts.

Import OptimusDBProxy Design Invariants Samples.

Lemma parse_direction_entities (field_str : pyval) :
  Forall (fun e => source e = "optimusdb" /\ badges e = [])
         (parse_direction field_str).
Proof.
  unfold parse_direction. destruct (truthy field_str); [|constructor].
  destruct (Json.loads field_str) as [data|e]; cbn [bind catch];
    [|constructor].
  destruct (py_iter data) as [items|e]; cbn [bind catch]; [|constructor].
  induction items as [|x r IH]; [constructor|].
  cbn [map]. constructor; [|exact IH]. now destruct x.
Qed.

Lemma get_lineage_shape (post : transport) (id resource_type direction : string)
    (depth : Z) :
  get_lineage post id resource_type direction depth
  = mk_lineage [] [] depth direction id
  \/ exists up down : pyval,
       get_lineage post id resource_type direction depth
       = mk_lineage
           (if mem direction ["upstream"; "both"]
            then parse_direction up else [])
           (if mem direction ["downstream"; "both"]
            then parse_direction down else [])
           depth direction id.
Proof.
  unfold get_lineage. cbv zeta.
  destruct (records_of _) as [records|e]; cbn [bind catch]; [|now left].
  destruct (truthy records); cbn [negb]; [|now left].
  destruct (py_first records) as [first|e]; cbn [bind].
  - destruct first as [| | | | | |d]; cbn [py_get].
    7: { right.
         exists (dict_get d "lineage_upstream" (PStr EmptyString)),
                (dict_get d "lineage_downstream" (PStr EmptyString)).
         destruct (mem direction ["upstream"; "both"]),
                  (mem direction ["downstream"; "both"]); reflexivity. }
    all: destruct (mem direction ["upstream"; "both"]),
                  (mem direction ["downstream"; "both"]); cbn [bind catch];
           now left.
  - destruct (mem direction ["upstream"; "both"]),
             (mem direction ["downstream"; "both"]); cbn [bind catch];
      now left.
Qed.

(** X10. Every answer of [get_lineage] echoes the key, the depth and
    the direction asked for; each of its entities has the source
    [optimusdb] and no badge; and a direction that was not asked for is
    empty. This holds when the backend fails, too. *)
Theorem lineage_echoes_the_request (post : transport)
    (id resource_type direction : string) (depth : Z) :
  let l := get_lineage post id resource_type direction depth in
  lineage_key l = id
  /\ OptimusDBProxy.depth l = depth
  /\ OptimusDBProxy.direction l = direction
  /\ Forall (fun e => source e = "optimusdb" /\ badges e = [])
            (upstream_entities l ++ downstream_entities l)%list
  /\ (mem direction ["upstream"; "both"] = false -> upstream_entities l = [])
  /\ (mem direction ["downstream"; "both"] = false ->
      downstream_entities l = []).
Proof.
  cbv zeta.
  destruct (get_lineage_shape post id resource_type direction depth)
    as [->|(up & down & ->)]; cbn [lineage_key OptimusDBProxy.depth
                                    OptimusDBProxy.direction
                                    upstream_entities downstream_entities].
  - repeat split; constructor.
  - repeat split.
    + apply Forall_app. split.
      * destruct (mem direction ["upstream"; "both"]);
          [apply parse_direction_entities | constructor].
      * destruct (mem direction ["downstream"; "both"]);
          [apply parse_direction_entities | constructor].
    + now intros ->.
    + now intros ->.
Qed.

Lemma lineage_echoes_the_request_witness :
  upstream_entities
    (get_lineage (answers (Json.dumps (envelope [PDict lineage_row])))
       "optimusdb://default.sales/report" "table" "downstream" 3)
  = [].
Proof.
  apply (lineage_echoes_the_request
           (answers (Json.dumps (envelope [PDict lineage_row])))
           "optimusdb://default.sales/report" "table" "downstream" 3).
  reflexivity.
Defined.

End LineageMoreFacts.

(* ================================================================== *)
(** * Tags of a table page *)
(* ================================================================== *)

Section TagFacts.

Import OptimusDBProxy Design Invariants Samples.

Variable py_str : pyval -> string.

Lemma py_or_truthy (a b : pyval) : truthy a = true -> py_or a b = a.
Proof. unfold py_or. now intros ->. Qed.

Lemma py_or_falsy (a b : pyval) : truthy a = false -> py_or a b = b.
Proof. unfold py_or. now intros ->. Qed.

(** X11. A tags field that holds a string with a comma is cut at the
    commas: every tag is plain (not empty, no white space around it,
    no comma). The JSON branch is never reached for such a string, so
    a JSON array of two or more tags is cut as well and its first tag
    keeps the opening bracket. *)
Theorem tags_with_a_comma_are_cut (record : dict) (s : string) :
  dict_get record "tags" PNone = PStr s ->
  contains s "," = true ->
  _parse_tags_from_record py_str record
  = map (fun tag => Tag.mk tag "default") (comma_list s)
  /\ Forall (fun t => plain (Tag.tag_name t) = true)
            (_parse_tags_from_record py_str record)
  /\ (startswith s "[" = true ->
      exists (first : string) (rest : list Tag.t),
        _parse_tags_from_record py_str record
        = Tag.mk (String "[" first) "default" :: rest).
Proof.
  intros Htags Hcomma.
  assert (Hne : nonempty s = true) by (destruct s; [discriminate | reflexivity]).
  assert (Heq : _parse_tags_from_record py_str record
                = map (fun tag => Tag.mk tag "default") (comma_list s)).
  { assert (Ht : truthy (PStr s) = true) by exact Hne.
    unfold _parse_tags_from_record. cbv zeta. rewrite Htags.
    rewrite !(py_or_truthy (PStr s)) by exact Ht.
    rewrite Ht. cbn [negb]. now rewrite Hcomma. }
  rewrite Heq. split; [reflexivity|]. split.
  - apply Forall_map. cbn [Tag.tag_name]. apply comma_list_plain.
  - intros Hopen. destruct s as [|c r]; [discriminate|].
    rewrite startswith_char in Hopen. apply Ascii.eqb_eq in Hopen. subst c.
    unfold comma_list.
    destruct (split_head "," "[" r eq_refl) as (a & rest & ->).
    destruct (strip_head "[" a eq_refl) as [a' Ha].
    unfold clean. cbn [filter]. rewrite Ha. cbn [nonempty map]. rewrite Ha.
    now eexists _, _.
Qed.

End TagFacts.

Lemma tags_with_a_comma_are_cut_witness :
  OptimusDBProxy._parse_tags_from_record (fun _ => EmptyString)
    [("tags", PStr (Json.q "['sales', 'eu']"))]
  = [OptimusDBProxy.Tag.mk (Json.q "['sales'") "default";
     OptimusDBProxy.Tag.mk (Json.q "'eu']") "default"].
Proof.
  destruct (tags_with_a_comma_are_cut (fun _ => EmptyString)
              [("tags", PStr (Json.q "['sales', 'eu']"))]
              (Json.q "['sales', 'eu']") eq_refl eq_refl) as (H & _).
  rewrite H. vm_compute. reflexivity.
Defined.

(* ================================================================== *)
(** * Editing the comma-separated columns *)
(* ================================================================== *)

Section CommaColumnFacts.

Import OptimusDBProxy Design Invariants Samples.

Lemma filter_plain (f : string -> bool) (l : list string) :
  Forall (fun t => plain t = true) l ->
  Forall (fun t => plain t = true) (filter f l).
Proof.
  intros H. rewrite Forall_forall in H |- *.
  intros t Ht. apply filter_In in Ht. now apply H.
Qed.

(** X12. [add_tag] on a row whose tags column holds a string sends the
    select and one update, and the tags written read back, by the rule
    the proxy reads the column with, as the tags read before followed
    by the new tag, or as the tags read before when the tag is among
    them. The tag has to be plain: a tag with a comma or with white
    space around it reads back as something else. *)
Theorem add_tag_reads_back (post : transport) (id tag : string)
    (first : dict) (more : list pyval) (s : string) :
  records_of (_execute_sql post (select_column "tags" (_parse_table_uri id)))
  = Ok (PList (PDict first :: more)) ->
  dict_get first "tags" (PStr EmptyString) = PStr s ->
  plain tag = true ->
  exists new_tags : string,
    add_tag post id tag
    = [select_column "tags" (_parse_table_uri id);
       update_column 12 "tags" new_tags (_parse_table_uri id)]
    /\ comma_list new_tags
       = (if mem tag (comma_list s) then comma_list s
          else comma_list s ++ [tag])%list.
Proof.
  intros Hrec Htags Htag. unfold add_tag. cbv zeta. rewrite Hrec.
  cbn [bind truthy negb py_first py_get]. rewrite Htags.
  cbn [py_comma_list py_split bind catch].
  change (clean (split "," s)) with (comma_list s).
  eexists. split; [reflexivity|].
  destruct (mem tag (comma_list s)); cbn [negb]; apply comma_list_join.
  - apply comma_list_plain.
  - apply Forall_app. split; [apply comma_list_plain | now repeat constructor].
Qed.

Lemma add_tag_reads_back_witness :
  exists new_tags : string,
    add_tag (answers (Json.dumps (envelope [PDict sample_record])))
      "optimusdb://default.sales/orders" "eu"
    = [select_column "tags" (_parse_table_uri "optimusdb://default.sales/orders");
       update_column 12 "tags" new_tags
         (_parse_table_uri "optimusdb://default.sales/orders")]
    /\ comma_list new_tags
       = (if mem "eu" (comma_list "ecommerce,orders")
          then comma_list "ecommerce,orders"
          else comma_list "ecommerce,orders" ++ ["eu"])%list.
Proof.
  apply (add_tag_reads_back
           (answers (Json.dumps (envelope [PDict sample_record])))
           "optimusdb://default.sales/orders" "eu" sample_record []
           "ecommerce,orders"); vm_compute; reflexivity.
Defined.

(** X13. [delete_tag] on a row whose tags column holds a string sends
    the select and one update, and the tags written read back as the
    tags read before without the deleted one, in their order; the
    deleted tag is not among them, whatever it is. *)
Theorem delete_tag_reads_back (post : transport) (id tag : string)
    (first : dict) (more : list pyval) (s : string) :
  records_of (_execute_sql post (select_column "tags" (_parse_table_uri id)))
  = Ok (PList (PDict first :: more)) ->
  dict_get first "tags" (PStr EmptyString) = PStr s ->
  exists new_tags : string,
    delete_tag post id tag
    = [select_column "tags" (_parse_table_uri id);
       update_column 16 "tags" new_tags (_parse_table_uri id)]
    /\ comma_list new_tags
       = filter (fun t => negb (String.eqb t tag)) (comma_list s)
    /\ ~ In tag (comma_list new_tags).
Proof.
  intros Hrec Htags. unfold delete_tag. cbv zeta. rewrite Hrec.
  cbn [bind truthy negb py_first py_get]. rewrite Htags.
  cbn [py_comma_list py_split bind catch].
  change (clean (split "," s)) with (comma_list s).
  eexists. split; [reflexivity|].
  assert (Hback : comma_list
                    (join "," (filter (fun t => negb (String.eqb t tag))
                                      (comma_list s)))
                  = filter (fun t => negb (String.eqb t tag)) (comma_list s))
    by apply comma_list_join, filter_plain, comma_list_plain.
  split; [exact Hback|]. rewrite Hback. intros Hin.
  apply filter_In in Hin. destruct Hin as [_ Hne].
  now rewrite String.eqb_refl in Hne.
Qed.

Lemma delete_tag_reads_back_witness :
  exists new_tags : string,
    delete_tag (answers (Json.dumps (envelope [PDict sample_record])))
      "optimusdb://default.sales/orders" "orders"
    = [select_column "tags" (_parse_table_uri "optimusdb://default.sales/orders");
       update_column 16 "tags" new_tags
         (_parse_table_uri "optimusdb://default.sales/orders")]
    /\ comma_list new_tags
       = filter (fun t => negb (String.eqb t "orders"))
                (comma_list "ecommerce,orders")
    /\ ~ In "orders" (comma_list new_tags).
Proof.
  apply (delete_tag_reads_back
           (answers (Json.dumps (envelope [PDict sample_record])))
           "optimusdb://default.sales/orders" "orders" sample_record []
           "ecommerce,orders"); vm_compute; reflexivity.
Defined.

(** X14. When the select of the current tags brings no row, because
    there is none or because the request failed, [add_tag] still sends
    an update, which sets the column to the new tag alone, and
    [delete_tag] sends none. When the first row holds something other
    than a string in its tags column (a JSON null, say), neither sends
    an update. *)
Theorem tag_edits_at_the_edges (post : transport) (id tag : string) :
  let select := select_column "tags" (_parse_table_uri id) in
  (records_of (_execute_sql post select) = Ok (PList []) ->
   add_tag post id tag
   = [select; update_column 12 "tags" tag (_parse_table_uri id)]
   /\ delete_tag post id tag = [select])
  /\ (forall (first : dict) (more : list pyval),
        records_of (_execute_sql post select)
        = Ok (PList (PDict first :: more)) ->
        isinstance_str (dict_get first "tags" (PStr EmptyString)) = false ->
        add_tag post id tag = [select] /\ delete_tag post id tag = [select]).
Proof.
  cbv zeta. split.
  - intros Hrec. unfold add_tag, delete_tag. cbv zeta. rewrite Hrec.
    cbn [bind truthy negb catch mem existsb app join]. now split.
  - intros first more Hrec Hstr. unfold add_tag, delete_tag. cbv zeta.
    rewrite Hrec. cbn [bind truthy negb py_first py_get].
    destruct (dict_get first "tags" (PStr EmptyString));
      try discriminate Hstr; now split.
Qed.

Lemma tag_edits_at_the_edges_witness :
  (add_tag unreachable "optimusdb://default.sales/orders" "eu"
   = [select_column "tags" (_parse_table_uri "optimusdb://default.sales/orders");
      update_column 12 "tags" "eu"
        (_parse_table_uri "optimusdb://default.sales/orders")]
   /\ delete_tag unreachable "optimusdb://default.sales/orders" "eu"
      = [select_column "tags"
           (_parse_table_uri "optimusdb://default.sales/orders")])
  /\ (add_tag (answers (Json.dumps (envelope [PDict [("tags", PNone)]])))
        "optimusdb://default.sales/orders" "eu"
      = [select_column "tags"
           (_parse_table_uri "optimusdb://default.sales/orders")]
      /\ delete_tag (answers (Json.dumps (envelope [PDict [("tags", PNone)]])))
           "optimusdb://default.sales/orders" "eu"
         = [select_column "tags"
              (_parse_table_uri "optimusdb://default.sales/orders")]).
Proof.
  split.
  - apply (proj1 (tag_edits_at_the_edges unreachable
                    "optimusdb://default.sales/orders" "eu")).
    reflexivity.
  - apply (proj2 (tag_edits_at_the_edges
                    (answers (Json.dumps (envelope [PDict [("tags", PNone)]])))
                    "optimusdb://default.sales/orders" "eu")
             [("tags", PNone)] []); vm_compute; reflexivity.
Defined.

(** X15. [add_owner] reads the owners column and, when that is empty or
    missing, the creator of the row: the owners written read back as
    the owners (or the creator) read before followed by the new owner,
    or unchanged when the owner is among them. [delete_owner] reads
    the owners column alone, so on a row without owners it writes the
    empty list and the creator stays. *)
Theorem add_owner_starts_from_the_creator (post : transport)
    (table_uri owner : string) (first : dict) (more : list pyval)
    (s : string) :
  let select := select_column "owners" (_parse_table_uri table_uri) in
  records_of (_execute_sql post select) = Ok (PList (PDict first :: more)) ->
  py_or (dict_get first "owners" (PStr EmptyString))
        (dict_get first "created_by" (PStr EmptyString)) = PStr s ->
  plain owner = true ->
  (exists new_owners : string,
      add_owner post table_uri owner
      = [select;
         update_column 12 "owners" new_owners (_parse_table_uri table_uri)]
      /\ comma_list new_owners
         = (if mem owner (comma_list s) then comma_list s
            else comma_list s ++ [owner])%list)
  /\ (dict_get first "owners" (PStr EmptyString) = PStr EmptyString ->
      delete_owner post table_uri owner
      = [select;
         update_column 16 "owners" EmptyString (_parse_table_uri table_uri)]).
Proof.
  cbv zeta. intros Hrec Hown Hplain. split.
  - unfold add_owner. cbv zeta. rewrite Hrec.
    cbn [bind truthy negb py_first py_get]. rewrite Hown.
    cbn [py_comma_list py_split bind catch].
    change (clean (split "," s)) with (comma_list s).
    eexists. split; [reflexivity|].
    destruct (mem owner (comma_list s)); cbn [negb]; apply comma_list_join.
    + apply comma_list_plain.
    + apply Forall_app. split; [apply comma_list_plain|now repeat constructor].
  - intros Hnone. unfold delete_owner. cbv zeta. rewrite Hrec.
    cbn [bind truthy negb py_first py_get]. rewrite Hnone. reflexivity.
Qed.

Lemma add_owner_starts_from_the_creator_witness :
  exists new_owners : string,
    add_owner
      (answers (Json.dumps (envelope [PDict [("created_by", PStr "ann")]])))
      "optimusdb://default.sales/orders" "bob"
    = [select_column "owners"
         (_parse_table_uri "optimusdb://default.sales/orders");
       update_column 12 "owners" new_owners
         (_parse_table_uri "optimusdb://default.sales/orders")]
    /\ comma_list new_owners
       = (if mem "bob" (comma_list "ann") then comma_list "ann"
          else comma_list "ann" ++ ["bob"])%list.
Proof.
  apply (add_owner_starts_from_the_creator
           (answers (Json.dumps (envelope [PDict [("created_by", PStr "ann")]])))
           "optimusdb://default.sales/orders" "bob"
           [("created_by", PStr "ann")] [] "ann"); vm_compute; reflexivity.
Defined.

End CommaColumnFacts.

(* ================================================================== *)
(** * The list of all tags *)
(* ================================================================== *)

Section AllTagsFacts.

Import OptimusDBProxy Design Invariants Samples.

Lemma ascii_compare_refl (c : ascii) : Ascii.compare c c = Eq.
Proof. unfold Ascii.compare. apply N.compare_refl. Qed.

Lemma string_lt_trans (a b c : string) :
  String.compare a b = Lt -> String.compare b c = Lt ->
  String.compare a c = Lt.
Proof.
  revert b c. induction a as [|x a IH]; intros [|y b] [|z c] H1 H2;
    simpl in *; try discriminate; try reflexivity.
  destruct (Ascii.compare x y) eqn:Exy; try discriminate;
    destruct (Ascii.compare y z) eqn:Eyz; try discriminate.
  - apply Ascii.compare_eq_iff in Exy, Eyz. subst.
    rewrite ascii_compare_refl. eauto.
  - apply Ascii.compare_eq_iff in Exy. subst. now rewrite Eyz.
  - apply Ascii.compare_eq_iff in Eyz. subst. now rewrite Exy.
  - assert (E : Ascii.compare x z = Lt); [|now rewrite E].
    unfold Ascii.compare in *. rewrite N.compare_lt_iff in *. lia.
Qed.

Lemma ascending_trans (a b c : string) :
  ascending a b -> ascending b c -> ascending a c.
Proof.
  unfold ascending, String.ltb. intros H1 H2.
  destruct (String.compare a b) eqn:E1; try discriminate.
  destruct (String.compare b c) eqn:E2; try discriminate.
  now rewrite (string_lt_trans a b c E1 E2).
Qed.

Lemma insert_sorted_In (x y : string) (l : list string) :
  In y (insert_sorted x l) <-> y = x \/ In y l.
Proof.
  induction l as [|z r IH]; simpl; [intuition|].
  destruct (String.leb x z); simpl; [intuition|].
  rewrite IH. intuition.
Qed.

Lemma sorted_In (y : string) (l : list string) :
  In y (sorted l) <-> In y l.
Proof.
  induction l as [|x r IH]; simpl; [tauto|].
  rewrite insert_sorted_In, IH. intuition.
Qed.

Lemma insert_sorted_ascending (x : string) (l : list string) :
  ~ In x l -> StronglySorted ascending l ->
  StronglySorted ascending (insert_sorted x l).
Proof.
  induction l as [|y r IH]; intros Hnin Hs; cbn [insert_sorted].
  - repeat constructor.
  - apply StronglySorted_inv in Hs. destruct Hs as [Hr Hy].
    assert (Hxy : x <> y) by (intros ->; apply Hnin; now left).
    destruct (String.leb x y) eqn:E.
    + assert (Hlt : ascending x y).
      { unfold ascending, String.ltb. unfold String.leb in E.
        destruct (String.compare x y) eqn:C; try discriminate; trivial.
        now apply String.compare_eq_iff in C. }
      constructor; [now constructor|]. constructor; [exact Hlt|].
      rewrite Forall_forall in Hy |- *. intros z Hz.
      apply (ascending_trans x y z Hlt (Hy z Hz)).
    + assert (Hlt : ascending y x).
      { unfold ascending, String.ltb. unfold String.leb in E.
        rewrite String.compare_antisym.
        destruct (String.compare x y); try discriminate. reflexivity. }
      constructor.
      * apply IH; [|exact Hr]. intros Hin. apply Hnin. now right.
      * rewrite Forall_forall in Hy |- *. intros z Hz.
        apply insert_sorted_In in Hz. destruct Hz as [->|Hz]; auto.
Qed.

Lemma sorted_ascending (l : list string) :
  NoDup l -> StronglySorted ascending (sorted l).
Proof.
  induction l as [|x r IH]; intros Hnd; [constructor|].
  inversion Hnd as [|? ? Hx Hr]; subst. cbn [sorted].
  apply insert_sorted_ascending; [|now apply IH].
  now rewrite sorted_In.
Qed.

Lemma set_add_inv (x : string) (s : list string) :
  plain x = true ->
  NoDup s /\ Forall (fun t => plain t = true) s ->
  NoDup (set_add x s) /\ Forall (fun t => plain t = true) (set_add x s).
Proof.
  intros Hx [Hnd Hp]. unfold set_add.
  destruct (existsb (String.eqb x) s) eqn:E; [now split|]. split.
  - apply NoDup_app; [exact Hnd | repeat constructor; simpl; tauto|].
    intros y Hy [<-|[]].
    assert (Hm : existsb (String.eqb x) s = true)
      by (apply JsonFacts.existsb_eqb_In; exact Hy).
    congruence.
  - apply Forall_app. split; [exact Hp | now repeat constructor].
Qed.

Lemma add_tags_inv (parts tag_set : list string) :
  Forall (fun p => contains p "," = false) parts ->
  NoDup tag_set /\ Forall (fun t => plain t = true) tag_set ->
  NoDup (add_tags parts tag_set)
  /\ Forall (fun t => plain t = true) (add_tags parts tag_set).
Proof.
  revert tag_set. induction parts as [|p r IH]; intros tag_set Hf Hs;
    [exact Hs|].
  inversion Hf as [|? ? Hp Hr]; subst. cbn [add_tags].
  destruct (nonempty (strip p)) eqn:E; [|now apply IH].
  apply IH; [exact Hr|]. apply set_add_inv; [|exact Hs].
  apply plain_intro; [exact E | apply strip_idem | now apply strip_free].
Qed.

Lemma tags_loop_inv (records : list pyval) (tag_set out : list string) :
  NoDup tag_set /\ Forall (fun t => plain t = true) tag_set ->
  tags_loop records tag_set = Ok out ->
  NoDup out /\ Forall (fun t => plain t = true) out.
Proof.
  revert tag_set. induction records as [|rec r IH]; intros tag_set Hs H.
  - simpl in H. now injection H as <-.
  - cbn [tags_loop] in H.
    destruct (py_get rec "tags" (PStr EmptyString)) as [tags_str|e];
      cbn [bind] in H; [|discriminate H].
    destruct (truthy tags_str); [|now apply (IH tag_set)].
    destruct tags_str as [| | | |s| |]; try discriminate H.
    cbn [py_split bind] in H.
    apply (IH _ (add_tags_inv _ _ (split_free "," s) Hs) H).
Qed.

(** X16. The tags that [get_tags] lists are in strictly ascending
    order, so none occurs twice; each is plain (not empty, no white
    space around it, no comma) and carries the count 1. When the
    request fails the list is empty. *)
Theorem all_tags_are_sorted_and_distinct (post : transport) :
  StronglySorted ascending (map TagCount.tag_name (get_tags post))
  /\ Forall (fun t => plain (TagCount.tag_name t) = true /\ TagCount.tag_count t = 1%Z)
            (get_tags post)
  /\ get_tags unreachable = [].
Proof.
  split; [|split; [|reflexivity]].
  - unfold get_tags. cbv zeta.
    destruct (records_of _) as [records|e]; cbn [bind catch]; [|constructor].
    destruct (py_iter records) as [l|e]; cbn [bind catch]; [|constructor].
    destruct (tags_loop l []) as [tag_set|e] eqn:E; cbn [bind catch];
      [|constructor].
    rewrite map_map. cbn [TagCount.tag_name]. rewrite map_id.
    apply sorted_ascending.
    apply (tags_loop_inv l [] tag_set (conj (NoDup_nil _) (Forall_nil _)) E).
  - unfold get_tags. cbv zeta.
    destruct (records_of _) as [records|e]; cbn [bind catch]; [|constructor].
    destruct (py_iter records) as [l|e]; cbn [bind catch]; [|constructor].
    destruct (tags_loop l []) as [tag_set|e] eqn:E; cbn [bind catch];
      [|constructor].
    apply Forall_map. cbn [TagCount.tag_name TagCount.tag_count].
    destruct (tags_loop_inv l [] tag_set (conj (NoDup_nil _) (Forall_nil _)) E)
      as [_ Hp].
    rewrite Forall_forall in Hp |- *. intros t Ht.
    apply (proj1 (sorted_In t tag_set)) in Ht.
    split; [now apply Hp | reflexivity].
Qed.

End AllTagsFacts.

(* ================================================================== *)
(** * Badges of a table page *)
(* ================================================================== *)

Section BadgeFacts.

Import OptimusDBProxy Design Invariants Samples.

Lemma extract_badges_ok (record : dict) :
  is_ok (_extract_badges record)
  = str_or_false (dict_get record "status" PNone)
    && str_or_false (dict_get record "priority" PNone).
Proof.
  unfold _extract_badges, str_or_false. cbv zeta.
  destruct (truthy (dict_get record "status" PNone));
    destruct (truthy (dict_get record "priority" PNone));
    destruct (dict_get record "status" PNone);
    destruct (dict_get record "priority" PNone); reflexivity.
Qed.



End BadgeFacts.

(* ================================================================== *)
(** * Descriptions *)
(* ================================================================== *)

Section DescriptionFacts.

Import OptimusDBProxy Design Invariants Samples.

Lemma dict_find_mem (d : dict) (k : string) (v : pyval) :
  dict_find d k = Some v -> dict_mem d k = true.
Proof.
  induction d as [|[k' v'] r IH]; simpl; [discriminate|].
  destruct (String.eqb k k'); [reflexivity | exact IH].
Qed.

Lemma dict_find_absent (d : dict) (k : string) :
  dict_find d k = None -> dict_mem d k = false.
Proof.
  induction d as [|[k' v'] r IH]; simpl; [reflexivity|].
  destruct (String.eqb k k'); [discriminate | exact IH].
Qed.

(** X18. [get_table_description] never returns [None] or any other
    false value but the empty string. When the first row of the reply is
    a mapping whose description is a string, the result is that string;
    when its description is null or it has none, and when the reply
    holds no row, the result is the empty string, as it is on an
    unreachable backend. *)
Theorem table_description_is_never_none (post : transport)
    (table_uri : string) :
  let records :=
    records_of
      (_execute_sql post
         (select_column "description" (_parse_table_uri table_uri))) in
  (get_table_description post table_uri = PStr EmptyString
   \/ truthy (get_table_description post table_uri) = true)
  /\ (forall (first : dict) (more : list pyval) (s : string),
        records = Ok (PList (PDict first :: more)) ->
        dict_find first "description" = Some (PStr s) ->
        get_table_description post table_uri = PStr s)
  /\ (forall (first : dict) (more : list pyval),
        records = Ok (PList (PDict first :: more)) ->
        dict_find first "description" = Some PNone
        \/ dict_find first "description" = None ->
        get_table_description post table_uri = PStr EmptyString)
  /\ (records = Ok (PList []) ->
      get_table_description post table_uri = PStr EmptyString)
  /\ get_table_description unreachable table_uri = PStr EmptyString.
Proof.
  cbv zeta. split; [|split; [|split; [|split; [|reflexivity]]]].
  - unfold get_table_description. cbv zeta.
    destruct (records_of _) as [records|e]; cbn [bind catch]; [|now left].
    destruct (truthy records).
    + destruct (py_first records) as [first|e]; cbn [bind catch]; [|now left].
      destruct (py_in "description" first) as [[|]|e]; cbn [bind catch];
        try (now left).
      destruct (py_getitem first "description") as [description|e];
        cbn [bind catch]; [|now left].
      unfold py_or. destruct (truthy description) eqn:T; [now right | now left].
    + cbn [bind catch]. now left.
  - intros first more s Hrec Hd. unfold get_table_description. cbv zeta.
    rewrite Hrec. cbn [bind truthy py_first py_in py_getitem].
    rewrite (dict_find_mem _ _ _ Hd), Hd. cbn [bind catch].
    unfold py_or. cbn [truthy]. now destruct s.
  - intros first more Hrec Hd. unfold get_table_description. cbv zeta.
    rewrite Hrec. cbn [bind truthy py_first py_in py_getitem].
    destruct Hd as [Hd|Hd].
    + now rewrite (dict_find_mem _ _ _ Hd), Hd.
    + now rewrite (dict_find_absent _ _ Hd).
  - intros Hrec. unfold get_table_description. cbv zeta. now rewrite Hrec.
Qed.

Lemma table_description_is_never_none_witness :
  get_table_description
    (answers
       (Json.dumps
          (envelope [PDict [("description", PStr "Orders of the shop")];
                     PDict [("description", PStr "Other")]])))
    "optimusdb://default.sales/orders"
  = PStr "Orders of the shop".
Proof.
  apply (proj1 (proj2 (table_description_is_never_none
                         (answers
                            (Json.dumps
                               (envelope
                                  [PDict [("description",
                                           PStr "Orders of the shop")];
                                   PDict [("description", PStr "Other")]])))
                         "optimusdb://default.sales/orders"))
           [("description", PStr "Orders of the shop")]
           [PDict [("description", PStr "Other")]]);
    vm_compute; reflexivity.
Defined.

Lemma keys_of_dict_set (d : dict) (k k' : string) (v : pyval) :
  String.eqb k' k = false ->
  existsb (String.eqb k') (map fst (dict_set d k v))
  = existsb (String.eqb k') (map fst d).
Proof.
  intros Hne. induction d as [|[k0 v0] r IH]; simpl.
  - now rewrite Hne.
  - destruct (String.eqb k k0) eqn:E; simpl; [reflexivity | now rewrite IH].
Qed.

Lemma dict_set_wf (d : dict) (k : string) (v : pyval) :
  Json.wf (PDict d) = true -> Json.wf v = true ->
  Json.wf (PDict (dict_set d k v)) = true.
Proof.
  intros Hd Hv. induction d as [|[k0 v0] r IH].
  - simpl. now rewrite Hv.
  - cbn [Json.wf map Json.distinct forallb fst snd] in Hd.
    apply andb_true_iff in Hd. destruct Hd as [Hk Hvals].
    apply andb_true_iff in Hk. destruct Hk as [Hk0 Hdr].
    apply andb_true_iff in Hvals. destruct Hvals as [Hv0 Hvr].
    assert (Hr : Json.wf (PDict r) = true)
      by (cbn [Json.wf]; now rewrite Hdr, Hvr).
    specialize (IH Hr). cbn [Json.wf] in IH.
    apply andb_true_iff in IH. destruct IH as [IHk IHv].
    cbn [dict_set]. destruct (String.eqb k k0) eqn:E.
    + cbn [Json.wf map Json.distinct forallb fst snd].
      now rewrite Hk0, Hdr, Hv, Hvr.
    + cbn [Json.wf map Json.distinct forallb fst snd].
      rewrite keys_of_dict_set by (now rewrite String.eqb_sym).
      now rewrite Hk0, IHk, Hv0, IHv.
Qed.

(** X19. What [put_column_description] writes, [get_column_description]
    reads back. On a row whose column descriptions are the JSON text of
    a mapping, the update carries the JSON text of that mapping with
    the column set to the new description, its apostrophes doubled for
    the SQL literal; when a row holds that text,
    [get_column_description] returns the new description for the
    column and, for every other column, what the mapping held before
    (the empty string where it held nothing). *)
Theorem column_description_round_trip (post : transport)
    (table_uri column_name description : string)
    (first : dict) (more : list pyval) (d : dict) :
  let parsed := _parse_table_uri table_uri in
  records_of (_execute_sql post (select_column "column_descriptions" parsed))
  = Ok (PList (PDict first :: more)) ->
  dict_find first "column_descriptions" = Some (PStr (Json.dumps (PDict d))) ->
  Json.wf (PDict d) = true ->
  exists col_json : string,
    put_column_description post table_uri column_name description
    = [select_column "column_descriptions" parsed;
       update_column 12 "column_descriptions"
         (replace "'" "''" col_json) parsed]
    /\ forall (post' : transport) (first' : dict) (more' : list pyval),
         records_of (_execute_sql post' (column_descriptions_query parsed))
         = Ok (PList (PDict first' :: more')) ->
         dict_find first' "column_descriptions" = Some (PStr col_json) ->
         get_column_description post' table_uri column_name
         = PStr description
         /\ forall other : string,
              String.eqb other column_name = false ->
              get_column_description post' table_uri other
              = dict_get d other (PStr EmptyString).
Proof.
  cbv zeta. intros Hrec Hfind Hwf.
  set (d' := dict_set d column_name (PStr description)).
  assert (Hwf' : Json.wf (PDict d') = true)
    by (apply dict_set_wf; [exact Hwf | reflexivity]).
  exists (Json.dumps (PDict d')). split.
  - unfold put_column_description. cbv zeta. rewrite Hrec.
    cbn [bind truthy negb py_first py_in py_get].
    rewrite (dict_find_mem _ _ _ Hfind). cbn [bind].
    unfold dict_get. rewrite Hfind. cbn [Json.loads].
    rewrite (JsonFacts.loads_dumps _ Hwf). reflexivity.
  - intros post' first' more' Hrec' Hfind'.
    assert (Hget : forall c,
               get_column_description post' table_uri c
               = dict_get d' c (PStr EmptyString)).
    { intros c. unfold get_column_description. cbv zeta. rewrite Hrec'.
      cbn [bind truthy negb py_first py_in py_get].
      rewrite (dict_find_mem _ _ _ Hfind'). cbn [bind].
      assert (Hg : dict_get first' "column_descriptions" (PStr EmptyString)
                   = PStr (Json.dumps (PDict d')))
        by (unfold dict_get; now rewrite Hfind').
      rewrite !Hg.
      assert (Ht : truthy (PStr (Json.dumps (PDict d'))) = true).
      { cbn [truthy]. pose proof (JsonFacts.dumps_nonempty _ Hwf') as Hl.
        destruct (Json.dumps (PDict d')); [simpl in Hl; lia | reflexivity]. }
      rewrite Ht. cbn [Json.loads].
      rewrite (JsonFacts.loads_dumps _ Hwf'). reflexivity. }
    split.
    + rewrite Hget. subst d'. apply dict_get_set_same.
    + intros other Hne. rewrite Hget. subst d'.
      now apply dict_get_set_other.
Qed.

Lemma column_description_round_trip_witness :
  exists col_json : string,
    put_column_description
      (answers (Json.dumps
                  (envelope
                     [PDict [("column_descriptions",
                              PStr (Json.dumps (PDict [("id", PStr "key")])))]])))
      "optimusdb://default.sales/orders" "total" "the order's total"
    = [select_column "column_descriptions"
         (_parse_table_uri "optimusdb://default.sales/orders");
       update_column 12 "column_descriptions" (replace "'" "''" col_json)
         (_parse_table_uri "optimusdb://default.sales/orders")]
    /\ forall (post' : transport) (first' : dict) (more' : list pyval),
         records_of
           (_execute_sql post'
              (column_descriptions_query
                 (_parse_table_uri "optimusdb://default.sales/orders")))
         = Ok (PList (PDict first' :: more')) ->
         dict_find first' "column_descriptions" = Some (PStr col_json) ->
         get_column_description post' "optimusdb://default.sales/orders"
           "total"
         = PStr "the order's total"
         /\ forall other : string,
              String.eqb other "total" = false ->
              get_column_description post'
                "optimusdb://default.sales/orders" other
              = dict_get [("id", PStr "key")] other (PStr EmptyString).
Proof.
  apply (column_description_round_trip
           (answers (Json.dumps
                       (envelope
                          [PDict [("column_descriptions",
                                   PStr (Json.dumps
                                           (PDict [("id", PStr "key")])))]])))
           "optimusdb://default.sales/orders" "total" "the order's total"
           [("column_descriptions",
             PStr (Json.dumps (PDict [("id", PStr "key")])))] []
           [("id", PStr "key")]); vm_compute; reflexivity.
Defined.

End DescriptionFacts.

(* ================================================================== *)
(** * Lineage: writing and reading back *)
(* ================================================================== *)

Section LineageRoundTrip.

Import OptimusDBProxy Design Invariants Samples.

Lemma wf_strings (l : list string) : Json.wf (PList (map PStr l)) = true.
Proof. induction l as [|x r IH]; [reflexivity | exact IH]. Qed.

Lemma parse_direction_of_json (uris : list string) :
  parse_direction (PStr (Json.dumps (PList (map PStr uris))))
  = map (fun u => mk_entity (PStr u) (PInt 1) "optimusdb" []) uris.
Proof.
  unfold parse_direction.
  assert (Ht : truthy (PStr (Json.dumps (PList (map PStr uris)))) = true).
  { cbn [truthy].
    pose proof (JsonFacts.dumps_nonempty _ (wf_strings uris)) as Hl.
    destruct (Json.dumps (PList (map PStr uris)));
      [simpl in Hl; lia | reflexivity]. }
  rewrite Ht. cbn [Json.loads].
  rewrite (JsonFacts.loads_dumps _ (wf_strings uris)).
  cbn [bind py_iter catch]. now rewrite map_map.
Qed.

(** X20. What [set_lineage] serialises, [get_lineage] reads back. When
    the lineage fields of the row hold the JSON texts that
    [set_lineage] builds for two lists of table keys, [get_lineage]
    returns, for each direction, one entity per key in the order
    given, at level 1; a list that was not given reads back as
    empty. *)
Theorem lineage_round_trip (post : transport) (id resource_type : string)
    (depth : Z) (upstream downstream : option (list string))
    (first : dict) (more : list pyval) :
  records_of (_execute_sql post (lineage_sql (_parse_table_uri id)))
  = Ok (PList (PDict first :: more)) ->
  dict_get first "lineage_upstream" (PStr EmptyString)
  = PStr (lineage_json upstream) ->
  dict_get first "lineage_downstream" (PStr EmptyString)
  = PStr (lineage_json downstream) ->
  let given (uris : option (list string)) :=
    match uris with Some l => l | None => [] end in
  let entity (u : string) := mk_entity (PStr u) (PInt 1) "optimusdb" [] in
  get_lineage post id resource_type "both" depth
  = mk_lineage (map entity (given upstream)) (map entity (given downstream))
      depth "both" id.
Proof.
  intros Hrec Hup Hdown given entity. unfold get_lineage. cbv zeta.
  rewrite Hrec. cbn [bind truthy negb py_first py_get mem existsb].
  change (String.eqb "both" "upstream") with false.
  change (String.eqb "both" "both") with true.
  change (String.eqb "both" "downstream") with false.
  cbn [orb bind]. rewrite Hup, Hdown.
  assert (Hjson : forall uris,
             lineage_json uris = Json.dumps (PList (map PStr (given uris))))
    by (intros [[|u r]|]; reflexivity).
  rewrite !Hjson, !parse_direction_of_json. reflexivity.
Qed.

Lemma lineage_round_trip_witness :
  get_lineage
    (answers
       (Json.dumps
          (envelope
             [PDict [("lineage_upstream",
                      PStr (lineage_json (Some ["optimusdb://default.sales/items"])));
                     ("lineage_downstream", PStr (lineage_json None))]])))
    "optimusdb://default.sales/orders" "table" "both" 1
  = mk_lineage
      [mk_entity (PStr "optimusdb://default.sales/items") (PInt 1)
         "optimusdb" []]
      [] 1 "both" "optimusdb://default.sales/orders".
Proof.
  apply (lineage_round_trip
           (answers
              (Json.dumps
                 (envelope
                    [PDict [("lineage_upstream",
                             PStr (lineage_json
                                     (Some ["optimusdb://default.sales/items"])));
                            ("lineage_downstream",
                             PStr (lineage_json None))]])))
           "optimusdb://default.sales/orders" "table" 1
           (Some ["optimusdb://default.sales/items"]) None
           [("lineage_upstream",
             PStr (lineage_json (Some ["optimusdb://default.sales/items"])));
            ("lineage_downstream", PStr (lineage_json None))] []);
    vm_compute; reflexivity.
Defined.

End LineageRoundTrip.

(* ================================================================== *)
(** * The table page *)
(* ================================================================== *)

Section TablePageFacts.

Import OptimusDBProxy Design Invariants Samples.

Variable py_str : pyval -> string.
Variable title : string -> string.
Variable now : Z.
Variable int_of_float : float_lit -> result Z.
Variable iso_timestamp : string -> option Z.
Variable _get_table_schema : string -> result pyval.

Lemma py_first_dict (records : pyval) (record : dict) :
  py_first records = Ok (PDict record) ->
  exists more : list pyval, records = PList (PDict record :: more).
Proof.
  destruct records as [| | | |s|l|d]; try discriminate.
  - destruct s; discriminate.
  - destruct l as [|x more]; [discriminate|].
    simpl. intros H. injection H as ->. now exists more.
Qed.

(** [get_table] answers with the fallback, or with the page of the
    first row of the reply. *)
Lemma get_table_shape (post : transport) (table_uri : string) :
  get_table py_str title now int_of_float iso_timestamp
      _get_table_schema post table_uri = _get_empty_table_response now table_uri
  \/ exists (record : dict) (more : list pyval) (owners : list owner)
            (badges : list Badge.t) (columns : list column) (ts : Z),
       records_of
         (_execute_sql post
            (table_query (schema (_parse_table_uri table_uri))
                         (name (_parse_table_uri table_uri))))
       = Ok (PList (PDict record :: more))
       /\ is_ok (_get_table_schema (schema (_parse_table_uri table_uri))) = true
       /\ _parse_owners_from_record record = Ok owners
       /\ _extract_badges record = Ok badges
       /\ get_table py_str title now int_of_float iso_timestamp
      _get_table_schema post table_uri
          = Table.mk (database (_parse_table_uri table_uri)) "optimusdb"
              (schema (_parse_table_uri table_uri))
              (dict_get record "name" (PStr (name (_parse_table_uri table_uri))))
              table_uri
              (_build_enhanced_description py_str title record
                 (dict_get record "description"
                    (dict_get record "desc"
                       (PStr "No description available"))))
              ts columns owners (_parse_tags_from_record py_str record)
              badges false optimusdb_writer [] [] optimusdb_source
              (_build_programmatic_descriptions py_str record).
Proof.
  unfold get_table. cbv zeta.
  destruct (nonempty (name (_parse_table_uri table_uri))); cbn [negb catch];
    [|now left].
  destruct (_get_table_schema (schema (_parse_table_uri table_uri)))
    as [si|e]; cbn [bind catch]; [|now left].
  destruct (py_len (if negb (truthy si) then PList [] else si));
    cbn [bind catch]; [|now left].
  destruct (_execute_sql post _) as [| | | | | |d] eqn:Er;
    cbn [isinstance_dict negb catch]; try (now left).
  cbn [py_get bind].
  destruct (dict_get d "data" (PDict [])) as [| | | | | |dd] eqn:Ed;
    cbn [isinstance_dict negb catch]; try (now left).
  cbn [py_get bind].
  destruct (py_len (dict_get dd "records" (PList []))); cbn [bind catch];
    [|now left].
  destruct (truthy (dict_get dd "records" (PList []))); cbn [negb catch];
    [|now left].
  destruct (py_first (dict_get dd "records" (PList []))) as [rec|e] eqn:Ef;
    cbn [bind catch]; [|now left].
  destruct rec as [| | | | | |record]; cbn [catch]; try (now left).
  destruct (_parse_owners_from_record record) as [owners|e] eqn:Eo;
    cbn [bind catch]; [|now left].
  destruct (py_iter (if negb (truthy si) then PList [] else si))
    as [rows|e]; cbn [bind catch]; [|now left].
  destruct (_build_columns_from_record py_str title record rows)
    as [columns|e]; cbn [bind catch]; [|now left].
  destruct (_extract_timestamp py_str now int_of_float iso_timestamp record)
    as [ts|e]; cbn [bind catch]; [|now left].
  destruct (_extract_badges record) as [badges|e] eqn:Eb;
    cbn [bind catch]; [|now left].
  right. destruct (py_first_dict _ _ Ef) as [more Hrecords].
  exists record, more, owners, badges, columns, ts.
  split; [|now repeat split].
  unfold records_of. cbn [py_get bind]. rewrite Ed. cbn [py_get].
  now rewrite Hrecords.
Qed.

(** X21. Every answer of [get_table], the fallback included, carries
    the URI asked for as its key, the cluster [optimusdb], the database
    and the schema of the parsed URI, and a list of owners that is not
    empty and names nobody twice; it is never a view. *)
Theorem table_page_always_has_key_and_owners (post : transport)
    (table_uri : string) :
  let t := get_table py_str title now int_of_float iso_timestamp
      _get_table_schema post table_uri in
  Table.key t = table_uri
  /\ Table.cluster t = "optimusdb"
  /\ Table.database t = database (_parse_table_uri table_uri)
  /\ Table.schema t = schema (_parse_table_uri table_uri)
  /\ Table.owners t <> []
  /\ NoDup (map display_name (Table.owners t))
  /\ Table.is_view t = false.
Proof.
  cbv zeta.
  destruct (get_table_shape post table_uri)
    as [->|(record & more & owners & badges & columns & ts
            & _ & _ & Ho & _ & ->)].
  - unfold _get_empty_table_response. cbv zeta.
    cbn [Table.key Table.cluster Table.database Table.schema Table.owners
         Table.is_view].
    repeat split; [discriminate | repeat constructor; simpl; tauto].
  - cbn [Table.key Table.cluster Table.database Table.schema Table.owners
         Table.is_view].
    destruct (owners_when_returned record owners Ho) as (Hne & Hnd & _).
    now repeat split.
Qed.

(** X22. [get_table] answers with the fallback page ("No data
    available for this table", no columns, the owner [system]) when
    schema discovery raises, when the reply holds no row or the request
    fails, and when the first row has a non-empty array or mapping in
    an owner field or something other than a string in its status or
    priority: the error of the entity mapper never reaches the
    caller. *)
Theorem table_page_falls_back (post : transport) (table_uri : string) :
  let parsed := _parse_table_uri table_uri in
  let query := table_query (schema parsed) (name parsed) in
  (is_ok (_get_table_schema (schema parsed)) = false ->
   get_table py_str title now int_of_float iso_timestamp
      _get_table_schema post table_uri = _get_empty_table_response now table_uri)
  /\ (forall records : pyval,
        records_of (_execute_sql post query) = Ok records ->
        truthy records = false ->
        get_table py_str title now int_of_float iso_timestamp
      _get_table_schema post table_uri = _get_empty_table_response now table_uri)
  /\ (forall (record : dict) (more : list pyval),
        records_of (_execute_sql post query) = Ok (PList (PDict record :: more)) ->
        forallb (fun f => owner_field_ok (dict_get record f PNone)) owner_fields
        && str_or_false (dict_get record "status" PNone)
        && str_or_false (dict_get record "priority" PNone) = false ->
        get_table py_str title now int_of_float iso_timestamp
      _get_table_schema post table_uri = _get_empty_table_response now table_uri)
  /\ Table.description (_get_empty_table_response now table_uri)
     = PStr "No data available for this table"
  /\ Table.columns (_get_empty_table_response now table_uri) = []
  /\ Table.owners (_get_empty_table_response now table_uri) = [system_owner].
Proof.
  cbv zeta. split; [|split; [|split; [|now repeat split]]].
  - intros Hschema.
    destruct (get_table_shape post table_uri)
      as [H|(record & more & owners & badges & columns & ts
             & _ & Hs & _)]; [exact H | congruence].
  - intros records Hrec Hfalse.
    destruct (get_table_shape post table_uri)
      as [H|(record & more & owners & badges & columns & ts
             & Hr & _)]; [exact H|].
    rewrite Hr in Hrec. injection Hrec as <-. discriminate Hfalse.
  - intros record more Hrec Hbad.
    destruct (get_table_shape post table_uri)
      as [H|(record' & more' & owners & badges & columns & ts
             & Hr & _ & Ho & Hb & _)]; [exact H|].
    rewrite Hr in Hrec. injection Hrec as -> _.
    rewrite <- parse_owners_ok, <- andb_assoc, <- extract_badges_ok in Hbad.
    rewrite Ho, Hb in Hbad. discriminate Hbad.
Qed.

End TablePageFacts.

Lemma table_page_falls_back_witness :
  OptimusDBProxy.get_table (fun _ => EmptyString) (fun s => s) 0
    (fun _ => Ok 0%Z) (fun _ => None) (fun _ => Raise AttributeError)
    (Design.answers (Json.dumps (Design.envelope [PDict Samples.sample_record])))
    "optimusdb://default.sales/orders"
  = OptimusDBProxy._get_empty_table_response 0
      "optimusdb://default.sales/orders".
Proof.
  apply (proj1 (table_page_falls_back (fun _ => EmptyString) (fun s => s) 0
                  (fun _ => Ok 0%Z) (fun _ => None)
                  (fun _ => Raise AttributeError)
                  (Design.answers
                     (Json.dumps (Design.envelope [PDict Samples.sample_record])))
                  "optimusdb://default.sales/orders")).
  reflexivity.
Defined.

(* ================================================================== *)
(** * The column builder with type inference *)
(* ================================================================== *)

Section EnhancedFacts.

Import OptimusDBProxy Design Invariants Samples.

Variable py_str : pyval -> string.
Variable title : string -> string.
Variable now : Z.

Lemma normalized_type_is_normal (col_type : pyval) :
  mem (_normalize_column_type py_str col_type) normal_types = true.
Proof.
  unfold _normalize_column_type. cbv zeta.
  repeat match goal with
         | |- context [if ?b then _ else _] => destruct b
         end; reflexivity.
Qed.

(** [_normalize_column_type] answers with one of seven type names
    whatever it is given, and it leaves each of the seven as it is:
    normalising twice is normalising once. *)
Lemma normalized_types_are_closed (col_type : pyval) :
  (forall s : string, py_str (PStr s) = s) ->
  mem (_normalize_column_type py_str col_type) normal_types = true
  /\ _normalize_column_type py_str
       (PStr (_normalize_column_type py_str col_type))
     = _normalize_column_type py_str col_type.
Proof.
  intros Hstr. split; [apply normalized_type_is_normal|].
  pose proof (normalized_type_is_normal col_type) as H.
  apply mem_In in H.
  unfold normal_types in H. simpl in H.
  destruct H as [<-|[<-|[<-|[<-|[<-|[<-|[<-|[]]]]]]]];
    unfold _normalize_column_type at 1; cbv zeta; rewrite Hstr;
    reflexivity.
Qed.

(** Whatever [self] is, a loop that returns has added one column per
    displayed field, in order, with consecutive numbers. *)
Lemma enhanced_loop_names (self : Self.t) (items m : dict) (s : nat)
    (cols out : list EnhancedColumn.t) :
  enhanced_columns_loop py_str title now self items m (Z.of_nat s) cols
  = Ok out ->
  exists new : list EnhancedColumn.t,
    out = (cols ++ new)%list
    /\ map EnhancedColumn.name new = keys (displayed items)
    /\ map EnhancedColumn.sort_order new
       = map Z.of_nat (seq s (List.length (displayed items))).
Proof.
  revert s cols. induction items as [|[k v] r IH]; intros s cols H.
  - simpl in H. injection H as <-. exists []. now rewrite List.app_nil_r.
  - cbn [enhanced_columns_loop] in H. unfold displayed. cbn [filter fst].
    fold (displayed r).
    destruct (startswith k "_internal_" || startswith k "__"); cbn [negb];
      [now apply IH|].
    match type of H with
    | bind ?c _ = _ => destruct c as [ct|e]; cbn [bind] in H; [|discriminate H]
    end.
    match type of H with
    | bind ?c _ = _ => destruct c as [nz|e]; cbn [bind] in H; [|discriminate H]
    end.
    cbv zeta in H.
    replace (Z.of_nat s + 1)%Z with (Z.of_nat (S s)) in H by lia.
    apply IH in H. destruct H as (new & -> & Hn & Ho).
    eexists (_ :: new). split; [now rewrite <- List.app_assoc|].
    unfold keys in *.
    cbn [map EnhancedColumn.name EnhancedColumn.sort_order
         List.length seq fst].
    now rewrite Hn, Ho.
Qed.

(** On the proxy as it stands the loop fails at the first displayed
    field. *)
Lemma enhanced_loop_on_the_proxy (items m : dict) (s : Z)
    (cols : list EnhancedColumn.t) :
  enhanced_columns_loop py_str title now the_proxy items m s cols
  = match displayed items with
    | [] => Ok cols
    | _ :: _ => Raise AttributeError
    end.
Proof.
  induction items as [|[k v] r IH]; [reflexivity|].
  cbn [enhanced_columns_loop]. unfold displayed. cbn [filter fst].
  fold (displayed r).
  destruct (startswith k "_internal_" || startswith k "__"); cbn [negb];
    [exact IH|].
  unfold the_proxy.
  cbn [Self._infer_column_type Self._normalize_column_type getattr].
  now destruct (dict_find m k).
Qed.

(** With the two helpers the loop returns, and each type is the
    normalised type of the schema row or of the inferred type. *)
Lemma enhanced_loop_spec (items m : dict) (s : nat)
    (cols : list EnhancedColumn.t) :
  exists new : list EnhancedColumn.t,
    enhanced_columns_loop py_str title now (with_helpers py_str) items m
      (Z.of_nat s) cols
    = Ok (cols ++ new)%list
    /\ map EnhancedColumn.col_type new
       = map (fun kv =>
                _normalize_column_type py_str
                  (match dict_find m (fst kv) with
                   | Some col_type => col_type
                   | None => PStr (_infer_column_type (snd kv))
                   end))
             (displayed items).
Proof.
  revert s cols. induction items as [|[k v] r IH]; intros s cols.
  - exists []. now rewrite List.app_nil_r.
  - cbn [enhanced_columns_loop]. unfold displayed. cbn [filter fst].
    fold (displayed r).
    destruct (startswith k "_internal_" || startswith k "__"); cbn [negb];
      [apply IH|].
    unfold with_helpers at 1 2.
    cbn [Self._infer_column_type Self._normalize_column_type getattr bind].
    replace (Z.of_nat s + 1)%Z with (Z.of_nat (S s)) by lia.
    assert (Hct : (match dict_find m k with
                   | Some col_type => Ok col_type
                   | None => Ok (PStr (_infer_column_type v))
                   end)
                  = Ok (match dict_find m k with
                        | Some col_type => col_type
                        | None => PStr (_infer_column_type v)
                        end))
      by now destruct (dict_find m k).
    rewrite Hct. cbn [bind]. cbv zeta.
    match goal with
    | |- context [enhanced_columns_loop _ _ _ _ r m _ ?c] =>
        destruct (IH (S s) c) as (new & -> & Ht)
    end.
    eexists (_ :: new). split; [now rewrite <- List.app_assoc|].
    cbn [map EnhancedColumn.col_type fst snd]. now rewrite Ht.
Qed.

(** X23. The builder with type inference is a function of the module
    that looks its two helpers up on the object it is given as [self].
    Given the proxy as it stands, which has neither, it never returns a
    column: it raises on every record with a displayed field (a name
    that starts neither with the internal prefix nor with two
    underscores), with [AttributeError] when there are no schema rows,
    and returns the empty list for a record without one. Whatever
    [self] is, when it returns it returns one column per displayed
    field, in the order of the record, numbered 0, 1, .. k-1. Given an
    object with the two helpers, each type is one of the seven type
    names; with no schema rows it then always returns, and the type of
    a column is the type inferred from the value of its field. *)
Theorem enhanced_columns_need_the_helpers (record : dict)
    (schema_info : list pyval) :
  (forall s : string, py_str (PStr s) = s) ->
  (displayed record <> [] ->
   is_ok (_build_columns_from_record_enhanced py_str title now the_proxy
            record schema_info) = false
   /\ _build_columns_from_record_enhanced py_str title now the_proxy record []
      = Raise AttributeError)
  /\ (displayed record = [] ->
      is_ok (enhanced_schema_map schema_info []) = true ->
      _build_columns_from_record_enhanced py_str title now the_proxy
        record schema_info = Ok [])
  /\ (forall (self : Self.t) (cols : list EnhancedColumn.t),
        _build_columns_from_record_enhanced py_str title now self
          record schema_info = Ok cols ->
        map EnhancedColumn.name cols = keys (displayed record)
        /\ map EnhancedColumn.sort_order cols
           = map Z.of_nat (seq 0 (List.length (displayed record))))
  /\ (forall cols : list EnhancedColumn.t,
        _build_columns_from_record_enhanced py_str title now
          (with_helpers py_str) record schema_info = Ok cols ->
        Forall (fun c => mem (EnhancedColumn.col_type c) normal_types = true)
               cols)
  /\ exists cols : list EnhancedColumn.t,
       _build_columns_from_record_enhanced py_str title now
         (with_helpers py_str) record [] = Ok cols
       /\ map EnhancedColumn.col_type cols
          = map (fun kv => _infer_column_type (snd kv)) (displayed record).
Proof.
  intros Hstr. split; [|split; [|split; [|split]]].
  - intros Hd. unfold _build_columns_from_record_enhanced.
    destruct record as [|kv r] eqn:Er; [now destruct Hd|].
    rewrite <- Er in *. cbn [enhanced_schema_map bind]. split.
    + destruct (enhanced_schema_map schema_info []) as [m|e]; cbn [bind];
        [|reflexivity].
      rewrite enhanced_loop_on_the_proxy.
      destruct (displayed record); [now destruct Hd | reflexivity].
    + rewrite enhanced_loop_on_the_proxy.
      destruct (displayed record); [now destruct Hd | reflexivity].
  - intros Hd Hm. unfold _build_columns_from_record_enhanced.
    destruct record as [|kv r] eqn:Er; [reflexivity|]. rewrite <- Er in *.
    destruct (enhanced_schema_map schema_info []) as [m|e]; cbn [bind];
      [|discriminate Hm].
    now rewrite enhanced_loop_on_the_proxy, Hd.
  - intros self cols H. unfold _build_columns_from_record_enhanced in H.
    destruct record as [|kv r] eqn:Er.
    + injection H as <-. now split.
    + rewrite <- Er in *.
      destruct (enhanced_schema_map schema_info []) as [m|e];
        cbn [bind] in H; [|discriminate H].
      change 0%Z with (Z.of_nat 0) in H.
      destruct (enhanced_loop_names self record m 0 [] cols H)
        as (new & -> & Hn & Ho).
      now split.
  - intros cols H. unfold _build_columns_from_record_enhanced in H.
    destruct record as [|kv r] eqn:Er.
    + injection H as <-. constructor.
    + rewrite <- Er in *.
      destruct (enhanced_schema_map schema_info []) as [m|e];
        cbn [bind] in H; [|discriminate H].
      destruct (enhanced_loop_spec record m 0 []) as (new & Hl & Ht).
      change (Z.of_nat 0) with 0%Z in Hl. rewrite Hl in H.
      injection H as <-. cbn [app].
      apply Forall_forall. intros c Hc.
      assert (Hin : In (EnhancedColumn.col_type c)
                       (map EnhancedColumn.col_type new))
        by now apply in_map.
      rewrite Ht in Hin. apply in_map_iff in Hin.
      destruct Hin as (kv' & <- & _). apply normalized_type_is_normal.
  - unfold _build_columns_from_record_enhanced.
    destruct record as [|kv r] eqn:Er; [now exists []|].
    rewrite <- Er. cbn [enhanced_schema_map bind].
    destruct (enhanced_loop_spec record [] 0 []) as (new & Hl & Ht).
    change (Z.of_nat 0) with 0%Z in Hl. rewrite Hl. cbn [app].
    exists new. split; [reflexivity|]. rewrite Ht.
    apply map_ext. intros [k v]. cbn [dict_find fst snd].
    unfold _normalize_column_type. cbv zeta. rewrite Hstr.
    destruct v as [| | | |s| |]; try reflexivity.
    cbn [_infer_column_type].
    destruct (contains s "T" && (contains s "-" || contains s ":"));
      reflexivity.
Qed.

End EnhancedFacts.

Lemma enhanced_columns_need_the_helpers_witness :
  OptimusDBProxy._build_columns_from_record_enhanced
    (fun v => match v with PStr s => s | _ => EmptyString end)
    (fun s => s) 0 OptimusDBProxy.the_proxy Samples.typed_record []
  = Raise AttributeError
  /\ exists cols : list OptimusDBProxy.EnhancedColumn.t,
       OptimusDBProxy._build_columns_from_record_enhanced
         (fun v => match v with PStr s => s | _ => EmptyString end)
         (fun s => s) 0
         (OptimusDBProxy.with_helpers
            (fun v => match v with PStr s => s | _ => EmptyString end))
         Samples.typed_record []
       = Ok cols
       /\ map OptimusDBProxy.EnhancedColumn.col_type cols
          = map (fun kv => OptimusDBProxy._infer_column_type (snd kv))
                (Invariants.displayed Samples.typed_record).
Proof.
  destruct (enhanced_columns_need_the_helpers
              (fun v => match v with PStr s => s | _ => EmptyString end)
              (fun s => s) 0 Samples.typed_record []
              (fun s => eq_refl)) as (Hproxy & _ & _ & _ & Hhelpers).
  split; [|exact Hhelpers].
  apply Hproxy. vm_compute. discriminate.
Defined.

Lemma normalized_types_are_closed_witness :
  OptimusDBProxy._normalize_column_type
    (fun v => match v with PStr s => s | _ => EmptyString end)
    (PStr (OptimusDBProxy._normalize_column_type
             (fun v => match v with PStr s => s | _ => EmptyString end)
             (PStr "character varying(20)")))
  = OptimusDBProxy._normalize_column_type
      (fun v => match v with PStr s => s | _ => EmptyString end)
      (PStr "character varying(20)").
Proof.
  apply (proj2 (normalized_types_are_closed
                  (fun v => match v with PStr s => s | _ => EmptyString end)
                  (PStr "character varying(20)") (fun s => eq_refl))).
Defined.

(* ================================================================== *)
(** * The search service *)
(* ================================================================== *)

Section SearchServiceFacts.

Import Design Invariants Samples.

Lemma append_inv_head (a b c : string) : a ++ b = a ++ c -> b = c.
Proof.
  induction a as [|x a IH]; simpl; intros H; [exact H|].
  injection H as H. now apply IH.
Qed.

Lemma part_of_key_str (s default : string) :
  OptimusDBSearch.part_of_key (PStr s) default
  = Ok (replace " " "_" (OptimusDBProxy.or_else s default)).
Proof.
  unfold OptimusDBSearch.part_of_key, py_or, OptimusDBProxy.or_else.
  cbn [truthy]. now destruct (nonempty s).
Qed.

(** X24. The two services build the same key for the same database,
    schema and name as long as the schema is not empty; for an empty
    schema they differ, the metadata service writing [public] and the
    search service [default], so the key of a search hit without a
    schema is not the key the metadata service would build. *)
Theorem keys_of_the_two_services (database schema name : string) :
  (nonempty schema = true ->
   OptimusDBSearch._build_table_key (PStr database) (PStr schema) (PStr name)
   = Ok (OptimusDBProxy._build_table_key database schema name))
  /\ OptimusDBSearch._build_table_key (PStr database) (PStr EmptyString)
       (PStr name)
     <> Ok (OptimusDBProxy._build_table_key database EmptyString name).
Proof.
  unfold OptimusDBSearch._build_table_key, OptimusDBProxy._build_table_key.
  rewrite !part_of_key_str. cbn [bind]. split.
  - intros Hs. unfold OptimusDBProxy.or_else at 2 5. now rewrite Hs.
  - intros H. injection H as H. apply append_inv_head in H. discriminate H.
Qed.

Lemma keys_of_the_two_services_witness :
  OptimusDBSearch._build_table_key (PStr "optimusdb") (PStr "Type A")
    (PStr "Sample Name")
  = Ok (OptimusDBProxy._build_table_key "optimusdb" "Type A" "Sample Name").
Proof.
  apply (proj1 (keys_of_the_two_services "optimusdb" "Type A" "Sample Name")).
  reflexivity.
Defined.

(** ** The table search *)

Lemma part_of_key_ok (v : pyval) (default : string) :
  is_ok (OptimusDBSearch.part_of_key v default) = str_or_false v.
Proof.
  unfold OptimusDBSearch.part_of_key, py_or, str_or_false.
  destruct (truthy v) eqn:T; [now destruct v | reflexivity].
Qed.

Lemma part_of_key_free (v : pyval) (default s : string) :
  OptimusDBSearch.part_of_key v default = Ok s -> contains s " " = false.
Proof.
  unfold OptimusDBSearch.part_of_key.
  destruct (py_or v (PStr default)); try discriminate.
  intros H. injection H as <-. rewrite replace_char.
  now apply swap_removes.
Qed.

Lemma search_key_free (database schema name : pyval) (key : string) :
  OptimusDBSearch._build_table_key database schema name = Ok key ->
  contains key " " = false.
Proof.
  unfold OptimusDBSearch._build_table_key. intros H.
  destruct (OptimusDBSearch.part_of_key database "optimusdb") as [d|e] eqn:Ed;
    cbn [bind] in H; [|discriminate H].
  destruct (OptimusDBSearch.part_of_key schema "default") as [s|e] eqn:Es;
    cbn [bind] in H; [|discriminate H].
  destruct (OptimusDBSearch.part_of_key name "unknown") as [n|e] eqn:En;
    cbn [bind] in H; [|discriminate H].
  injection H as <-.
  repeat (rewrite contains_char || rewrite contains_char_append).
  rewrite (part_of_key_free _ _ _ Ed), (part_of_key_free _ _ _ Es),
    (part_of_key_free _ _ _ En). reflexivity.
Qed.

Lemma kwargs_of_ok (rec : pyval) : is_ok (kwargs_of rec) = convertible rec.
Proof.
  unfold kwargs_of. destruct rec as [| | | | | |d]; try reflexivity.
  cbn [py_get bind convertible].
  assert (Ht : is_ok (if truthy (dict_get d "tags" (PStr EmptyString))
                      then OptimusDBProxy.py_comma_list
                             (dict_get d "tags" (PStr EmptyString))
                      else Ok [])
               = str_or_false (dict_get d "tags" (PStr EmptyString))).
  { unfold str_or_false.
    destruct (truthy (dict_get d "tags" (PStr EmptyString)));
      [|reflexivity].
    now destruct (dict_get d "tags" (PStr EmptyString)). }
  destruct (if truthy (dict_get d "tags" (PStr EmptyString))
            then OptimusDBProxy.py_comma_list
                   (dict_get d "tags" (PStr EmptyString))
            else Ok []) as [tags|e]; cbn [bind]; rewrite <- Ht;
    cbn [is_ok andb]; [|reflexivity].
  unfold OptimusDBSearch._build_table_key.
  rewrite <- (part_of_key_ok (dict_get d "component" (PStr "optimusdb"))
                "optimusdb"),
          <- (part_of_key_ok (dict_get d "metadata_type" (PStr "default"))
                "default"),
          <- (part_of_key_ok (dict_get d "name" (PStr "unknown")) "unknown").
  destruct (OptimusDBSearch.part_of_key
              (dict_get d "component" (PStr "optimusdb")) "optimusdb");
    cbn [bind is_ok andb]; [|reflexivity].
  destruct (OptimusDBSearch.part_of_key
              (dict_get d "metadata_type" (PStr "default")) "default");
    cbn [bind is_ok andb]; [|reflexivity].
  destruct (OptimusDBSearch.part_of_key
              (dict_get d "name" (PStr "unknown")) "unknown");
    cbn [bind is_ok andb]; reflexivity.
Qed.

Lemma kwargs_of_inv (rec : pyval) (kw : OptimusDBSearch.Table.t) :
  kwargs_of rec = Ok kw ->
  contains (OptimusDBSearch.Table.key kw) " " = false
  /\ Forall (fun x => plain x = true) (OptimusDBSearch.Table.tags kw)
  /\ OptimusDBSearch.Table.cluster kw = "default".
Proof.
  unfold kwargs_of. intros H.
  destruct (py_get rec "name" (PStr "unknown")) as [name|e];
    cbn [bind] in H; [|discriminate H].
  destruct (py_get rec "metadata_type" (PStr "default")) as [schema|e];
    cbn [bind] in H; [|discriminate H].
  destruct (py_get rec "component" (PStr "optimusdb")) as [database|e];
    cbn [bind] in H; [|discriminate H].
  destruct (py_get rec "description" (PStr EmptyString)) as [description|e];
    cbn [bind] in H; [|discriminate H].
  destruct (py_get rec "tags" (PStr EmptyString)) as [tags_str|e];
    cbn [bind] in H; [|discriminate H].
  destruct (if truthy tags_str then OptimusDBProxy.py_comma_list tags_str
            else Ok []) as [tags|e] eqn:Et; cbn [bind] in H;
    [|discriminate H].
  destruct (OptimusDBSearch._build_table_key database schema name)
    as [key|e] eqn:Ek; cbn [bind] in H; [|discriminate H].
  injection H as <-.
  cbn [OptimusDBSearch.Table.key OptimusDBSearch.Table.tags
       OptimusDBSearch.Table.cluster].
  split; [now apply (search_key_free _ _ _ _ Ek)|]. split; [|reflexivity].
  destruct (truthy tags_str); [|injection Et as <-; constructor].
  destruct tags_str as [| | | |s| |]; try discriminate Et.
  cbn [OptimusDBProxy.py_comma_list py_split bind] in Et.
  injection Et as <-. apply clean_plain, split_free.
Qed.

Lemma py_slice_nil {A : Type} (start stop : Z) :
  OptimusDBProxy.py_slice (@nil A) start stop = [].
Proof. unfold OptimusDBProxy.py_slice. now rewrite skipn_nil, firstn_nil. Qed.

Section TableSearchFacts.

Variable table_object : Type.
Variable new_Table : OptimusDBSearch.Table.t -> result table_object.

(** One turn of the conversion loop: the keyword arguments, the
    constructor, the rest. *)
Lemma tables_loop_step (rec : pyval) (rest : list pyval)
    (tables : list table_object) :
  OptimusDBSearch.tables_loop new_Table (rec :: rest) tables
  = bind (kwargs_of rec)
      (fun kw =>
         bind (new_Table kw)
           (fun t =>
              OptimusDBSearch.tables_loop new_Table rest
                (tables ++ [t])%list)).
Proof.
  cbn [OptimusDBSearch.tables_loop]. unfold kwargs_of.
  destruct (py_get rec "name" (PStr "unknown")) as [name|e];
    cbn [bind]; [|reflexivity].
  destruct (py_get rec "metadata_type" (PStr "default")) as [schema|e];
    cbn [bind]; [|reflexivity].
  destruct (py_get rec "component" (PStr "optimusdb")) as [database|e];
    cbn [bind]; [|reflexivity].
  destruct (py_get rec "description" (PStr EmptyString)) as [description|e];
    cbn [bind]; [|reflexivity].
  destruct (py_get rec "tags" (PStr EmptyString)) as [tags_str|e];
    cbn [bind]; [|reflexivity].
  destruct (if truthy tags_str then OptimusDBProxy.py_comma_list tags_str
            else Ok []) as [tags|e]; cbn [bind]; [|reflexivity].
  destruct (OptimusDBSearch._build_table_key database schema name)
    as [key|e]; reflexivity.
Qed.

(** What the conversion loop of the table search keeps true of its
    hits. *)
Lemma tables_loop_inv (records : list pyval)
    (tables out : list table_object) :
  Forall (built new_Table) tables ->
  OptimusDBSearch.tables_loop new_Table records tables = Ok out ->
  Forall (built new_Table) out
  /\ List.length out = (List.length tables + List.length records)%nat.
Proof.
  revert tables. induction records as [|rec r IH]; intros tables Hinv H.
  - simpl in H. injection H as <-. split; [exact Hinv | simpl; lia].
  - rewrite tables_loop_step in H.
    destruct (kwargs_of rec) as [kw|e] eqn:Ekw; cbn [bind] in H;
      [|discriminate H].
    destruct (new_Table kw) as [t|e] eqn:Et; cbn [bind] in H;
      [|discriminate H].
    apply IH in H.
    + destruct H as [Hout Hlen]. split; [exact Hout|].
      rewrite Hlen, length_app. simpl. lia.
    + apply Forall_app. split; [exact Hinv|].
      constructor; [|constructor].
      exists kw. split; [exact Et | now apply (kwargs_of_inv rec)].
Qed.

Lemma tables_loop_bad_row (records : list pyval)
    (tables : list table_object) :
  forallb convertible records = false ->
  is_ok (OptimusDBSearch.tables_loop new_Table records tables) = false.
Proof.
  revert tables. induction records as [|rec r IH]; intros tables H;
    [discriminate H|].
  rewrite tables_loop_step. cbn [forallb] in H.
  pose proof (kwargs_of_ok rec) as Hok.
  destruct (kwargs_of rec) as [kw|e]; cbn [bind]; [|reflexivity].
  cbn [is_ok] in Hok. rewrite <- Hok in H. cbn [andb] in H.
  destruct (new_Table kw) as [t|e]; cbn [bind]; [now apply IH | reflexivity].
Qed.

Lemma tables_loop_accepted (records : list pyval)
    (tables : list table_object) :
  (forall kw, is_ok (new_Table kw) = true) ->
  forallb convertible records = true ->
  is_ok (OptimusDBSearch.tables_loop new_Table records tables) = true.
Proof.
  intros Hnew. revert tables.
  induction records as [|rec r IH]; intros tables H; [reflexivity|].
  rewrite tables_loop_step. cbn [forallb] in H.
  apply andb_true_iff in H. destruct H as [Hrec Hr].
  rewrite <- kwargs_of_ok in Hrec.
  destruct (kwargs_of rec) as [kw|e]; [|discriminate Hrec]. cbn [bind].
  specialize (Hnew kw).
  destruct (new_Table kw) as [t|e]; [|discriminate Hnew]. cbn [bind].
  now apply IH.
Qed.

Lemma tables_loop_refused (records : list pyval)
    (tables : list table_object) :
  (forall kw, is_ok (new_Table kw) = false) ->
  records <> [] ->
  is_ok (OptimusDBSearch.tables_loop new_Table records tables) = false.
Proof.
  intros Hnew Hne. destruct records as [|rec r]; [now destruct Hne|].
  rewrite tables_loop_step.
  destruct (kwargs_of rec) as [kw|e]; cbn [bind]; [|reflexivity].
  specialize (Hnew kw).
  destruct (new_Table kw) as [t|e]; [discriminate Hnew | reflexivity].
Qed.

Lemma fetch_tables_shape (post : transport) (query_term : option string)
    (page : Z) :
  OptimusDBSearch.fetch_table_search_results new_Table post query_term page
  = OptimusDBSearch.mk_SearchResult 0 []
  \/ exists (l : list pyval) (tables : list table_object),
       OptimusDBSearch.tables_loop new_Table l [] = Ok tables
       /\ OptimusDBSearch.fetch_table_search_results new_Table post
            query_term page
          = OptimusDBSearch.mk_SearchResult
              (Z.of_nat (List.length tables))
              (OptimusDBProxy.py_slice tables (page * 10) (page * 10 + 10)).
Proof.
  unfold OptimusDBSearch.fetch_table_search_results. cbv zeta.
  destruct (OptimusDBProxy.records_of _) as [records|e]; cbn [bind catch];
    [|now left].
  destruct (py_len records); cbn [bind catch]; [|now left].
  destruct (py_iter records) as [l|e]; cbn [bind catch]; [|now left].
  destruct (OptimusDBSearch.tables_loop new_Table l []) as [tables|e] eqn:E;
    cbn [bind catch]; [|now left].
  right. now exists l, tables.
Qed.

(** The table search on a reply that holds a list of rows. *)
Lemma fetch_tables_rows (post : transport) (query_term : option string)
    (page : Z) (records : list pyval) :
  OptimusDBProxy.records_of
    (OptimusDBSearch._execute_sql post (OptimusDBSearch.table_sql query_term))
  = Ok (PList records) ->
  OptimusDBSearch.fetch_table_search_results new_Table post query_term page
  = match OptimusDBSearch.tables_loop new_Table records [] with
    | Ok tables =>
        OptimusDBSearch.mk_SearchResult
          (Z.of_nat (List.length tables))
          (OptimusDBProxy.py_slice tables (page * 10) (page * 10 + 10))
    | Raise _ => OptimusDBSearch.mk_SearchResult 0 []
    end.
Proof.
  intros Hrec. unfold OptimusDBSearch.fetch_table_search_results. cbv zeta.
  rewrite Hrec. cbn [py_len py_iter bind].
  now destruct (OptimusDBSearch.tables_loop new_Table records []).
Qed.

(** X25. Whatever the constructor of [Table] does, a page of the table
    search of the search service holds at most ten hits and never more
    than the total it reports; every hit is an object the constructor
    returned for keyword arguments whose key contains no space, whose
    tags are plain and whose cluster is [default]. When the request
    fails the result is empty. *)
Theorem table_search_page_is_bounded (post : transport)
    (query_term : option string) (page : Z) :
  let r :=
    OptimusDBSearch.fetch_table_search_results new_Table post query_term
      page in
  (List.length (OptimusDBSearch.results r) <= 10)%nat
  /\ (Z.of_nat (List.length (OptimusDBSearch.results r))
      <= OptimusDBSearch.total_results r)%Z
  /\ Forall (built new_Table) (OptimusDBSearch.results r)
  /\ OptimusDBSearch.fetch_table_search_results new_Table unreachable
       query_term page
     = OptimusDBSearch.mk_SearchResult 0 [].
Proof.
  cbv zeta. split; [|split; [|split]].
  - destruct (fetch_tables_shape post query_term page)
      as [->|(l & tables & _ & ->)]; cbn [OptimusDBSearch.results];
      [simpl; lia | apply py_slice_page].
  - destruct (fetch_tables_shape post query_term page)
      as [->|(l & tables & _ & ->)];
      cbn [OptimusDBSearch.results OptimusDBSearch.total_results];
      [simpl; lia | apply inj_le, py_slice_length].
  - destruct (fetch_tables_shape post query_term page)
      as [->|(l & tables & E & ->)]; cbn [OptimusDBSearch.results];
      [constructor|].
    destruct (tables_loop_inv l [] tables (Forall_nil _) E) as [Hinv _].
    rewrite Forall_forall in Hinv |- *. intros t Ht. apply Hinv.
    now apply In_py_slice in Ht.
  - rewrite (fetch_tables_rows unreachable query_term page [] eq_refl).
    cbn [OptimusDBSearch.tables_loop List.length Z.of_nat].
    now rewrite py_slice_nil.
Qed.

(** X26. The table search of the search service converts all rows of
    the reply or none: its total is the number of rows, or the result
    is empty. One row that cannot be converted (one that is no mapping,
    or whose tags, component, metadata type or name is neither false
    nor a string) makes the whole result empty, and so does a
    constructor of [Table] that refuses the keyword arguments of the
    call, whatever the backend answers. With a constructor that accepts
    them and rows that can all be converted, the total is the number of
    rows. *)
Theorem table_search_is_all_or_nothing (post : transport)
    (query_term : option string) (page : Z) :
  let r :=
    OptimusDBSearch.fetch_table_search_results new_Table post query_term
      page in
  ((forall kw, is_ok (new_Table kw) = false) ->
   r = OptimusDBSearch.mk_SearchResult 0 [])
  /\ forall records : list pyval,
       OptimusDBProxy.records_of
         (OptimusDBSearch._execute_sql post
            (OptimusDBSearch.table_sql query_term))
       = Ok (PList records) ->
       (OptimusDBSearch.total_results r = Z.of_nat (List.length records)
        \/ r = OptimusDBSearch.mk_SearchResult 0 [])
       /\ (forallb convertible records = false ->
           r = OptimusDBSearch.mk_SearchResult 0 [])
       /\ ((forall kw, is_ok (new_Table kw) = true) ->
           forallb convertible records = true ->
           OptimusDBSearch.total_results r = Z.of_nat (List.length records)).
Proof.
  cbv zeta. split.
  - intros Hnew.
    destruct (fetch_tables_shape post query_term page)
      as [->|(l & tables & E & ->)]; [reflexivity|].
    destruct l as [|rec l].
    + simpl in E. injection E as <-. cbn [List.length Z.of_nat].
      now rewrite py_slice_nil.
    + pose proof (tables_loop_refused (rec :: l) [] Hnew
                    ltac:(discriminate)) as H.
      rewrite E in H. discriminate H.
  - intros records Hrec.
    rewrite (fetch_tables_rows post query_term page records Hrec).
    split; [|split].
    + destruct (OptimusDBSearch.tables_loop new_Table records [])
        as [tables|e] eqn:E; [left | now right].
      destruct (tables_loop_inv records [] tables (Forall_nil _) E)
        as [_ Hlen].
      cbn [OptimusDBSearch.total_results]. now rewrite Hlen.
    + intros Hc. pose proof (tables_loop_bad_row records [] Hc) as H.
      destruct (OptimusDBSearch.tables_loop new_Table records []);
        [discriminate H | reflexivity].
    + intros Hnew Hc.
      pose proof (tables_loop_accepted records [] Hnew Hc) as H.
      destruct (OptimusDBSearch.tables_loop new_Table records [])
        as [tables|e] eqn:E; [|discriminate H].
      destruct (tables_loop_inv records [] tables (Forall_nil _) E)
        as [_ Hlen].
      cbn [OptimusDBSearch.total_results]. now rewrite Hlen.
Qed.

End TableSearchFacts.

Lemma table_search_is_all_or_nothing_witness :
  OptimusDBSearch.fetch_table_search_results
    (fun _ : OptimusDBSearch.Table.t => @Raise unit TypeError)
    (answers
       (Json.dumps
          (envelope [PDict sample_record; PDict [("name", PStr "items")]])))
    (Some "orders") 0
  = OptimusDBSearch.mk_SearchResult 0 []
  /\ OptimusDBSearch.total_results
       (OptimusDBSearch.fetch_table_search_results
          (fun kw : OptimusDBSearch.Table.t => Ok kw)
          (answers
             (Json.dumps
                (envelope [PDict sample_record;
                           PDict [("name", PStr "items")]])))
          (Some "orders") 0)
     = 2%Z
  /\ OptimusDBSearch.fetch_table_search_results
       (fun kw : OptimusDBSearch.Table.t => Ok kw)
       (answers
          (Json.dumps
             (envelope [PDict sample_record;
                        PDict [("name", PStr "items");
                               ("tags", PList [PStr "eu"])]])))
       (Some "orders") 0
     = OptimusDBSearch.mk_SearchResult 0 [].
Proof.
  split; [|split].
  - apply (proj1 (table_search_is_all_or_nothing unit
                    (fun _ => Raise TypeError)
                    (answers
                       (Json.dumps
                          (envelope [PDict sample_record;
                                     PDict [("name", PStr "items")]])))
                    (Some "orders") 0)).
    reflexivity.
  - apply (proj2 (proj2 (proj2 (table_search_is_all_or_nothing
                                  OptimusDBSearch.Table.t (fun kw => Ok kw)
                                  (answers
                                     (Json.dumps
                                        (envelope
                                           [PDict sample_record;
                                            PDict [("name", PStr "items")]])))
                                  (Some "orders") 0)
                          [PDict sample_record; PDict [("name", PStr "items")]]
                          ltac:(vm_compute; reflexivity))));
      [reflexivity | vm_compute; reflexivity].
  - apply (proj1 (proj2 (proj2 (table_search_is_all_or_nothing
                                  OptimusDBSearch.Table.t (fun kw => Ok kw)
                                  (answers
                                     (Json.dumps
                                        (envelope
                                           [PDict sample_record;
                                            PDict [("name", PStr "items");
                                                   ("tags",
                                                    PList [PStr "eu"])]])))
                                  (Some "orders") 0)
                          [PDict sample_record;
                           PDict [("name", PStr "items");
                                  ("tags", PList [PStr "eu"])]]
                          ltac:(vm_compute; reflexivity))));
      vm_compute; reflexivity.
Defined.

(** ** Escaping *)

Lemma doubled_free (a : string) :
  contains a "'" = false -> doubled a = a.
Proof.
  induction a as [|c a IH]; intros H; [reflexivity|].
  rewrite contains_char in H. apply orb_false_iff in H. destruct H as [Hc Ha].
  cbn [doubled]. rewrite Ascii.eqb_sym, Hc. now rewrite IH.
Qed.

Lemma unquoted_free (a : string) :
  contains a "'" = false -> unquoted a = a.
Proof.
  induction a as [|c a IH]; intros H; [reflexivity|].
  rewrite contains_char in H. apply orb_false_iff in H. destruct H as [Hc Ha].
  cbn [unquoted]. rewrite Ascii.eqb_sym, Hc. now rewrite IH.
Qed.

Lemma doubled_cut (a b : string) :
  contains a "'" = false ->
  doubled (a ++ String "'" b) = a ++ "''" ++ doubled b.
Proof.
  induction a as [|c a IH]; intros H; [reflexivity|].
  rewrite contains_char in H. apply orb_false_iff in H. destruct H as [Hc Ha].
  simpl append. cbn [doubled]. rewrite Ascii.eqb_sym, Hc.
  now rewrite (IH Ha).
Qed.

Lemma unquoted_cut (a b : string) :
  contains a "'" = false ->
  unquoted (a ++ String "'" b) = a ++ unquoted b.
Proof.
  induction a as [|c a IH]; intros H; [reflexivity|].
  rewrite contains_char in H. apply orb_false_iff in H. destruct H as [Hc Ha].
  simpl append. cbn [unquoted]. rewrite Ascii.eqb_sym, Hc.
  now rewrite (IH Ha).
Qed.

Lemma replace_is_doubled (n : nat) (s : string) :
  (String.length s <= n)%nat ->
  replace_fuel n "'" "''" s = doubled s.
Proof.
  revert s. induction n as [|n IH]; intros s Hlen; cbn [replace_fuel];
    pose proof (find_char_inv "'" s) as Hinv;
    destruct (find_sub "'" s) as [[a b]|].
  - destruct Hinv as [-> _]. rewrite length_append in Hlen.
    simpl in Hlen. lia.
  - now rewrite doubled_free.
  - destruct Hinv as [-> Ha]. rewrite doubled_cut by exact Ha.
    rewrite IH; [reflexivity|].
    rewrite length_append in Hlen. simpl in Hlen. lia.
  - now rewrite doubled_free.
Qed.

(** A text without apostrophes holds no pair of them. *)
Lemma no_pair (a : string) :
  contains a "'" = false -> contains a "''" = false.
Proof.
  induction a as [|c a IH]; intros H; [reflexivity|].
  rewrite contains_char in H. apply orb_false_iff in H. destruct H as [Hc Ha].
  cbn [contains]. rewrite (IH Ha), orb_false_r.
  cbn [startswith]. now rewrite Hc.
Qed.

(** The first pair of apostrophes after a text without any is found
    right there. *)
Lemma find_pair (a t : string) :
  contains a "'" = false ->
  find_sub "''" (a ++ "''" ++ t) = Some (a, t).
Proof.
  induction a as [|c a IH]; intros H; [reflexivity|].
  rewrite contains_char in H. apply orb_false_iff in H. destruct H as [Hc Ha].
  simpl append. cbn [find_sub].
  assert (Hno : startswith (String c (a ++ String "'" (String "'" t))) "''"
                = false) by (cbn [startswith]; now rewrite Hc).
  rewrite Hno. simpl append in IH. now rewrite (IH Ha).
Qed.

Lemma doubled_length (s : string) :
  (String.length s <= String.length (doubled s))%nat.
Proof.
  induction s as [|c r IH]; simpl; [lia|].
  destruct (Ascii.eqb c "'"); simpl; lia.
Qed.

Lemma unpair_doubled (n : nat) (s : string) :
  (String.length s <= n)%nat ->
  replace_fuel n "''" EmptyString (doubled s) = unquoted s.
Proof.
  revert s. induction n as [|n IH]; intros s Hlen;
    pose proof (find_char_inv "'" s) as Hinv;
    destruct (find_sub "'" s) as [[a b]|].
  - destruct Hinv as [-> _]. rewrite length_append in Hlen.
    simpl in Hlen. lia.
  - rewrite doubled_free, unquoted_free by exact Hinv.
    cbn [replace_fuel].
    now rewrite (contains_false_find _ _ (no_pair _ Hinv)).
  - destruct Hinv as [-> Ha].
    rewrite doubled_cut, unquoted_cut by exact Ha.
    cbn [replace_fuel]. rewrite (find_pair a (doubled b) Ha).
    rewrite IH; [reflexivity|].
    rewrite length_append in Hlen. simpl in Hlen. lia.
  - rewrite doubled_free, unquoted_free by exact Hinv.
    cbn [replace_fuel].
    now rewrite (contains_false_find _ _ (no_pair _ Hinv)).
Qed.

Lemma unquoted_has_none (s : string) : contains (unquoted s) "'" = false.
Proof.
  induction s as [|c r IH]; [reflexivity|].
  cbn [unquoted]. destruct (Ascii.eqb c "'") eqn:E; [exact IH|].
  now rewrite contains_char, Ascii.eqb_sym, E, IH.
Qed.

(** X27. In a text escaped by [_escape_sql] every apostrophe is
    doubled: taking the pairs of apostrophes out, from left to right,
    leaves no apostrophe, so the escaped text cannot end the SQL
    literal it is put in. A text without apostrophes is escaped to
    itself. *)
Theorem escaped_text_has_no_lone_apostrophe (value : string) :
  contains (replace "''" EmptyString (OptimusDBSearch._escape_sql value)) "'"
  = false
  /\ (contains value "'" = false -> OptimusDBSearch._escape_sql value = value).
Proof.
  unfold OptimusDBSearch._escape_sql. split.
  - destruct (nonempty value); cbn [negb]; [|reflexivity].
    unfold replace at 2. rewrite replace_is_doubled by lia.
    unfold replace. rewrite unpair_doubled by apply doubled_length.
    apply unquoted_has_none.
  - intros H. destruct value; [reflexivity|]. cbn [nonempty negb].
    now apply replace_absent.
Qed.

Lemma escaped_text_has_no_lone_apostrophe_witness :
  OptimusDBSearch._escape_sql "orders" = "orders".
Proof.
  apply (proj2 (escaped_text_has_no_lone_apostrophe "orders")). reflexivity.
Defined.

(** ** The base URL *)

(** X28. The base URL the search proxy keeps always starts with a
    scheme, and the value of the environment variable is kept as it is
    when it has one. *)
Theorem base_url_has_a_scheme (env host : option string) :
  (startswith (OptimusDBSearch.init_url env host) "http://"
   || startswith (OptimusDBSearch.init_url env host) "https://" = true)
  /\ forall u : string,
       env = Some u ->
       startswith u "http://" || startswith u "https://" = true ->
       OptimusDBSearch.init_url env host = u.
Proof.
  split.
  - unfold OptimusDBSearch.init_url. cbv zeta.
    set (url := if negb (nonempty (OptimusDBSearch.opt_or env EmptyString))
                then OptimusDBSearch.opt_or host "http://localhost:18001"
                else OptimusDBSearch.opt_or env EmptyString).
    assert (Hne : nonempty url = true).
    { subst url.
      destruct (nonempty (OptimusDBSearch.opt_or env EmptyString)) eqn:E;
        cbn [negb]; [exact E|].
      destruct host as [h|]; [|reflexivity].
      cbn [OptimusDBSearch.opt_or]. now destruct (nonempty h) eqn:Eh. }
    rewrite Hne. cbn [andb].
    destruct (startswith url "http://" || startswith url "https://") eqn:E;
      cbn [negb]; [exact E|].
    now rewrite startswith_append.
  - intros u -> Hu. unfold OptimusDBSearch.init_url. cbv zeta.
    cbn [OptimusDBSearch.opt_or].
    assert (Hne : nonempty u = true) by (destruct u; [discriminate Hu|reflexivity]).
    rewrite !Hne. cbn [negb]. rewrite !Hne, !Hu. reflexivity.
Qed.

Lemma base_url_has_a_scheme_witness :
  OptimusDBSearch.init_url (Some "https://optimusdb:8089") (Some "elasticsearch")
  = "https://optimusdb:8089".
Proof.
  apply (proj2 (base_url_has_a_scheme (Some "https://optimusdb:8089")
                  (Some "elasticsearch")) "https://optimusdb:8089");
    reflexivity.
Defined.

End SearchServiceFacts.

(* ================================================================== *)
(** * Discovery, and the search over what it finds *)
(* ================================================================== *)

Section DiscoveryFacts.

Import OptimusDBProxy Design Invariants Samples.

Variable py_str : pyval -> string.
Variable now : Z.

Lemma text_or_empty_ok (v : pyval) :
  is_ok (text_or_empty v) = str_or_false v.
Proof.
  unfold text_or_empty, str_or_false.
  destruct (truthy v); [now destruct v | reflexivity].
Qed.

Lemma entry_of_ok (node : string) (rec : pyval) :
  is_ok (entry_of py_str now node rec) = convertible rec.
Proof.
  unfold entry_of. destruct rec as [| | | | | |r]; try reflexivity.
  cbn [py_get bind convertible]. unfold build_key_of.
  rewrite <- !text_or_empty_ok.
  destruct (text_or_empty (dict_get r "component" (PStr "optimusdb")));
    cbn [bind is_ok andb]; [|now rewrite !andb_false_r].
  destruct (text_or_empty (dict_get r "metadata_type" (PStr "default")));
    cbn [bind is_ok andb]; [|now rewrite !andb_false_r].
  destruct (text_or_empty (dict_get r "name" (PStr "unknown")));
    cbn [bind is_ok andb]; [|now rewrite !andb_false_r].
  rewrite !andb_true_r.
  unfold text_or_empty, py_or.
  destruct (truthy (dict_get r "tags" (PStr EmptyString)));
    [now destruct (dict_get r "tags" (PStr EmptyString)) | reflexivity].
Qed.

(** What an entry holds of its row. *)
Lemma entry_of_fields (node : string) (r : dict) (entry : pyval) :
  entry_of py_str now node (PDict r) = Ok entry ->
  exists (e : dict) (key : string) (tags : list string) (cols : list string),
    entry = PDict e
    /\ preview entry = PDict r
    /\ dict_get e "key" PNone = PStr key /\ contains key " " = false
    /\ isinstance_str (dict_get e "name" (PStr EmptyString)) = true
    /\ dict_get e "schema" (PStr EmptyString)
       = dict_get r "metadata_type" (PStr "default")
    /\ dict_get e "database" (PStr EmptyString)
       = dict_get r "component" (PStr "optimusdb")
    /\ (forall v, dict_find r "description" = Some v ->
                  dict_get e "description" (PStr EmptyString) = v)
    /\ (dict_find r "description" = None ->
        isinstance_str (dict_get e "description" (PStr EmptyString)) = true)
    /\ dict_get e "tags" (PList []) = PList (map PStr tags)
    /\ dict_get e "column_names" (PList []) = PList (map PStr cols).
Proof.
  unfold entry_of. cbn [py_get bind]. intros H.
  destruct (build_key_of (dict_get r "component" (PStr "optimusdb"))
              (dict_get r "metadata_type" (PStr "default"))
              (dict_get r "name" (PStr "unknown"))) as [key|e] eqn:Ek;
    cbn [bind] in H; [|discriminate H].
  destruct (py_split "," (py_or (dict_get r "tags" (PStr EmptyString))
                                (PStr EmptyString))) as [tags|e];
    cbn [bind] in H; [|discriminate H].
  injection H as <-.
  eexists _, key, tags, _. split; [reflexivity|].
  split; [reflexivity|]. split; [reflexivity|]. split.
  { unfold build_key_of in Ek.
    destruct (text_or_empty (dict_get r "component" (PStr "optimusdb")));
      cbn [bind] in Ek; [|discriminate Ek].
    destruct (text_or_empty (dict_get r "metadata_type" (PStr "default")));
      cbn [bind] in Ek; [|discriminate Ek].
    destruct (text_or_empty (dict_get r "name" (PStr "unknown")));
      cbn [bind] in Ek; [|discriminate Ek].
    injection Ek as <-. unfold _build_table_key. cbv zeta.
    rewrite !replace_char, !contains_char_append.
    rewrite !swap_removes by reflexivity. reflexivity. }
  split; [reflexivity|]. split; [reflexivity|]. split; [reflexivity|].
  split; [|split; [|split; reflexivity]].
  - intros v Hv. unfold dict_get at 1. simpl dict_find.
    unfold dict_get. now rewrite Hv.
  - intros Hnone. unfold dict_get at 1. simpl dict_find.
    unfold dict_get. now rewrite Hnone.
Qed.

Lemma discover_loop_spec (node : string) (records datasets : list pyval) :
  exists (k : nat) (new : list pyval),
    discover_loop py_str now node records datasets = (datasets ++ new)%list
    /\ map preview new = firstn k records
    /\ Forall2 (fun rec entry => entry_of py_str now node rec = Ok entry)
               (firstn k records) new
    /\ (forallb convertible records = true -> k = List.length records).
Proof.
  revert datasets. induction records as [|rec r IH]; intros datasets.
  - exists 0%nat, []. rewrite List.app_nil_r. repeat split. constructor.
  - cbn [discover_loop forallb].
    pose proof (entry_of_ok node rec) as Hok.
    destruct (entry_of py_str now node rec) as [entry|e] eqn:E.
    + destruct (IH (datasets ++ [entry])%list) as (k & new & Hl & Hp & Hf & Hk).
      exists (S k), (entry :: new). rewrite Hl, <- List.app_assoc.
      split; [reflexivity|]. split; [|split].
      * cbn [map firstn]. rewrite Hp. f_equal.
        destruct rec as [| | | | | |d]; try discriminate E.
        now destruct (entry_of_fields node d entry E)
          as (e' & key & tags & cols & _ & Hprev & _).
      * cbn [firstn]. now constructor.
      * intros Hc. apply andb_true_iff in Hc. destruct Hc as [_ Hc].
        simpl. now rewrite (Hk Hc).
    + exists 0%nat, []. rewrite List.app_nil_r. repeat split; [constructor|].
      intros Hc. simpl in Hok. rewrite <- Hok in Hc. discriminate Hc.
Qed.

(** The loop keeps the rows before the first it cannot convert. *)
Lemma discover_loop_leading (node : string) (records datasets : list pyval) :
  map preview (discover_loop py_str now node records datasets)
  = (map preview datasets ++ leading records)%list.
Proof.
  revert datasets. induction records as [|rec r IH]; intros datasets.
  - simpl. now rewrite List.app_nil_r.
  - cbn [discover_loop leading].
    pose proof (entry_of_ok node rec) as Hok.
    destruct (entry_of py_str now node rec) as [entry|e] eqn:E;
      cbn [is_ok] in Hok; rewrite <- Hok.
    + rewrite IH, map_app, <- List.app_assoc. cbn [map app].
      destruct rec as [| | | | | |d]; try discriminate E.
      now destruct (entry_of_fields node d entry E)
        as (e' & key & tags & cols & _ & -> & _).
    + now rewrite List.app_nil_r.
Qed.

Lemma leading_all (records : list pyval) :
  forallb convertible records = true -> leading records = records.
Proof.
  induction records as [|rec r IH]; [reflexivity|].
  cbn [forallb leading]. intros H. apply andb_true_iff in H.
  destruct H as [-> H]. now rewrite IH.
Qed.

(** X29. [discover_datasets] builds its entries from the rows of the
    reply in their order, one entry per row, and stops at the first row
    it cannot convert (one that is no mapping, or whose tags,
    component, metadata type or name is neither false nor a string):
    the rows its entries were built from are exactly the rows before
    that one, so that row and all rows after it are left out. When
    every row can be converted there is one entry per row. The key of
    an entry contains no space. *)
Theorem discovery_converts_a_prefix (post : transport)
    (resp : Http.response) (records : list pyval) :
  post "select * from datacatalog;" = Ok resp ->
  ok resp = true ->
  records_of (_parse_optimusdb_response resp) = Ok (PList records) ->
  map preview (discover_datasets py_str now post) = leading records
  /\ (forallb convertible records = true ->
      map preview (discover_datasets py_str now post) = records)
  /\ (forall (before after : list pyval) (rec : pyval),
        records = (before ++ rec :: after)%list ->
        forallb convertible before = true ->
        convertible rec = false ->
        map preview (discover_datasets py_str now post) = before)
  /\ Forall (fun entry =>
               exists (e : dict) (key : string),
                 entry = PDict e
                 /\ dict_get e "key" PNone = PStr key
                 /\ contains key " " = false)
            (discover_datasets py_str now post).
Proof.
  intros Hpost Hok Hrec.
  assert (Hlead : map preview (discover_datasets py_str now post)
                  = leading records).
  { unfold discover_datasets. cbv zeta.
    rewrite Hpost, Hok. cbn [negb]. rewrite Hrec.
    now rewrite discover_loop_leading. }
  split; [exact Hlead|]. split; [|split].
  - intros Hc. now rewrite Hlead, leading_all.
  - intros before after rec -> Hb Hr. rewrite Hlead. clear Hlead Hrec.
    induction before as [|x before IH]; cbn [app leading].
    + now rewrite Hr.
    + cbn [forallb] in Hb. apply andb_true_iff in Hb.
      destruct Hb as [-> Hb]. now rewrite IH.
  - unfold discover_datasets. cbv zeta.
    rewrite Hpost, Hok. cbn [negb]. rewrite Hrec.
    destruct (discover_loop_spec "optimusdb1" records [])
      as (k & new & Hl & Hp & Hf & Hk).
    simpl app in Hl. rewrite Hl.
    clear Hl Hp Hk. induction Hf as [|rec entry l l' He Hf IH]; [constructor|].
    constructor; [|exact IH].
    destruct rec as [| | | | | |d]; try discriminate He.
    destruct (entry_of_fields _ d entry He)
      as (e & key & tags & cols & -> & _ & Hkey & Hfree & _).
    now exists e, key.
Qed.

Lemma str_default (r : dict) (k a b : string) :
  isinstance_str (dict_get r k (PStr a))
  = isinstance_str (dict_get r k (PStr b)).
Proof. unfold dict_get. now destruct (dict_find r k). Qed.

Lemma first_hit_strings (hit : string -> string -> bool) (l : list string)
    (q : string) :
  exists b : bool, first_hit hit (map PStr l) q = Ok b.
Proof.
  induction l as [|x r [b IH]]; [now exists false|].
  cbn [map first_hit py_lower bind].
  destruct (hit q (lower x)); [now exists true | now exists b].
Qed.

(** The scorer returns on an entry of discovery whose row has strings
    for its description, metadata type and component. *)
Lemma entry_scores (node : string) (r : dict) (entry : pyval) (q : string) :
  entry_of py_str now node (PDict r) = Ok entry ->
  text_row (PDict r) = true ->
  is_ok (_calculate_search_score entry q) = true.
Proof.
  intros He Ht.
  destruct (entry_of_fields node r entry He)
    as (e & key & tags & cols & -> & _ & _ & _ & Hname & Hschema & Hdb
        & Hdesc & Hnodesc & Htags & Hcols).
  cbn [text_row] in Ht.
  apply andb_true_iff in Ht. destruct Ht as [Ht Hc].
  apply andb_true_iff in Ht. destruct Ht as [Hd Hm].
  assert (Hs : isinstance_str (dict_get e "schema" (PStr EmptyString)) = true)
    by (now rewrite Hschema, (str_default r _ "default" EmptyString)).
  assert (Hb : isinstance_str (dict_get e "database" (PStr EmptyString)) = true)
    by (now rewrite Hdb, (str_default r _ "optimusdb" EmptyString)).
  assert (Hde : isinstance_str (dict_get e "description" (PStr EmptyString))
                = true).
  { destruct (dict_find r "description") as [v|] eqn:Ef.
    - rewrite (Hdesc v eq_refl). unfold dict_get in Hd. now rewrite Ef in Hd.
    - now apply Hnodesc. }
  unfold _calculate_search_score.
  destruct (nonempty q); cbn [negb]; [|reflexivity].
  cbn [py_get bind].
  destruct (dict_get e "name" (PStr EmptyString)); try discriminate Hname.
  destruct (dict_get e "schema" (PStr EmptyString)); try discriminate Hs.
  destruct (dict_get e "description" (PStr EmptyString)); try discriminate Hde.
  destruct (dict_get e "database" (PStr EmptyString)); try discriminate Hb.
  rewrite Htags, Hcols. cbn [py_lower py_iter bind].
  destruct (first_hit_strings (fun q t => String.eqb q t || contains t q)
              tags q) as [b1 ->].
  destruct (first_hit_strings (fun q c => contains c q) cols q) as [b2 ->].
  reflexivity.
Qed.

(** The scorer raises on an entry of discovery whose row has something
    else there. *)
Lemma entry_fails (node : string) (r : dict) (entry : pyval) (q : string) :
  entry_of py_str now node (PDict r) = Ok entry ->
  text_row (PDict r) = false ->
  nonempty q = true ->
  is_ok (_calculate_search_score entry q) = false.
Proof.
  intros He Ht Hq.
  destruct (entry_of_fields node r entry He)
    as (e & key & tags & cols & -> & _ & _ & _ & Hname & Hschema & Hdb
        & Hdesc & Hnodesc & _).
  apply score_raises; [exact Hq|].
  unfold text_fields. rewrite Hname, Hschema, Hdb. cbn [andb].
  assert (Hd : isinstance_str (dict_get e "description" (PStr EmptyString))
               = isinstance_str (dict_get r "description" (PStr EmptyString))).
  { destruct (dict_find r "description") as [v|] eqn:Ef.
    - rewrite (Hdesc v eq_refl). unfold dict_get. now rewrite Ef.
    - rewrite (Hnodesc eq_refl). unfold dict_get. now rewrite Ef. }
  rewrite Hd, (str_default r "metadata_type" "default" EmptyString),
    (str_default r "component" "optimusdb" EmptyString).
  cbn [text_row] in Ht.
  destruct (isinstance_str (dict_get r "description" (PStr EmptyString))),
    (isinstance_str (dict_get r "metadata_type" (PStr EmptyString))),
    (isinstance_str (dict_get r "component" (PStr EmptyString)));
    try reflexivity; discriminate Ht.
Qed.

(** X30. The table search runs over what discovery finds. When every
    row of the catalog can be converted and has strings for its
    description, metadata type and component, every discovered dataset
    can be scored. One row with something else there, a description
    that is JSON null, say, makes every search for a non-blank query
    return the empty result, whatever the other rows are. *)
Theorem one_null_field_empties_every_search (post : transport)
    (resp : Http.response) (records : list pyval) (query_term : string)
    (page : Z) :
  post "select * from datacatalog;" = Ok resp ->
  ok resp = true ->
  records_of (_parse_optimusdb_response resp) = Ok (PList records) ->
  forallb convertible records = true ->
  (forallb text_row records = true ->
   forall d : pyval,
     In d (_get_all_datasets_for_search py_str now post) ->
     is_ok (_calculate_search_score d (strip (lower query_term))) = true)
  /\ (forallb text_row records = false ->
      nonempty (strip (lower query_term)) = true ->
      get_table_by_search (_get_all_datasets_for_search py_str now post)
        query_term page
      = mk_search_result 0 [] page).
Proof.
  intros Hpost Hok Hrec Hconv.
  unfold _get_all_datasets_for_search, discover_datasets. cbv zeta.
  rewrite Hpost, Hok. cbn [negb]. rewrite Hrec.
  destruct (discover_loop_spec "optimusdb1" records [])
    as (k & new & Hl & _ & Hf & Hk).
  simpl app in Hl. rewrite Hl. rewrite (Hk Hconv), firstn_all in Hf.
  clear Hl Hk Hconv Hrec. split.
  - intros Htext d Hd.
    induction Hf as [|rec entry l l' He Hf IH]; [destruct Hd|].
    cbn [forallb] in Htext. apply andb_true_iff in Htext.
    destruct Htext as [Hr Hl]. destruct Hd as [<-|Hd]; [|now apply IH].
    destruct rec as [| | | | | |r]; try discriminate Hr.
    now apply (entry_scores "optimusdb1" r).
  - intros Htext Hq. unfold get_table_by_search.
    assert (Hbad : exists d, In d new
                     /\ is_ok (_calculate_search_score d
                                 (strip (lower query_term))) = false).
    { induction Hf as [|rec entry l l' He Hf IH]; [discriminate Htext|].
      cbn [forallb] in Htext.
      destruct (text_row rec) eqn:Hr.
      - destruct (IH Htext) as (d & Hd & Hs). exists d. split; [now right|].
        exact Hs.
      - exists entry. split; [now left|].
        destruct rec as [| | | | | |r]; try discriminate He.
        now apply (entry_fails "optimusdb1" r). }
    destruct Hbad as (d & Hd & Hs).
    pose proof (score_all_raises _ new d [] Hd Hs) as H.
    destruct (score_all new (strip (lower query_term)) []);
      [discriminate H | reflexivity].
Qed.

End DiscoveryFacts.

Lemma one_null_field_empties_every_search_witness :
  OptimusDBProxy.get_table_by_search
    (OptimusDBProxy._get_all_datasets_for_search (fun _ => EmptyString) 0
       (Design.answers
          (Json.dumps
             (Design.envelope
                [PDict Samples.sample_record;
                 PDict [("name", PStr "items"); ("description", PNone)]]))))
    "orders" 0
  = OptimusDBProxy.mk_search_result 0 [] 0.
Proof.
  apply (proj2 (one_null_field_empties_every_search (fun _ => EmptyString) 0
                  (Design.answers
                     (Json.dumps
                        (Design.envelope
                           [PDict Samples.sample_record;
                            PDict [("name", PStr "items");
                                   ("description", PNone)]])))
                  (Design.reply
                     (Json.dumps
                        (Design.envelope
                           [PDict Samples.sample_record;
                            PDict [("name", PStr "items");
                                   ("description", PNone)]])))
                  [PDict Samples.sample_record;
                   PDict [("name", PStr "items"); ("description", PNone)]]
                  "orders" 0 eq_refl eq_refl
                  ltac:(vm_compute; reflexivity)
                  ltac:(vm_compute; reflexivity)));
    vm_compute; reflexivity.
Defined.

Lemma discovery_converts_a_prefix_witness :
  map Invariants.preview
    (OptimusDBProxy.discover_datasets (fun _ => EmptyString) 0
       (Design.answers
          (Json.dumps
             (Design.envelope
                [PDict Samples.sample_record; PDict [("name", PInt 7)];
                 PDict [("name", PStr "items")]]))))
  = [PDict Samples.sample_record].
Proof.
  apply (proj1 (proj2 (proj2 (discovery_converts_a_prefix
                                (fun _ => EmptyString) 0
                                (Design.answers
                                   (Json.dumps
                                      (Design.envelope
                                         [PDict Samples.sample_record;
                                          PDict [("name", PInt 7)];
                                          PDict [("name", PStr "items")]])))
                                (Design.reply
                                   (Json.dumps
                                      (Design.envelope
                                         [PDict Samples.sample_record;
                                          PDict [("name", PInt 7)];
                                          PDict [("name", PStr "items")]])))
                                [PDict Samples.sample_record;
                                 PDict [("name", PInt 7)];
                                 PDict [("name", PStr "items")]]
                                eq_refl eq_refl
                                ltac:(vm_compute; reflexivity))))
           [PDict Samples.sample_record] [PDict [("name", PStr "items")]]
           (PDict [("name", PInt 7)]));
    vm_compute; reflexivity.
Defined.
